(** * Airtable-Sheets-Sync: a shallow embedding of the sync script

    The development embeds the Google Apps Script program
    [src/google-apps-script/SheetsToAirtableSync.js] (module [Script]) and its
    multi-destination revision 1.1.0 reproduced in [CONFIGURATION.md] (module
    [MultiTarget]), and states the properties of the specification over them.

    - JavaScript numbers are IEEE-754 binary64 values: Rocq's primitive
      [float], so [NaN], the infinities and the signed zeros behave as they
      do in the script.
    - The script properties are a [gmap string string].  The objects
      [formTotals] and [formDonations], used as maps, are the [gmap] of their
      own properties, read through [JS.get]: on an object created by [{}] a
      key that names a member of [Object.prototype] (such as [constructor]
      or [toString]) reads an inherited function and not [undefined].
    - The platform services ([UrlFetchApp], [SpreadsheetApp],
      [PropertiesService], [Utilities], [Date], [parseFloat], [parseInt]) are
      the fields of the class [Host]; what the script does to them is
      recorded, most recent first, in the [history] of the [world].  What
      the platform answers may depend on the whole history, so a clock that
      advances, a sheet that is edited or a network that fails now and then
      are all instances.
    - Of the platform calls only [UrlFetchApp.fetch] and [JSON.parse] are
      taken to throw: the [try]/[catch] blocks of the script show as the
      cases of a [fetch_result].  Appending to the "Logs" sheet, sleeping and
      reading or writing a script property are taken to succeed.
    - A log row is its type and its message; the timestamp column and the
      formatting of the "Logs" sheet are left out. *)

From Stdlib Require Import ZArith List String Ascii Bool Floats Uint63 Lia.
From stdpp Require Import base option list gmap strings.
Import ListNotations.

Local Open Scope string_scope.
Local Open Scope list_scope.

(** ** JavaScript numbers *)

Module JS.

(** [ToBoolean] on a number: [0], [-0] and [NaN] are falsy. *)
Definition truthy (x : float) : bool :=
  negb ((x =? 0)%float || is_nan x).

(** [x || d] on numbers. *)
Definition or_else (x d : float) : float :=
  if truthy x then x else d.

(** [x > y]. *)
Definition gt (x y : float) : bool := (y <? x)%float.

(** [x < y]. *)
Definition lt (x y : float) : bool := (x <? y)%float.

(** The cell values [Range.getValues] hands to the script, and [undefined]
    for an index past the end of a row. *)
Inductive value :=
| VUndefined
| VString (s : string)
| VNumber (x : float)
| VBool (b : bool)
| VDate (t : float).

(** [ToBoolean] on a cell value. *)
Definition value_truthy (v : value) : bool :=
  match v with
  | VUndefined => false
  | VString s => negb (String.eqb s "")
  | VNumber x => truthy x
  | VBool b => b
  | VDate _ => true
  end.

(** [ToBoolean] on a string. *)
Definition string_truthy (s : string) : bool := negb (String.eqb s "").

(** [a || b] on strings. *)
Definition string_or (a b : string) : string :=
  if string_truthy a then a else b.

(** [row[i]]: [undefined] past the end. *)
Definition index (row : list value) (i : nat) : value :=
  nth i row VUndefined.

(** [headers.indexOf(name)] for a string [name]: strict equality, so only a
    string cell can match; [None] stands for [-1]. *)
Fixpoint array_indexOf (headers : list value) (name : string) : option nat :=
  match headers with
  | [] => None
  | VString s :: rest =>
      if String.eqb s name then Some 0%nat
      else S <$> array_indexOf rest name
  | _ :: rest => S <$> array_indexOf rest name
  end.

(** [formSlugs.includes(v)] on an array of strings: SameValueZero never
    identifies a string with a value of another type. *)
Definition includes (formSlugs : list string) (v : value) : bool :=
  match v with
  | VString s => existsb (String.eqb s) formSlugs
  | _ => false
  end.

(** [s.indexOf(pat)]: the position of the first occurrence; [None] stands
    for [-1]. *)
Fixpoint indexOf (pat s : string) : option nat :=
  if String.prefix pat s then Some 0%nat
  else match s with
       | EmptyString => None
       | String _ s' => S <$> indexOf pat s'
       end.

(** [s.replace(pat, '')] for a string pattern: the first occurrence of
    [pat] is cut out, and [s] is returned unchanged when there is none. *)
Definition replace_with_empty (pat s : string) : string :=
  match indexOf pat s with
  | None => s
  | Some n =>
      String.substring 0 n s +:+
      String.substring (n + String.length pat)
                       (String.length s - (n + String.length pat)) s
  end.

(** The names every object inherits from [Object.prototype]:
    [({})["toString"]] is a function, not [undefined]. *)
Definition Object_prototype : list string :=
  [ "constructor"; "hasOwnProperty"; "isPrototypeOf"; "propertyIsEnumerable";
    "toLocaleString"; "toString"; "valueOf"; "__defineGetter__";
    "__defineSetter__"; "__lookupGetter__"; "__lookupSetter__"; "__proto__" ].

(** What reading a property of [formTotals] or [formDonations] can give
    besides [undefined]: a number, or something that is none (an inherited
    function, [Object.prototype] itself for [__proto__], or the text [+=]
    makes of these). *)
Inductive stored :=
| Num (x : float)
| Other.

(** [ToBoolean] on what a property read gives: functions, objects and the
    non-empty text made of them are truthy. *)
Definition stored_truthy (v : option stored) : bool :=
  match v with
  | None => false
  | Some (Num x) => truthy x
  | Some Other => true
  end.

(** [v + x] for a number [x]: [undefined + x] is [NaN], and a function or a
    text is concatenated with the text of [x]. *)
Definition plus (v : option stored) (x : float) : stored :=
  match v with
  | None => Num nan
  | Some (Num a) => Num (a + x)%float
  | Some Other => Other
  end.

(** [v || 0]. *)
Definition or_zero (v : option stored) : stored :=
  match v with
  | None => Num 0
  | Some (Num x) => Num (or_else x 0)
  | Some Other => Other
  end.

(** [v !== undefined]. *)
Definition defined (v : option stored) : bool :=
  match v with
  | None => false
  | Some _ => true
  end.

(** [m[k]] on an object created by [{}]: an own property, else what
    [Object.prototype] has under that name, else [undefined] ([None]). *)
Definition get (m : gmap string stored) (k : string) : option stored :=
  match m !! k with
  | Some v => Some v
  | None => if bool_decide (k ∈ Object_prototype) then Some Other else None
  end.

(** [m[k] = v] for a number or a text [v]: it creates or overwrites an own
    property, except that assigning a primitive to [__proto__] does
    nothing. *)
Definition set (m : gmap string stored) (k : string) (v : stored)
    : gmap string stored :=
  if String.eqb k "__proto__" then m else <[k := v]> m.

End JS.

(** ** Data model *)

(** An item of the [records] collection of the Airtable response. *)
Record AirtableRecord := {
  ar_id : string;
  ar_fields : gmap string string;
}.

(** What [fetchAirtableRecords] returns for one record. *)
Record RemoteRecord := {
  r_id : string;
  r_actBlueUrl : string;
  r_formSlug : string;
}.

(** What [getSheetData] pushes for one row. *)
Record SheetRow := {
  formName : string;
  dollarsRaised : float;
  numDonations : float;
}.

(** What [processData] pushes for one matched record. *)
Record UpdateInstruction := {
  u_id : string;
  raised : JS.stored;
  donations : JS.stored;
}.

(** ** Effects *)

(** A log message keeps the shape of the template string it comes from. *)
Inductive frag :=
| T (text : string)
| N (n : nat)
| F (x : JS.stored).

Inductive level := INFO | ERROR.

Inductive method := GET | PATCH.

(** A request as the script prepares it.  [req_fields] holds the fields of
    the payload object; the body that goes out is [JSON.stringify(payload)],
    which the vocabulary below describes ([written]). *)
Record request := {
  req_method : method;
  req_url : string;
  req_bearer : string;
  req_fields : list (string * JS.stored);
}.

(** The body of a response, as [JSON.parse] and [data.records] see it. *)
Inductive body :=
| Unparsable (msg : string)
| Parsed (records : option (list AirtableRecord)).

(** [UrlFetchApp.fetch] either throws or returns a response. *)
Inductive fetch_result :=
| Throws (msg : string)
| Response (code : nat) (content : body).

Inductive event :=
| Log (lv : level) (m : list frag)
| GetProperty (key : string)
| SetProperty (key value : string)
| Fetch (r : request)
| Sleep (ms : nat).

(** The state the script can change: the script properties and the record of
    what it did, most recent first. *)
Record world := {
  props : gmap string string;
  history : list event;
}.

(** The platform.  What it answers may depend on everything done so far. *)
Class Host := {
  parseFloat : JS.value -> float;
  parseInt : JS.value -> float;
  Date_parse : string -> float;
  Date_toISOString : float -> string;
  Date_now : list event -> float;
  UrlFetchApp_fetch : list event -> request -> fetch_result;
  getSheetValues : list event -> string -> option (list (list JS.value));
}.

(** A small state monad over [world]. *)
Definition M (A : Type) : Type := world -> A * world.

Definition ret {A} (a : A) : M A := fun w => (a, w).

Definition bind {A B} (m : M A) (k : A -> M B) : M B :=
  fun w => let (a, w') := m w in k a w'.

Declare Scope script_scope.
Delimit Scope script_scope with script.
Notation "x <- m ;; k" := (bind m (fun x => k))
  (at level 100, m at next level, right associativity) : script_scope.
Notation "m ;;; k" := (bind m (fun _ => k))
  (at level 100, right associativity) : script_scope.
Local Open Scope script_scope.

Definition emit (e : event) : M unit :=
  fun w => (tt, {| props := props w; history := e :: history w |}).

(** [logMessage] and [logError] append one row to the "Logs" sheet. *)
Definition logMessage (m : list frag) : M unit := emit (Log INFO m).
Definition logError (m : list frag) : M unit := emit (Log ERROR m).

(** [PropertiesService.getScriptProperties().getProperty(key)]. *)
Definition getProperty (key : string) : M (option string) :=
  fun w => (props w !! key,
            {| props := props w; history := GetProperty key :: history w |}).

(** [PropertiesService.getScriptProperties().setProperty(key, value)]. *)
Definition setProperty (key value : string) : M unit :=
  fun w => (tt, {| props := <[key := value]> (props w);
                   history := SetProperty key value :: history w |}).

Section WithHost.
Context `{Host}.

(** [new Date()], as a time value. *)
Definition new_Date : M float := fun w => (Date_now (history w), w).

(** [UrlFetchApp.fetch(url, options)]. *)
Definition fetch (r : request) : M fetch_result :=
  fun w => (UrlFetchApp_fetch (history w) r,
            {| props := props w; history := Fetch r :: history w |}).

(** [Utilities.sleep(ms)]. *)
Definition sleep (ms : nat) : M unit := emit (Sleep ms).

(** [ss.getSheetByName(name)] followed by [getDataRange().getValues()]. *)
Definition readSheet (name : string) : M (option (list (list JS.value))) :=
  fun w => (getSheetValues (history w) name, w).

End WithHost.

(** ** The functions both revisions of the script share *)

Definition SHEET_NAME : string := "raw_import".
Definition RATE_LIMIT_PROP_KEY : string := "lastAutoSyncTime".
Definition ACTBLUE_URL_PREFIX : string := "https://secure.actblue.com/donate/".

(** The string of a string value (the only values [JS.includes] accepts). *)
Definition string_of (v : JS.value) : string :=
  match v with
  | JS.VString s => s
  | _ => ""
  end.

(** The local variables of the row loop of [getSheetData]. *)
Record scan := {
  sheetData : list SheetRow;
  processedRows : nat;
  matchedRows : nat;
}.

Section Shared.
Context `{Host}.

(** [shouldRespectRateLimit], for the revision's [RATE_LIMIT_HOURS]. *)
Definition shouldRespectRateLimit (RATE_LIMIT_HOURS : float) : M bool :=
  lastSyncTimeStr <- getProperty RATE_LIMIT_PROP_KEY ;;
  match lastSyncTimeStr with
  | None => ret false
  | Some s =>
      if negb (JS.string_truthy s) then ret false
      else
        let lastSyncTime := Date_parse s in
        now <- new_Date ;;
        let hoursDiff := ((now - lastSyncTime) / (1000 * 60 * 60))%float in
        ret (JS.lt hoursDiff RATE_LIMIT_HOURS)
  end.

(** [updateLastSyncTime]. *)
Definition updateLastSyncTime : M unit :=
  now <- new_Date ;;
  setProperty RATE_LIMIT_PROP_KEY (Date_toISOString now).

(** The callback [fetchAirtableRecords] maps over [data.records]; [urlOf]
    is the revision's way of reading the URL field. *)
Definition toRemoteRecord (urlOf : AirtableRecord -> string)
    (record : AirtableRecord) : RemoteRecord :=
  let id := ar_id record in
  let actBlueUrl := urlOf record in
  let formSlug :=
    if JS.string_truthy actBlueUrl
       && bool_decide (is_Some (JS.indexOf ACTBLUE_URL_PREFIX actBlueUrl))
    then JS.replace_with_empty ACTBLUE_URL_PREFIX actBlueUrl
    else "" in
  {| r_id := id; r_actBlueUrl := actBlueUrl; r_formSlug := formSlug |}.

(** [data.records.map(...).filter(record => record.formSlug)]. *)
Definition validRecords (urlOf : AirtableRecord -> string)
    (records : list AirtableRecord) : list RemoteRecord :=
  List.filter (fun record => JS.string_truthy (r_formSlug record))
              (List.map (toRemoteRecord urlOf) records).

(** One turn of the row loop of [getSheetData] on the row at index [i]. *)
Definition scanRow (formSlugs : list string)
    (formNameIndex dollarsRaisedIndex numDonationsIndex : nat)
    (row : list JS.value) (st : scan) : M scan :=
  let processedRows := S (processedRows st) in
  let formName := JS.index row formNameIndex in
  let st :=
    if JS.value_truthy formName && JS.includes formSlugs formName then
      let matchedRows := S (matchedRows st) in
      let dollarsRaised :=
        JS.or_else (parseFloat (JS.index row dollarsRaisedIndex)) 0 in
      let numDonations :=
        JS.or_else (parseInt (JS.index row numDonationsIndex)) 0 in
      if JS.gt dollarsRaised 0 || JS.gt numDonations 0 then
        {| sheetData := sheetData st ++
                        [{| formName := string_of formName;
                            dollarsRaised := dollarsRaised;
                            numDonations := numDonations |}];
           processedRows := processedRows;
           matchedRows := matchedRows |}
      else
        {| sheetData := sheetData st;
           processedRows := processedRows;
           matchedRows := matchedRows |}
    else
      {| sheetData := sheetData st;
         processedRows := processedRows;
         matchedRows := matchedRows st |} in
  (if (N.of_nat processedRows mod 50000 =? 0)%N then
     logMessage [T "Processed "; N processedRows; T " rows, found ";
                 N (matchedRows st); T " matches so far..."]
   else ret tt) ;;;
  ret st.

(** [for (let i = 1; i < values.length; i++)]: [remaining] turns are left,
    the next one at index [i]. *)
Fixpoint scanRows (values : list (list JS.value)) (formSlugs : list string)
    (formNameIndex dollarsRaisedIndex numDonationsIndex : nat)
    (remaining i : nat) (st : scan) : M scan :=
  match remaining with
  | O => ret st
  | S remaining' =>
      st' <- scanRow formSlugs formNameIndex dollarsRaisedIndex
               numDonationsIndex (nth i values []) st ;;
      scanRows values formSlugs formNameIndex dollarsRaisedIndex
               numDonationsIndex remaining' (S i) st'
  end.

(** [getSheetData]. *)
Definition getSheetData (airtableRecords : list RemoteRecord)
    : M (list SheetRow) :=
  logMessage [T "Retrieving data from Google Sheets..."] ;;;
  sheet <- readSheet SHEET_NAME ;;
  match sheet with
  | None =>
      logError [T "Sheet '"; T SHEET_NAME; T "' not found"] ;;;
      ret []
  | Some values =>
      let formSlugs := List.map r_formSlug airtableRecords in
      logMessage [T "Will filter sheet data for "; N (length formSlugs);
                  T " form slugs"] ;;;
      if (length values <=? 1)%nat then
        logError [T "No data found in sheet or only header row present"] ;;;
        ret []
      else
        let headers := nth 0 values [] in
        match JS.array_indexOf headers "form_name",
              JS.array_indexOf headers "dollars_raised",
              JS.array_indexOf headers "num_of_donations" with
        | Some formNameIndex, Some dollarsRaisedIndex,
          Some numDonationsIndex =>
            logMessage [T "Processing "; N (length values);
                        T " rows from sheet, filtering for ";
                        N (length formSlugs); T " form slugs..."] ;;;
            st <- scanRows values formSlugs formNameIndex
                    dollarsRaisedIndex numDonationsIndex
                    (length values - 1) 1
                    {| sheetData := []; processedRows := 0;
                       matchedRows := 0 |} ;;
            logMessage [T "Found "; N (length (sheetData st));
                        T " matching donation records in Google Sheet (from ";
                        N (length values - 1); T " total rows)"] ;;;
            ret (sheetData st)
        | _, _, _ =>
            logError [T "Could not find required columns in sheet headers"] ;;;
            ret []
        end
  end.

(** The callback of [sheetData.forEach] in [processData]. *)
Definition addRow (acc : gmap string JS.stored * gmap string JS.stored)
    (item : SheetRow) : gmap string JS.stored * gmap string JS.stored :=
  let '(formTotals, formDonations) := acc in
  let formName := formName item in
  let amount := dollarsRaised item in
  let donations := numDonations item in
  let '(formTotals, formDonations) :=
    if negb (JS.stored_truthy (JS.get formTotals formName)) then
      (JS.set formTotals formName (JS.Num 0),
       JS.set formDonations formName (JS.Num 0))
    else (formTotals, formDonations) in
  (JS.set formTotals formName (JS.plus (JS.get formTotals formName) amount),
   JS.set formDonations formName
     (JS.plus (JS.get formDonations formName) donations)).

(** The two objects after [sheetData.forEach]. *)
Definition aggregate (sheetData : list SheetRow)
    : gmap string JS.stored * gmap string JS.stored :=
  fold_left addRow sheetData (∅, ∅).

(** The callback of [airtableRecords.forEach] in [processData]. *)
Definition matchRecord (formTotals formDonations : gmap string JS.stored)
    (processedData : list UpdateInstruction) (record : RemoteRecord)
    : list UpdateInstruction :=
  let formSlug := r_formSlug record in
  if JS.defined (JS.get formTotals formSlug)
     || JS.defined (JS.get formDonations formSlug) then
    processedData ++
    [{| u_id := r_id record;
        raised := JS.or_zero (JS.get formTotals formSlug);
        donations := JS.or_zero (JS.get formDonations formSlug) |}]
  else processedData.

(** The array [processData] builds from the two objects. *)
Definition joinRecords (formTotals formDonations : gmap string JS.stored)
    (airtableRecords : list RemoteRecord) : list UpdateInstruction :=
  fold_left (matchRecord formTotals formDonations) airtableRecords [].

(** [processData]. *)
Definition processData (airtableRecords : list RemoteRecord)
    (sheetData : list SheetRow) : M (list UpdateInstruction) :=
  logMessage [T "Processing and aggregating data..."] ;;;
  let '(formTotals, formDonations) := aggregate sheetData in
  let processedData := joinRecords formTotals formDonations airtableRecords in
  logMessage [T "Matched and processed "; N (length processedData);
              T " records"] ;;;
  ret processedData.

(** The callback of [processedData.forEach] in [updateAirtable], threaded
    through [successCount] and [errorCount]; [requestFor] is the
    revision's request for a record. *)
Definition updateRecord (requestFor : UpdateInstruction -> request)
    (record : UpdateInstruction) (index : nat) (counts : nat * nat)
    : M (nat * nat) :=
  let '(successCount, errorCount) := counts in
  (if (0 <? index)%nat then sleep 200 else ret tt) ;;;
  response <- fetch (requestFor record) ;;
  match response with
  | Response responseCode _ =>
      if (responseCode =? 200)%nat then
        logMessage [T "Updated record "; T (u_id record);
                    T " with amount "; F (raised record); T " and ";
                    F (donations record); T " donations"] ;;;
        ret (S successCount, errorCount)
      else
        logError [T "Failed to update record "; T (u_id record);
                  T ": Response code "; N responseCode] ;;;
        ret (successCount, S errorCount)
  | Throws msg =>
      logError [T "Error updating record "; T (u_id record); T ": ";
                T msg] ;;;
      ret (successCount, S errorCount)
  end.

(** [processedData.forEach((record, index) => ...)]. *)
Fixpoint updateEach (requestFor : UpdateInstruction -> request)
    (processedData : list UpdateInstruction) (index : nat)
    (counts : nat * nat) : M (nat * nat) :=
  match processedData with
  | [] => ret counts
  | record :: rest =>
      counts' <- updateRecord requestFor record index counts ;;
      updateEach requestFor rest (S index) counts'
  end.

End Shared.

(** ** [SheetsToAirtableSync.js] *)

Module Script.

Definition AIRTABLE_BASE_ID : string := "appGDzLGgrYmcW9R1".
Definition AIRTABLE_TABLE_ID : string := "tblTo3zgLYNby9UnL".
Definition RATE_LIMIT_HOURS : float := 1%float.

(** [record.fields["ActBlue Page"] || record.fields[`fldxiPzVeVCUXsnq1`] || '']. *)
Definition actBlueUrlOf (record : AirtableRecord) : string :=
  JS.string_or (default "" (ar_fields record !! "ActBlue Page"))
    (JS.string_or (default "" (ar_fields record !! "fldxiPzVeVCUXsnq1")) "").

Section WithKey.
Context `{Host}.
(** The constant [AIRTABLE_API_KEY]; its value is a credential and is
    left out. *)
Variable AIRTABLE_API_KEY : string.

Definition recordsRequest : request :=
  {| req_method := GET;
     req_url := "https://api.airtable.com/v0/" +:+ AIRTABLE_BASE_ID +:+
                "/" +:+ AIRTABLE_TABLE_ID;
     req_bearer := AIRTABLE_API_KEY;
     req_fields := [] |}.

(** [fetchAirtableRecords]. *)
Definition fetchAirtableRecords : M (list RemoteRecord) :=
  logMessage [T "Fetching records from Airtable..."] ;;;
  response <- fetch recordsRequest ;;
  match response with
  | Throws msg =>
      logError [T "Error fetching Airtable records: "; T msg] ;;;
      ret []
  | Response _ (Unparsable msg) =>
      logError [T "Error fetching Airtable records: "; T msg] ;;;
      ret []
  | Response _ (Parsed None) =>
      logError [T "No records found in Airtable response"] ;;;
      ret []
  | Response _ (Parsed (Some data_records)) =>
      let records := validRecords actBlueUrlOf data_records in
      logMessage [T "Found "; N (length records);
                  T " valid ActBlue form slugs in Airtable"] ;;;
      ret records
  end.

(** The [PATCH] request [updateAirtable] prepares for one record, with the
    fields of its payload object. *)
Definition updateRequest (record : UpdateInstruction) : request :=
  {| req_method := PATCH;
     req_url := "https://api.airtable.com/v0/" +:+ AIRTABLE_BASE_ID +:+
                "/" +:+ AIRTABLE_TABLE_ID +:+ "/" +:+ u_id record;
     req_bearer := AIRTABLE_API_KEY;
     req_fields := [("Raised", raised record);
                    ("fldoNVriyq6Z0YEE7", raised record);
                    ("Donations", donations record);
                    ("fldgEEtQMx96RUqds", donations record)] |}.

(** [updateAirtable]. *)
Definition updateAirtable (processedData : list UpdateInstruction)
    : M unit :=
  logMessage [T "Updating "; N (length processedData);
              T " Airtable records..."] ;;;
  counts <- updateEach updateRequest processedData 0 (0, 0)%nat ;;
  let '(successCount, errorCount) := counts in
  logMessage [T "Update complete: "; N successCount; T " successful, ";
              N errorCount; T " failed"].

(** [syncData]. *)
Definition syncData : M unit :=
  logMessage [T "Starting sync process..."] ;;;
  airtableRecords <- fetchAirtableRecords ;;
  if (length airtableRecords =? 0)%nat then
    logMessage [T "No records found in Airtable, sync complete"]
  else
    sheetData <- getSheetData airtableRecords ;;
    if (length sheetData =? 0)%nat then
      logMessage [T "No matching data found in Google Sheet, sync complete"]
    else
      processedData <- processData airtableRecords sheetData ;;
      if (length processedData =? 0)%nat then
        logMessage [T "No matches found between Airtable and Sheet data, sync complete"]
      else
        updateAirtable processedData ;;;
        logMessage [T "Sync completed successfully"].

(** [onEdit(e)]; [activeSheet] is [e.source.getActiveSheet().getName()]. *)
Definition onEdit (activeSheet : string) : M unit :=
  if negb (String.eqb activeSheet SHEET_NAME) then ret tt
  else
    skip <- shouldRespectRateLimit RATE_LIMIT_HOURS ;;
    if skip : bool then
      logMessage [T "Edit detected, but skipping auto-sync due to rate limiting"]
    else
      updateLastSyncTime ;;;
      logMessage [T "Edit detected, running auto-sync"] ;;;
      syncData.

(** [manualSyncData]. *)
Definition manualSyncData : M unit :=
  logMessage [T "Manual sync triggered by user"] ;;;
  syncData.

End WithKey.

End Script.

(** ** Revision 1.1.0, as reproduced in [CONFIGURATION.md] *)

Module MultiTarget.

(** An entry of [AIRTABLE_TARGETS]. *)
Record target := {
  baseId : string;
  tableId : string;
}.

Definition AIRTABLE_TARGETS : list target :=
  [ {| baseId := "appGDzLGgrYmcW9R1"; tableId := "tblTo3zgLYNby9UnL" |};
    {| baseId := ""; tableId := "" |} ].
Definition RATE_LIMIT_HOURS : float := 0.25%float.
Definition AIRTABLE_ACTBLUE_PAGE_FIELD : string := "ActBlue Page".
Definition AIRTABLE_RAISED_FIELD : string := "Raised".
Definition AIRTABLE_DONATIONS_FIELD : string := "Donations".
Definition AIRTABLE_API_KEY_PROP : string := "AIRTABLE_API_KEY".

(** [record.fields[AIRTABLE_ACTBLUE_PAGE_FIELD] || '']. *)
Definition actBlueUrlOf (record : AirtableRecord) : string :=
  JS.string_or
    (default "" (ar_fields record !! AIRTABLE_ACTBLUE_PAGE_FIELD)) "".

(** [!apiKey]: the property is missing or empty. *)
Definition usable (apiKey : option string) : option string :=
  match apiKey with
  | Some k => if JS.string_truthy k then Some k else None
  | None => None
  end.

Section WithHost.
Context `{Host}.

Definition recordsRequest (cfg : target) (apiKey : string) : request :=
  {| req_method := GET;
     req_url := "https://api.airtable.com/v0/" +:+ baseId cfg +:+ "/" +:+
                tableId cfg;
     req_bearer := apiKey;
     req_fields := [] |}.

(** [fetchAirtableRecords(cfg)]. *)
Definition fetchAirtableRecords (cfg : target) : M (list RemoteRecord) :=
  logMessage [T "Fetching records from Airtable (base: "; T (baseId cfg);
              T ", table: "; T (tableId cfg); T ")..."] ;;;
  apiKey <- getProperty AIRTABLE_API_KEY_PROP ;;
  match usable apiKey with
  | None =>
      logError [T "Airtable API key not found in script properties"] ;;;
      ret []
  | Some apiKey =>
      response <- fetch (recordsRequest cfg apiKey) ;;
      match response with
      | Throws msg =>
          logError [T "Error fetching Airtable records: "; T msg] ;;;
          ret []
      | Response _ (Unparsable msg) =>
          logError [T "Error fetching Airtable records: "; T msg] ;;;
          ret []
      | Response _ (Parsed None) =>
          logError [T "No records found in Airtable response"] ;;;
          ret []
      | Response _ (Parsed (Some data_records)) =>
          let records := validRecords actBlueUrlOf data_records in
          logMessage [T "Found "; N (length records);
                      T " valid ActBlue form slugs in Airtable"] ;;;
          ret records
      end
  end.

(** The [PATCH] request [updateAirtable] prepares for one record, with the
    fields of its payload object. *)
Definition updateRequest (cfg : target) (apiKey : string)
    (record : UpdateInstruction) : request :=
  {| req_method := PATCH;
     req_url := "https://api.airtable.com/v0/" +:+ baseId cfg +:+ "/" +:+
                tableId cfg +:+ "/" +:+ u_id record;
     req_bearer := apiKey;
     req_fields := [(AIRTABLE_RAISED_FIELD, raised record);
                    (AIRTABLE_DONATIONS_FIELD, donations record)] |}.

(** [updateAirtable(cfg, processedData)]. *)
Definition updateAirtable (cfg : target)
    (processedData : list UpdateInstruction) : M unit :=
  logMessage [T "Updating "; N (length processedData);
              T " Airtable records in base "; T (baseId cfg); T "..."] ;;;
  apiKey <- getProperty AIRTABLE_API_KEY_PROP ;;
  match usable apiKey with
  | None => logError [T "Airtable API key not found in script properties"]
  | Some apiKey =>
      counts <- updateEach (updateRequest cfg apiKey) processedData 0
                  (0, 0)%nat ;;
      let '(successCount, errorCount) := counts in
      logMessage [T "Update complete: "; N successCount;
                  T " successful, "; N errorCount; T " failed"]
  end.

(** The callback of [AIRTABLE_TARGETS.forEach] in [syncData]. *)
Definition syncTarget (cfg : target) : M unit :=
  if negb (JS.string_truthy (baseId cfg))
     || negb (JS.string_truthy (tableId cfg)) then
    logMessage [T "Skipping target with blank Base/Table IDs"]
  else
    airtableRecords <- fetchAirtableRecords cfg ;;
    if (length airtableRecords =? 0)%nat then
      logMessage [T "No records found in Airtable for base ";
                  T (baseId cfg); T ", skipping"]
    else
      sheetData <- getSheetData airtableRecords ;;
      if (length sheetData =? 0)%nat then
        logMessage [T "No matching data found in Google Sheet for this target, skipping"]
      else
        processedData <- processData airtableRecords sheetData ;;
        if (length processedData =? 0)%nat then
          logMessage [T "No matches found between Airtable and Sheet data for this target, skipping"]
        else
          updateAirtable cfg processedData.

(** [targets.forEach(cfg => ...)]. *)
Fixpoint forEachTarget (targets : list target) : M unit :=
  match targets with
  | [] => ret tt
  | cfg :: rest => syncTarget cfg ;;; forEachTarget rest
  end.

(** [syncData], for the configured list of targets. *)
Definition syncTargets (targets : list target) : M unit :=
  logMessage [T "Starting multi-destination sync process..."] ;;;
  forEachTarget targets ;;;
  logMessage [T "Sync completed for all configured targets"].

Definition syncData : M unit := syncTargets AIRTABLE_TARGETS.

(** [hourlyAutoSync]. *)
Definition hourlyAutoSync : M unit :=
  logMessage [T "Hourly auto-sync triggered"] ;;;
  skip <- shouldRespectRateLimit RATE_LIMIT_HOURS ;;
  if skip : bool then
    logMessage [T "Hourly auto-sync triggered, but skipping due to rate limiting"]
  else
    updateLastSyncTime ;;;
    syncData.

(** [manualSyncData]. *)
Definition manualSyncData : M unit :=
  logMessage [T "Manual sync triggered by user"] ;;;
  syncData.

End WithHost.

End MultiTarget.

(** ** The menu, the triggers and the "Logs" sheet

    The functions of the script that work on the spreadsheet's user
    interface, on the triggers of the project and on the "Logs" sheet
    itself.  Here a log row is the row of the sheet, with its timestamp, and
    the formats the script sets are kept.

    - A sheet is its rows down to the last row with content; [appendRow]
      adds a row after them, and [getLastRow] is their number.
    - [insertSheet] makes the new sheet the active one.
    - [getDataRange().getValues()] returns the rows filled up with empty
      strings to the width of the widest, and a single empty cell for a
      sheet without content; a row reads back as it was appended.
    - [ScriptApp.deleteTrigger] removes the trigger that has the unique
      identifier of the one it is given; [create] adds a trigger under the
      identifier the platform chooses for it.
    - The time of a call and the identifier of a new trigger are arguments
      of the function that needs them. *)

Module Workbook.

(** A format the script sets on a sheet. *)
Inductive format :=
| FontWeight (a1Notation weight : string)
| ColumnWidth (columnPosition width : nat)
| FontColor (row column numRows numColumns : nat) (color : string).

Record sheet := {
  rows : list (list JS.value);
  frozenRows : nat;
  formats : list format;
}.

(** A piece of the text of a dialog: the templates keep their shape. *)
Inductive piece :=
| Lit (text : string)
| Cell (v : JS.value)
| Formatted (v : JS.value)
| Count (n : nat).

Inductive menu_entry :=
| Item (caption functionName : string)
| Separator.

(** What the script shows to the user. *)
Inductive ui_action :=
| Menu (caption : string) (entries : list menu_entry)
| Alert (title : option string) (prompt : string)
| ModalDialog (html : list piece) (width height : nat) (title : list piece).

Inductive trigger_event :=
| ON_EDIT
| CLOCK (everyHours : nat).

Record trigger := {
  uniqueId : nat;
  handlerFunction : string;
  eventType : trigger_event;
}.

(** What these functions can change: the "Logs" sheet, the active sheet, the
    triggers of the project, and what has been shown, most recent first. *)
Record project := {
  logs : option sheet;
  active : string;
  triggers : list trigger;
  shown : list ui_action;
}.

(** [sheet.appendRow(row)]. *)
Definition appendRow (row : list JS.value) (s : sheet) : sheet :=
  {| rows := rows s ++ [row];
     frozenRows := frozenRows s;
     formats := formats s |}.

(** [sheet.setFrozenRows(n)]. *)
Definition setFrozenRows (n : nat) (s : sheet) : sheet :=
  {| rows := rows s; frozenRows := n; formats := formats s |}.

(** [range.setFontWeight], [sheet.setColumnWidth], [range.setFontColor]. *)
Definition setFormat (f : format) (s : sheet) : sheet :=
  {| rows := rows s;
     frozenRows := frozenRows s;
     formats := formats s ++ [f] |}.

(** [sheet.getLastRow()]. *)
Definition getLastRow (s : sheet) : nat := length (rows s).

(** [sheet.getDataRange().getValues()]. *)
Definition getValues (s : sheet) : list (list JS.value) :=
  match rows s with
  | [] => [[JS.VString ""]]
  | _ :: _ =>
      let width := fold_right Nat.max 0 (List.map (@length JS.value) (rows s)) in
      List.map (fun row => row ++ repeat (JS.VString "") (width - length row))
               (rows s)
  end.

(** [ui.alert(prompt)] and [ui.alert(title, prompt, buttons)]. *)
Definition show (a : ui_action) (p : project) : project :=
  {| logs := logs p; active := active p; triggers := triggers p;
     shown := a :: shown p |}.

(** The block that [logMessage], [logError] and the [viewLogs] of revision
    1.1.0 each run when there is no "Logs" sheet: the sheet is inserted,
    headed and formatted. *)
Definition insertLogsSheet : sheet :=
  setFormat (ColumnWidth 3 500)
    (setFormat (ColumnWidth 2 100)
       (setFormat (ColumnWidth 1 200)
          (setFormat (FontWeight "A1:C1" "bold")
             (setFrozenRows 1
                (appendRow [JS.VString "Timestamp"; JS.VString "Type";
                            JS.VString "Message"]
                   {| rows := []; frozenRows := 0; formats := [] |}))))).

(** [ss.getSheetByName("Logs")], and the block above when it is [null]. *)
Definition logsSheet (p : project) : sheet * string :=
  match logs p with
  | Some s => (s, active p)
  | None => (insertLogsSheet, "Logs")
  end.

(** [logMessage(message)], called at the time [now]. *)
Definition logMessage (now : float) (message : string) (p : project)
    : project :=
  let '(logsSheet, active) := logsSheet p in
  let logsSheet :=
    appendRow [JS.VDate now; JS.VString "INFO"; JS.VString message]
      logsSheet in
  {| logs := Some logsSheet; active := active; triggers := triggers p;
     shown := shown p |}.

(** [logError(errorMessage)], called at the time [now]. *)
Definition logError (now : float) (errorMessage : string) (p : project)
    : project :=
  let '(logsSheet, active) := logsSheet p in
  let logsSheet :=
    appendRow [JS.VDate now; JS.VString "ERROR"; JS.VString errorMessage]
      logsSheet in
  let lastRow := getLastRow logsSheet in
  let logsSheet := setFormat (FontColor lastRow 1 1 3 "red") logsSheet in
  {| logs := Some logsSheet; active := active; triggers := triggers p;
     shown := shown p |}.

(** [ScriptApp.deleteTrigger(trigger)]. *)
Definition deleteTrigger (t : trigger) (p : project) : project :=
  {| logs := logs p; active := active p;
     triggers :=
       List.filter (fun t' => negb (uniqueId t' =? uniqueId t)%nat)
                   (triggers p);
     shown := shown p |}.

(** [ScriptApp.newTrigger(...)...create()]. *)
Definition create (t : trigger) (p : project) : project :=
  {| logs := logs p; active := active p; triggers := triggers p ++ [t];
     shown := shown p |}.

End Workbook.

(** *** [SheetsToAirtableSync.js] *)

Module ScriptMenu.
Import Workbook.

(** [onOpen]. *)
Definition onOpen (p : project) : project :=
  show (Menu "Airtable Sync"
          [Item "Sync Data Now" "manualSyncData";
           Item "View Sync Logs" "viewLogs"]) p.

(** [setupTrigger], called at the time [now]; the platform gives the new
    trigger the identifier [newId]. *)
Definition setupTrigger (newId : nat) (now : float) (p : project)
    : project :=
  let triggers := triggers p in
  let p := fold_left (fun p t => deleteTrigger t p) triggers p in
  let p := create {| uniqueId := newId; handlerFunction := "onEdit";
                     eventType := ON_EDIT |} p in
  logMessage now "Edit trigger has been set up" p.

Definition tableHead : list piece :=
  [Lit "<html><body><table style='border-collapse: collapse; width: 100%;'>";
   Lit "<tr style='background-color: #f2f2f2;'><th style='border: 1px solid #ddd; padding: 8px; text-align: left;'>Timestamp</th><th style='border: 1px solid #ddd; padding: 8px; text-align: left;'>Type</th><th style='border: 1px solid #ddd; padding: 8px; text-align: left;'>Message</th></tr>"].

(** The table row [viewLogs] makes of a row of the sheet. *)
Definition tableRow (row : list JS.value) : list piece :=
  let timestamp := Formatted (JS.index row 0) in
  let type := JS.index row 1 in
  let message := JS.index row 2 in
  let rowStyle :=
    match type with
    | JS.VString s => if String.eqb s "ERROR" then "color: red;" else ""
    | _ => ""
    end in
  [Lit "<tr style='"; Lit rowStyle;
   Lit "'><td style='border: 1px solid #ddd; padding: 8px;'>"; timestamp;
   Lit "</td><td style='border: 1px solid #ddd; padding: 8px;'>"; Cell type;
   Lit "</td><td style='border: 1px solid #ddd; padding: 8px;'>";
   Cell message; Lit "</td></tr>"].

(** [for (let i = startIndex; i < values.length; i++)]: [remaining] turns
    are left, the next one at index [i]. *)
Fixpoint tableRows (values : list (list JS.value)) (remaining i : nat)
    (logText : list piece) : list piece :=
  match remaining with
  | O => logText
  | S remaining' =>
      tableRows values remaining' (S i) (logText ++ tableRow (nth i values []))
  end.

(** [viewLogs]. *)
Definition viewLogs (p : project) : project :=
  match logs p with
  | None =>
      show (Alert None "No logs found. Run a sync first to generate logs.") p
  | Some logsSheet =>
      let values := getValues logsSheet in
      if (length values <=? 1)%nat then
        show (Alert None "No log entries found.") p
      else
        let maxEntries := Nat.min 50 (length values - 1) in
        let startIndex := Nat.max 1 (length values - maxEntries) in
        let logText :=
          tableRows values (length values - startIndex) startIndex
            tableHead in
        let logText := logText ++ [Lit "</table></body></html>"] in
        show (ModalDialog logText 800 500
                [Lit "Sync Logs (Recent "; Count maxEntries;
                 Lit " entries)"]) p
  end.

End ScriptMenu.

(** *** Revision 1.1.0 *)

Module MultiTargetMenu.
Import Workbook.

(** [onOpen]. *)
Definition onOpen (p : project) : project :=
  show (Menu "Airtable Sync"
          [Item "Sync Data Now" "manualSyncData";
           Item "Install Hourly Auto-Sync" "installAutoSync";
           Separator;
           Item "View Logs" "viewLogs"]) p.

(** The callback of the loop of [installAutoSync] over the triggers. *)
Definition deleteIfHourly (p : project) (t : trigger) : project :=
  if String.eqb (handlerFunction t) "hourlyAutoSync" then deleteTrigger t p
  else p.

(** [installAutoSync], called at the time [now]; the platform gives the new
    trigger the identifier [newId]. *)
Definition installAutoSync (newId : nat) (now : float) (p : project)
    : project :=
  let triggers := triggers p in
  let p := fold_left deleteIfHourly triggers p in
  let p := create {| uniqueId := newId; handlerFunction := "hourlyAutoSync";
                     eventType := CLOCK 1 |} p in
  let p :=
    show (Alert (Some "Hourly Auto-Sync Installed")
            ("Auto-sync has been successfully installed! The spreadsheet will now automatically "
             +:+ "sync with Airtable every hour, regardless of how the data changes."
             +:+ String (ascii_of_nat 10) (String (ascii_of_nat 10) "")
             +:+ "P.S. You can safely run 'Install Hourly Auto-Sync' again if needed - it will update the existing trigger without creating duplicates.")) p in
  logMessage now "Hourly auto-sync trigger installed successfully" p.

(** [setupTrigger], called at the time [now]. *)
Definition setupTrigger (now : float) (p : project) : project :=
  logMessage now "Manual authorization is now handled automatically. Just run 'Sync Data Now' from the menu." p.

(** [viewLogs]. *)
Definition viewLogs (p : project) : project :=
  let p :=
    match logs p with
    | Some _ => p
    | None =>
        show (Alert None "Created new Logs sheet.")
          {| logs := Some insertLogsSheet; active := "Logs";
             triggers := triggers p; shown := shown p |}
    end in
  {| logs := logs p; active := "Logs"; triggers := triggers p;
     shown := shown p |}.

End MultiTargetMenu.

(** ** A reference platform

    The theorems below hold for every [Host].  To run the script on concrete
    inputs, this instance implements the platform's pure functions on the
    inputs the examples use: cells holding numbers between [1e-6] and [1e21]
    in magnitude (or zero), plain decimal text of at most 15 significant
    digits without exponent or radix prefix, the text [Infinity], text with
    no numeric prefix, and timestamps in the 24-character format
    [toISOString] writes for the years 0000 to 9999.  Other inputs are not
    used here. *)

Module Reference.

Definition float_of_Z (z : Z) : float := of_uint63 (Uint63.of_Z z).

Definition digit (c : ascii) : option Z :=
  let n := Z.of_nat (nat_of_ascii c) in
  if ((48 <=? n) && (n <=? 57))%Z then Some (n - 48)%Z else None.

(** The decimal digits at the start of [s], read onto [acc]: the number
    read, how many digits it took, and the rest of [s]. *)
Fixpoint digits (s : string) (acc : Z) (count : nat) : Z * nat * string :=
  match s with
  | EmptyString => (acc, count, s)
  | String c rest =>
      match digit c with
      | Some d => digits rest (10 * acc + d)%Z (S count)
      | None => (acc, count, s)
      end
  end.

Definition is_space (c : ascii) : bool :=
  let n := nat_of_ascii c in
  ((n =? 32) || (n =? 9) || (n =? 10) || (n =? 13))%nat.

Fixpoint trim_start (s : string) : string :=
  match s with
  | String c rest => if is_space c then trim_start rest else s
  | EmptyString => s
  end.

(** An optional sign: whether it is a minus, and the rest. *)
Definition sign (s : string) : bool * string :=
  match s with
  | String "-" rest => (true, rest)
  | String "+" rest => (false, rest)
  | _ => (false, s)
  end.

Definition signed (neg : bool) (x : float) : float :=
  if neg then (- x)%float else x.

(** [parseFloat] on the text the examples use: an optional sign and then
    [Infinity] or plain decimal digits with an optional fraction, of at most
    15 significant digits.  It reads no exponent, and digits beyond these
    bounds are outside its use. *)
Definition parseFloat_string (s : string) : float :=
  let '(neg, s) := sign (trim_start s) in
  if String.prefix "Infinity" s then signed neg infinity
  else
    let '(i, ni, rest) := digits s 0 0 in
    let '(f, nf, _) :=
      match rest with
      | String "." r => digits r i 0
      | _ => (i, 0%nat, rest)
      end in
    if (ni + nf =? 0)%nat then nan
    else signed neg (float_of_Z f / float_of_Z (10 ^ Z.of_nat nf))%float.

Definition parseInt_string (s : string) : float :=
  let '(neg, s) := sign (trim_start s) in
  let '(i, ni, _) := digits s 0 0 in
  if (ni =? 0)%nat then nan else signed neg (float_of_Z i).

(** The number with its fraction cut off. *)
Definition trunc (x : float) : float :=
  match Prim2SF x with
  | S754_zero _ => 0%float
  | S754_finite s m e =>
      if (0 <=? e)%Z then x
      else signed s (float_of_Z (Z.shiftr (Z.pos m) (- e)))
  | _ => nan
  end.

(** [parseFloat(v)] reads [String(v)]. *)
Definition parseFloat_value (v : JS.value) : float :=
  match v with
  | JS.VString s => parseFloat_string s
  | JS.VNumber x => if (x =? 0)%float then 0%float else x
  | _ => nan
  end.

(** [parseInt(v)] reads [String(v)]. *)
Definition parseInt_value (v : JS.value) : float :=
  match v with
  | JS.VString s => parseInt_string s
  | JS.VNumber x => trunc x
  | _ => nan
  end.

(** Days from 1970-01-01 to the given civil date. *)
Definition days_from_civil (y m d : Z) : Z :=
  let y := (if m <=? 2 then y - 1 else y)%Z in
  let era := (y / 400)%Z in
  let yoe := (y - era * 400)%Z in
  let doy := ((153 * (if 2 <? m then m - 3 else m + 9) + 2) / 5 + d - 1)%Z in
  let doe := (yoe * 365 + yoe / 4 - yoe / 100 + doy)%Z in
  (era * 146097 + doe - 719468)%Z.

(** The civil date [(y, m, d)] that many days after 1970-01-01. *)
Definition civil_from_days (z : Z) : Z * Z * Z :=
  let z := (z + 719468)%Z in
  let era := (z / 146097)%Z in
  let doe := (z - era * 146097)%Z in
  let yoe := ((doe - doe / 1460 + doe / 36524 - doe / 146096) / 365)%Z in
  let doy := (doe - (365 * yoe + yoe / 4 - yoe / 100))%Z in
  let mp := ((5 * doy + 2) / 153)%Z in
  let d := (doy - (153 * mp + 2) / 5 + 1)%Z in
  let m := (if mp <? 10 then mp + 3 else mp - 9)%Z in
  ((if m <=? 2 then yoe + era * 400 + 1 else yoe + era * 400)%Z, m, d).

(** The number written by exactly [n] digits at position [i] of [s]. *)
Definition field (s : string) (i n : nat) : option Z :=
  let '(v, k, rest) := digits (String.substring i n s) 0 0 in
  if ((k =? n)%nat && String.eqb rest "") then Some v else None.

Definition char_at (s : string) (i : nat) (c : string) : bool :=
  String.eqb (String.substring i 1 s) c.

Definition within (lo x hi : Z) : bool := ((lo <=? x) && (x <=? hi))%Z.

(** [new Date(s).getTime()] for [YYYY-MM-DDTHH:mm:ss.sssZ]. *)
Definition Date_parse_iso (s : string) : float :=
  match field s 0 4, field s 5 2, field s 8 2, field s 11 2, field s 14 2,
        field s 17 2, field s 20 3 with
  | Some y, Some mo, Some d, Some h, Some mi, Some sec, Some ms =>
      if (String.length s =? 24)%nat
         && char_at s 4 "-" && char_at s 7 "-" && char_at s 10 "T"
         && char_at s 13 ":" && char_at s 16 ":" && char_at s 19 "."
         && char_at s 23 "Z"
         && within 1 mo 12 && within 1 d 31 && within 0 h 23
         && within 0 mi 59 && within 0 sec 59
      then
        let t := ((((days_from_civil y mo d * 24 + h) * 60 + mi) * 60 + sec)
                  * 1000 + ms)%Z in
        if (0 <=? t)%Z then float_of_Z t else (- float_of_Z (- t))%float
      else nan
  | _, _, _, _, _, _, _ => nan
  end.

(** The integer a finite time value holds. *)
Definition Z_of_float (x : float) : Z :=
  match Prim2SF x with
  | S754_finite s m e => cond_Zopp s (Z.shiftl (Z.pos m) e)
  | _ => 0%Z
  end.

Definition digit_char (d : Z) : string :=
  String (ascii_of_nat (Z.to_nat (48 + d))) EmptyString.

(** [z] written with [n] digits. *)
Fixpoint padded (n : nat) (z : Z) : string :=
  match n with
  | O => ""
  | S n' => padded n' (z / 10) +:+ digit_char (z mod 10)
  end.

(** [new Date(t).toISOString()]. *)
Definition toISOString (t : float) : string :=
  let t := Z_of_float t in
  let '(y, m, d) := civil_from_days (t / 86400000) in
  let r := (t mod 86400000)%Z in
  padded 4 y +:+ "-" +:+ padded 2 m +:+ "-" +:+ padded 2 d +:+ "T" +:+
  padded 2 (r / 3600000) +:+ ":" +:+ padded 2 (r / 60000 mod 60) +:+ ":" +:+
  padded 2 (r / 1000 mod 60) +:+ "." +:+ padded 3 (r mod 1000) +:+ "Z".

(** The platform with this clock, network and spreadsheet. *)
Definition host (now : list event -> float)
    (network : list event -> request -> fetch_result)
    (sheets : list event -> string -> option (list (list JS.value)))
    : Host :=
  {| parseFloat := parseFloat_value;
     parseInt := parseInt_value;
     Date_parse := Date_parse_iso;
     Date_toISOString := toISOString;
     Date_now := now;
     UrlFetchApp_fetch := network;
     getSheetValues := sheets |}.

End Reference.

(** ** Vocabulary of the specification *)

(** *** Aggregates *)

(** The rows of [sheetData] that carry the key, in their order. *)
Definition rowsOf (key : string) (sheetData : list SheetRow) : list SheetRow :=
  List.filter (fun row => String.eqb (formName row) key) sheetData.

(** The left-to-right sum of a measure, from [0]. *)
Definition sumOf (measure : SheetRow -> float) (rows : list SheetRow) : float :=
  fold_left (fun acc row => (acc + measure row)%float) rows 0%float.

(** The entries of the aggregate for a key: its total amount and its total
    count, when the key has an entry holding numbers in both objects. *)
Definition totalsOf (formTotals formDonations : gmap string JS.stored)
    (key : string) : option (float * float) :=
  match formTotals !! key, formDonations !! key with
  | Some (JS.Num totalAmount), Some (JS.Num totalCount) =>
      Some (totalAmount, totalCount)
  | _, _ => None
  end.

(** The instruction the join makes of a record whose key has an aggregate:
    a total that is zero or [NaN] is sent as [0]. *)
Definition instructionFor (formTotals formDonations : gmap string JS.stored)
    (record : RemoteRecord) : option UpdateInstruction :=
  match totalsOf formTotals formDonations (r_formSlug record) with
  | Some (totalAmount, totalCount) =>
      Some {| u_id := r_id record;
              raised := JS.Num (if JS.truthy totalAmount then totalAmount
                                else 0%float);
              donations := JS.Num (if JS.truthy totalCount then totalCount
                                   else 0%float) |}
  | None => None
  end.

(** What the join of [processData] makes of one remote record. *)
Definition emitted (formTotals formDonations : gmap string JS.stored)
    (record : RemoteRecord) : option UpdateInstruction :=
  head (joinRecords formTotals formDonations [record]).

(** *** Match keys *)

(** [pat] occurs in [s] at position [n]. *)
Definition occurs_at (pat s : string) (n : nat) : Prop :=
  exists pre post, s = pre +:+ pat +:+ post /\ String.length pre = n.

(** [s] contains [pat]. *)
Definition contains (pat s : string) : Prop :=
  exists n, occurs_at pat s n.

(** [r] is what remains of [s] once its leftmost occurrence of [pat] is
    taken out. *)
Definition stripped_once (pat s r : string) : Prop :=
  exists pre post,
    s = pre +:+ pat +:+ post /\ r = pre +:+ post /\
    forall n, occurs_at pat s n -> String.length pre <= n.

(** What [fetchAirtableRecords] makes of one response item. *)
Definition produced (urlOf : AirtableRecord -> string)
    (record : AirtableRecord) : option RemoteRecord :=
  head (validRecords urlOf [record]).

(** *** Sheet rows *)

Section Coercions.
Context `{Host}.

(** [dollars_raised] as a float, [0] when it does not parse. *)
Definition coerce_amount (cell : JS.value) : float :=
  if is_nan (parseFloat cell) then 0%float else parseFloat cell.

(** [num_of_donations] as an integer, [0] when it does not parse. *)
Definition coerce_count (cell : JS.value) : float :=
  if is_nan (parseInt cell) then 0%float else parseInt cell.

(** The [form_name] cell is a non-empty string of the candidate keys and one
    of the two coerced measures is positive. *)
Definition retained (candidateKeys : list string)
    (formNameIndex dollarsRaisedIndex numDonationsIndex : nat)
    (row : list JS.value) : bool :=
  match JS.index row formNameIndex with
  | JS.VString name =>
      negb (String.eqb name "")
      && bool_decide (name ∈ candidateKeys)
      && ((0 <? coerce_amount (JS.index row dollarsRaisedIndex))%float
          || (0 <? coerce_count (JS.index row numDonationsIndex))%float)
  | _ => false
  end.

(** The [SheetRow] of a retained row. *)
Definition toSheetRow
    (formNameIndex dollarsRaisedIndex numDonationsIndex : nat)
    (row : list JS.value) : SheetRow :=
  {| formName := string_of (JS.index row formNameIndex);
     dollarsRaised :=
       JS.or_else (parseFloat (JS.index row dollarsRaisedIndex)) 0;
     numDonations :=
       JS.or_else (parseInt (JS.index row numDonationsIndex)) 0 |}.

(** The rows [getSheetData] is to return for the data rows of a grid. *)
Definition materialized (candidateKeys : list string)
    (formNameIndex dollarsRaisedIndex numDonationsIndex : nat)
    (rows : list (list JS.value)) : list SheetRow :=
  omap (fun row =>
          if retained candidateKeys formNameIndex dollarsRaisedIndex
               numDonationsIndex row
          then Some (toSheetRow formNameIndex dollarsRaisedIndex
                       numDonationsIndex row)
          else None) rows.

(** The rows [getSheetData] is to return for what the data sheet holds:
    nothing when the sheet is missing, has no row, or lacks one of the three
    columns. *)
Definition sheetRowsOf (candidateKeys : list string)
    (sheet : option (list (list JS.value))) : list SheetRow :=
  match sheet with
  | Some (headers :: rows) =>
      match JS.array_indexOf headers "form_name",
            JS.array_indexOf headers "dollars_raised",
            JS.array_indexOf headers "num_of_donations" with
      | Some formNameIndex, Some dollarsRaisedIndex, Some numDonationsIndex =>
          materialized candidateKeys formNameIndex dollarsRaisedIndex
            numDonationsIndex rows
      | _, _, _ => []
      end
  | _ => []
  end.

End Coercions.

(** *** Rate limiting *)

(** Hours elapsed from [since] to [now], both time values in milliseconds. *)
Definition elapsedHours (since now : float) : float :=
  ((now - since) / 3600000)%float.

(** *** What a run did *)

(** The script properties after the events [es] (most recent first). *)
Definition replay (es : list event) (p : gmap string string)
    : gmap string string :=
  fold_right (fun e p => match e with
                         | SetProperty key value => <[key := value]> p
                         | _ => p
                         end) p es.

(** Running [m] from any world adds events that all satisfy [P], and changes
    the properties only as these events say. *)
Definition effects {A} (P : event -> Prop) (m : M A) : Prop :=
  forall w, exists es,
    (m w).2 = {| props := replay es (props w); history := es ++ history w |}
    /\ Forall P es.

(** The event is no access to the script property [key]. *)
Definition leaves (key : string) (e : event) : Prop :=
  match e with
  | GetProperty k => k <> key
  | SetProperty k _ => k <> key
  | _ => True
  end.

(** The event is no access to any script property. *)
Definition no_property (e : event) : Prop :=
  match e with
  | GetProperty _ | SetProperty _ _ => False
  | _ => True
  end.

(** The event is no write to a script property. *)
Definition no_write (e : event) : Prop :=
  match e with
  | SetProperty _ _ => False
  | _ => True
  end.

(** Any event. *)
Definition anything (e : event) : Prop := True.

(** The requests among the events [es], first one first. *)
Definition requests (es : list event) : list request :=
  omap (fun e => match e with Fetch r => Some r | _ => None end) (rev es).

(** The [PATCH] requests among the events [es], first one first. *)
Definition patches (es : list event) : list request :=
  List.filter (fun r => match req_method r with PATCH => true | GET => false end)
              (requests es).

(** The events [m] adds when run from [w], most recent first. *)
Definition added {A} (m : M A) (w : world) : list event :=
  take (length (history (m w).2) - length (history w)) (history (m w).2).

Section Outcomes.
Context `{Host}.

(** The response was HTTP 200. *)
Definition succeeded (r : fetch_result) : bool :=
  match r with
  | Response code _ => (code =? 200)%nat
  | Throws _ => false
  end.

(** How many of the requests among [es], issued after [before], were answered
    with HTTP 200. *)
Fixpoint successes (es before : list event) : nat :=
  match es with
  | [] => 0
  | Fetch r :: es' =>
      (if succeeded (UrlFetchApp_fetch (es' ++ before) r) then 1 else 0)%nat
      + successes es' before
  | _ :: es' => successes es' before
  end.

End Outcomes.

(** The event is no [PATCH] request. *)
Definition no_update (e : event) : Prop :=
  match e with
  | Fetch r => req_method r = GET
  | _ => True
  end.

(** The records a response carries. *)
Definition carried (r : fetch_result) : list AirtableRecord :=
  match r with
  | Response _ (Parsed (Some records)) => records
  | _ => []
  end.

(** Two response items agree on what the script reads of them: the
    identifier and the URL field. *)
Definition same_source (urlOf : AirtableRecord -> string)
    (a b : AirtableRecord) : Prop :=
  ar_id a = ar_id b /\ urlOf a = urlOf b.

Section Plan.
Context `{Host}.

(** The instructions the pipeline is to arrive at from the items of the
    response and the content of the data sheet: none when no sheet row is
    retained. *)
Definition planned (urlOf : AirtableRecord -> string)
    (records : list AirtableRecord) (sheet : option (list (list JS.value)))
    : list UpdateInstruction :=
  let airtableRecords := validRecords urlOf records in
  let sheetData := sheetRowsOf (List.map r_formSlug airtableRecords) sheet in
  match sheetData with
  | [] => []
  | _ :: _ =>
      joinRecords (aggregate sheetData).1 (aggregate sheetData).2
        airtableRecords
  end.

End Plan.

(** A target whose base or table identifier is blank. *)
Definition blank (cfg : MultiTarget.target) : Prop :=
  MultiTarget.baseId cfg = "" \/ MultiTarget.tableId cfg = "".

(** ** Further vocabulary: what a run sent, and how it closed *)

(** The requests and the pauses among the events [es], first one first. *)
Definition traffic (es : list event) : list event :=
  List.filter (fun e => match e with
                        | Fetch _ | Sleep _ => true
                        | _ => false
                        end) (rev es).

(** The requests [rs], one after the other, with a pause of 200 ms before
    each of them but the first. *)
Definition paced (rs : list request) : list event :=
  match rs with
  | [] => []
  | r :: rest => Fetch r :: flat_map (fun r' => [Sleep 200; Fetch r']) rest
  end.

(** The number of [ERROR] rows among the events. *)
Definition errorRows (es : list event) : nat :=
  length (List.filter (fun e => match e with
                                | Log ERROR _ => true
                                | _ => false
                                end) es).

(** The read requests among the events [es], first one first. *)
Definition reads (es : list event) : list request :=
  List.filter (fun r => match req_method r with GET => true | PATCH => false end)
              (requests es).

(** The event is no request. *)
Definition no_fetch (e : event) : Prop :=
  match e with
  | Fetch _ => False
  | _ => True
  end.

(** A target with a base and a table identifier. *)
Definition configured (cfg : MultiTarget.target) : bool :=
  JS.string_truthy (MultiTarget.baseId cfg)
  && JS.string_truthy (MultiTarget.tableId cfg).

(** The request is the read request of the target or one of its update
    requests, with the key [apiKey]. *)
Definition addressed (cfg : MultiTarget.target) (apiKey : string)
    (r : request) : Prop :=
  r = MultiTarget.recordsRequest cfg apiKey
  \/ exists record, r = MultiTarget.updateRequest cfg apiKey record.

(** What is sent for a number is no [NaN]. *)
Definition not_nan (v : JS.stored) : Prop :=
  match v with
  | JS.Num x => is_nan x = false
  | JS.Other => True
  end.

(** A row [getSheetData] may return for the candidate keys: its form name is
    a non-empty candidate key, its two measures are numbers, and one of them
    is positive. *)
Definition sound (candidateKeys : list string) (row : SheetRow) : Prop :=
  formName row <> ""
  /\ formName row ∈ candidateKeys
  /\ is_nan (dollarsRaised row) = false
  /\ is_nan (numDonations row) = false
  /\ ((0 <? dollarsRaised row) || (0 <? numDonations row))%float = true.

(** Two data rows agree on the three cells [getSheetData] reads of them, which
    the two sheets hold in the columns [c1] and [c2]. *)
Definition same_cells (c1 c2 : nat * nat * nat) (row1 row2 : list JS.value)
    : Prop :=
  JS.index row1 c1.1.1 = JS.index row2 c2.1.1
  /\ JS.index row1 c1.1.2 = JS.index row2 c2.1.2
  /\ JS.index row1 c1.2 = JS.index row2 c2.2.

(** The event is no [ERROR] row. *)
Definition no_error (e : event) : Prop :=
  match e with
  | Log ERROR _ => False
  | _ => True
  end.

(** The answer to the read request carries records. *)
Definition answered (r : fetch_result) : bool :=
  match r with
  | Response _ (Parsed (Some _)) => true
  | _ => false
  end.

(** The data sheet exists, has a row under its first row, and its first row
    names the three columns. *)
Definition readable (sheet : option (list (list JS.value))) : bool :=
  match sheet with
  | Some (headers :: _ :: _) =>
      bool_decide (is_Some (JS.array_indexOf headers "form_name"))
      && bool_decide (is_Some (JS.array_indexOf headers "dollars_raised"))
      && bool_decide (is_Some (JS.array_indexOf headers "num_of_donations"))
  | _ => false
  end.

Section Accepted.
Context `{Host}.

(** How many of the update requests among [es], issued after [before], were
    answered with HTTP 200. *)
Fixpoint accepted (es before : list event) : nat :=
  match es with
  | [] => 0
  | Fetch r :: es' =>
      (match req_method r with
       | PATCH =>
           if succeeded (UrlFetchApp_fetch (es' ++ before) r) then 1 else 0
       | GET => 0
       end)%nat
      + accepted es' before
  | _ :: es' => accepted es' before
  end.

End Accepted.

(** *** Where a run of [syncData] reads *)

Section Reads.
Context `{Host}.
Variable key : string.

(** The history at which a run of [syncData] started from [w] sends its
    read request: the run has written its two opening rows. *)
Definition readAt (w : world) : list event :=
  Log INFO [T "Fetching records from Airtable..."]
  :: Log INFO [T "Starting sync process..."] :: history w.

(** The answer the run gets to its read request. *)
Definition answer (w : world) : fetch_result :=
  UrlFetchApp_fetch (readAt w) (Script.recordsRequest key).

(** The history at which the run reads the data sheet, which it does when
    the answer has given a record: after the request it has written the
    number of records and the opening row of [getSheetData]. *)
Definition sheetAt (w : world) : list event :=
  Log INFO [T "Retrieving data from Google Sheets..."]
  :: Log INFO [T "Found ";
               N (length (validRecords Script.actBlueUrlOf
                            (carried (answer w))));
               T " valid ActBlue form slugs in Airtable"]
  :: Fetch (Script.recordsRequest key) :: readAt w.

(** What the run finds in the data sheet. *)
Definition sheetRead (w : world) : option (list (list JS.value)) :=
  getSheetValues (sheetAt w) SHEET_NAME.

End Reads.

(** *** What goes out *)

(** What [JSON.stringify] writes for a value of the payload: the numeral of
    a finite number, [null] for [NaN] and the infinities, and for what is no
    number something else (quoted text, an object, or nothing at all, the
    property being left out, for a function). *)
Inductive json :=
| JNumber (x : float)
| JNull
| JOther.

(** [JSON.stringify] on a value of the payload; the numeral of [-0] is
    [0]. *)
Definition JSON_stringify (v : JS.stored) : json :=
  match v with
  | JS.Num x =>
      if is_finite x then JNumber (if (x =? 0)%float then 0%float else x)
      else JNull
  | JS.Other => JOther
  end.

(** The fields of the body of a request, as [JSON.stringify(payload)] writes
    them. *)
Definition written (r : request) : list (string * json) :=
  List.map (fun field => (field.1, JSON_stringify field.2)) (req_fields r).

(** The numeral of [x], or [null] when [x] is an infinity. *)
Definition numeral_or_null (x : float) : json :=
  if is_infinity x then JNull else JNumber x.

(** *** The "Logs" sheet and the triggers *)

Module Journal.
Import Workbook.

(** A call of [logMessage] or of [logError], with its time. *)
Inductive entry :=
| Info (now : float) (message : string)
| Failure (now : float) (errorMessage : string).

(** The call. *)
Definition write (p : project) (e : entry) : project :=
  match e with
  | Info now message => logMessage now message p
  | Failure now errorMessage => logError now errorMessage p
  end.

(** The row the call is to leave in the sheet. *)
Definition entryRow (e : entry) : list JS.value :=
  match e with
  | Info now message =>
      [JS.VDate now; JS.VString "INFO"; JS.VString message]
  | Failure now errorMessage =>
      [JS.VDate now; JS.VString "ERROR"; JS.VString errorMessage]
  end.

(** The numbers of the rows the formats colour red, in the order in which
    they were coloured. *)
Definition redRows (s : sheet) : list nat :=
  omap (fun f => match f with
                 | FontColor row _ _ _ color =>
                     if String.eqb color "red" then Some row else None
                 | _ => None
                 end) (formats s).

(** The type of the row is [ERROR]. *)
Definition isError (row : list JS.value) : bool :=
  match JS.index row 1 with
  | JS.VString type => String.eqb type "ERROR"
  | _ => false
  end.

(** The numbers of the rows whose type is [ERROR], the first of [rows]
    being row number [n]. *)
Fixpoint errorRowsFrom (n : nat) (rows : list (list JS.value)) : list nat :=
  match rows with
  | [] => []
  | row :: rest =>
      if isError row then n :: errorRowsFrom (S n) rest
      else errorRowsFrom (S n) rest
  end.

(** The sheet the next call writes to: the "Logs" sheet, or the headed sheet
    the call inserts when there is none. *)
Definition base (p : project) : sheet := (logsSheet p).1.

(** The trigger is one for [hourlyAutoSync]. *)
Definition hourly (t : trigger) : bool :=
  String.eqb (handlerFunction t) "hourlyAutoSync".

(** The last [k] elements of a list. *)
Definition latest {A} (k : nat) (l : list A) : list A :=
  drop (length l - k) l.

(** What [viewLogs] is to show for what the "Logs" sheet holds: a notice
    when there is no sheet or no row under the first, else the table of the
    last 50 rows under the first. *)
Definition logsDialog (logs : option Workbook.sheet) : Workbook.ui_action :=
  match logs with
  | None =>
      Workbook.Alert None "No logs found. Run a sync first to generate logs."
  | Some s =>
      let entries := tl (Workbook.getValues s) in
      match entries with
      | [] => Workbook.Alert None "No log entries found."
      | _ :: _ =>
          let k := Nat.min 50 (length entries) in
          Workbook.ModalDialog
            (ScriptMenu.tableHead
             ++ flat_map ScriptMenu.tableRow (latest k entries)
             ++ [Workbook.Lit "</table></body></html>"])
            800 500
            [Workbook.Lit "Sync Logs (Recent "; Workbook.Count k;
             Workbook.Lit " entries)"]
      end
  end.

End Journal.

(** ** Concrete inputs

    The scenario of the specification: two remote records, for the forms
    [alpha] and [beta], and four sheet rows. *)

Module Scenario.

Definition records : list AirtableRecord :=
  [ {| ar_id := "r1";
       ar_fields := {[ "ActBlue Page" :=
                         "https://secure.actblue.com/donate/alpha" ]} |};
    {| ar_id := "r2";
       ar_fields := {[ "ActBlue Page" :=
                         "https://secure.actblue.com/donate/beta" ]} |} ].

Definition grid : list (list JS.value) :=
  [ [JS.VString "form_name"; JS.VString "dollars_raised";
     JS.VString "num_of_donations"];
    [JS.VString "alpha"; JS.VNumber 10.5; JS.VNumber 2];
    [JS.VString "alpha"; JS.VNumber 4.5; JS.VNumber 1];
    [JS.VString "beta"; JS.VNumber 0; JS.VNumber 0];
    [JS.VString "gamma"; JS.VNumber 100; JS.VNumber 5] ].

(** A spreadsheet whose data sheet holds [g]. *)
Definition spreadsheet (g : list (list JS.value)) (h : list event)
    (name : string) : option (list (list JS.value)) :=
  if String.eqb name SHEET_NAME then Some g else None.

(** A network that returns [rs] to every read and accepts every update. *)
Definition network (rs : list AirtableRecord) (h : list event) (r : request)
    : fetch_result :=
  match req_method r with
  | GET => Response 200 (Parsed (Some rs))
  | PATCH => Response 200 (Parsed None)
  end.

(** Whether an update has been sent so far. *)
Definition updated (h : list event) : bool :=
  existsb (fun e => match e with
                    | Fetch r => match req_method r with
                                 | PATCH => true
                                 | GET => false
                                 end
                    | _ => false
                    end) h.

(** The records as Airtable returns them once they have been updated: [r1]
    shows the new values of [Raised] and [Donations]. *)
Definition records_after_update : list AirtableRecord :=
  [ {| ar_id := "r1";
       ar_fields := {[ "ActBlue Page" :=
                         "https://secure.actblue.com/donate/alpha";
                       "Raised" := "15"; "Donations" := "3" ]} |};
    {| ar_id := "r2";
       ar_fields := {[ "ActBlue Page" :=
                         "https://secure.actblue.com/donate/beta" ]} |} ].

(** A network that shows the updates it has accepted. *)
Definition live_network (h : list event) (r : request) : fetch_result :=
  match req_method r with
  | GET => Response 200 (Parsed (Some (if updated h then records_after_update
                                        else records)))
  | PATCH => Response 200 (Parsed None)
  end.

(** A clock that stands at 2024-03-05T12:00:00.000Z. *)
Definition noon (h : list event) : float := 1709640000000%float.

Definition host : Host := Reference.host noon (network records) (spreadsheet grid).

Definition live_host : Host :=
  Reference.host noon live_network (spreadsheet grid).

(** Two rows of one form that record donations and raise nothing. *)
Definition unpaid_grid : list (list JS.value) :=
  [ [JS.VString "form_name"; JS.VString "dollars_raised";
     JS.VString "num_of_donations"];
    [JS.VString "alpha"; JS.VNumber 0; JS.VNumber 5];
    [JS.VString "alpha"; JS.VNumber 0; JS.VNumber 3] ].

Definition unpaid_host : Host :=
  Reference.host noon (network records) (spreadsheet unpaid_grid).

(** Two rows of one form whose amounts are the text [Infinity] and
    [-Infinity]. *)
Definition unbounded_grid : list (list JS.value) :=
  [ [JS.VString "form_name"; JS.VString "dollars_raised";
     JS.VString "num_of_donations"];
    [JS.VString "alpha"; JS.VString "Infinity"; JS.VNumber 1];
    [JS.VString "alpha"; JS.VString "-Infinity"; JS.VNumber 1] ].

Definition unbounded_host : Host :=
  Reference.host noon (network records) (spreadsheet unbounded_grid).

(** What [fetchAirtableRecords] makes of [records]. *)
Definition remote : list RemoteRecord :=
  [ {| r_id := "r1";
       r_actBlueUrl := "https://secure.actblue.com/donate/alpha";
       r_formSlug := "alpha" |};
    {| r_id := "r2";
       r_actBlueUrl := "https://secure.actblue.com/donate/beta";
       r_formSlug := "beta" |} ].

(** A record for a form called [toString], which has no sheet row. *)
Definition namesake : RemoteRecord :=
  {| r_id := "r4";
     r_actBlueUrl := "https://secure.actblue.com/donate/toString";
     r_formSlug := "toString" |}.

(** A record whose URL is the bare prefix. *)
Definition bare : AirtableRecord :=
  {| ar_id := "r3";
     ar_fields := {[ "ActBlue Page" := "https://secure.actblue.com/donate/" ]} |}.

Definition bare_host : Host :=
  Reference.host noon (network [bare]) (spreadsheet grid).

(** A first run: no property stored, nothing done yet. *)
Definition fresh : world := {| props := ∅; history := [] |}.

(** A world whose stored timestamp is [s]. *)
Definition last_synced (s : string) : world :=
  {| props := {[ RATE_LIMIT_PROP_KEY := s ]}; history := [] |}.

(** A world that holds the API key of revision 1.1.0. *)
Definition keyed : world :=
  {| props := {[ MultiTarget.AIRTABLE_API_KEY_PROP := "key" ]};
     history := [] |}.

Definition primary : MultiTarget.target :=
  {| MultiTarget.baseId := "appGDzLGgrYmcW9R1";
     MultiTarget.tableId := "tblTo3zgLYNby9UnL" |}.

Definition instructions : list UpdateInstruction :=
  [ {| u_id := "r1"; raised := JS.Num 15; donations := JS.Num 3 |} ].

End Scenario.

(** ** Further concrete inputs *)

Module Rearranged.

(** The grid of the scenario with a column of notes and its three columns in
    another order. *)
Definition grid : list (list JS.value) :=
  [ [JS.VString "notes"; JS.VString "num_of_donations";
     JS.VString "form_name"; JS.VString "dollars_raised"];
    [JS.VString "first"; JS.VNumber 2; JS.VString "alpha"; JS.VNumber 10.5];
    [JS.VString ""; JS.VNumber 1; JS.VString "alpha"; JS.VNumber 4.5];
    [JS.VBool true; JS.VNumber 0; JS.VString "beta"; JS.VNumber 0];
    [JS.VNumber 7; JS.VNumber 5; JS.VString "gamma"; JS.VNumber 100] ].

(** A spreadsheet whose data sheet is rearranged once the log has more than
    one row. *)
Definition spreadsheet (h : list event) (name : string)
    : option (list (list JS.value)) :=
  if String.eqb name SHEET_NAME
  then Some (if (length h <=? 1)%nat then Scenario.grid else grid)
  else None.

Definition host : Host :=
  Reference.host Scenario.noon (Scenario.network Scenario.records) spreadsheet.

(** A world in which one row has been logged. *)
Definition later : world :=
  {| props := ∅; history := [Log INFO [T "Manual sync triggered by user"]] |}.

End Rearranged.

Module Office.
Import Workbook.

(** A project with an edit trigger, an hourly trigger and a trigger of the
    user's own, and no "Logs" sheet. *)
Definition project : Workbook.project :=
  {| logs := None;
     active := "raw_import";
     triggers :=
       [ {| uniqueId := 11; handlerFunction := "onEdit";
            eventType := ON_EDIT |};
         {| uniqueId := 12; handlerFunction := "hourlyAutoSync";
            eventType := CLOCK 1 |};
         {| uniqueId := 13; handlerFunction := "sendReport";
            eventType := CLOCK 24 |} ];
     shown := [] |}.

(** A project whose "Logs" sheet exists and has no content. *)
Definition cleared : Workbook.project :=
  {| logs := Some {| rows := []; frozenRows := 0; formats := [] |};
     active := "Logs";
     triggers := [];
     shown := [] |}.

End Office.

Module Overflow.

(** One row of [alpha] whose amount is the text [Infinity]. *)
Definition grid : list (list JS.value) :=
  [ [JS.VString "form_name"; JS.VString "dollars_raised";
     JS.VString "num_of_donations"];
    [JS.VString "alpha"; JS.VString "Infinity"; JS.VNumber 1] ].

Definition host : Host :=
  Reference.host Scenario.noon (Scenario.network Scenario.records)
    (Scenario.spreadsheet grid).

End Overflow.

(** ** Facts about JavaScript numbers *)

Local Open Scope float_scope.

Lemma SFcompare_refl (x : spec_float) :
  x <> S754_nan -> SFcompare x x = Some Eq.
Proof.
  destruct x as [s|s| |s m e]; simpl; intros Hx; try congruence.
  - destruct s; reflexivity.
  - rewrite Z.compare_refl, Pos.compare_cont_refl. destruct s; reflexivity.
Qed.

Lemma SFcompare_antisym (x y : spec_float) (c : comparison) :
  SFcompare x y = Some c -> SFcompare y x = Some (CompOpp c).
Proof.
  destruct x as [s1|s1| |s1 m1 e1], y as [s2|s2| |s2 m2 e2]; simpl;
    try congruence; intros [= <-]; f_equal;
    try (destruct s1; try destruct s2; reflexivity).
  destruct s1, s2; try reflexivity;
    rewrite (Z.compare_antisym e1 e2); destruct (e1 ?= e2)%Z; simpl;
    try reflexivity;
    rewrite (Pos.compare_cont_antisym m1 m2 Eq); reflexivity.
Qed.

(** There is one [NaN]. *)
Lemma is_nan_eq (x : float) : is_nan x = true -> x = nan.
Proof.
  unfold is_nan. rewrite FloatAxioms.eqb_spec. intros Hx.
  apply Prim2SF_inj. change (Prim2SF nan) with S754_nan.
  destruct (Prim2SF x) eqn:E; try reflexivity; exfalso;
    unfold SFeqb in Hx; rewrite SFcompare_refl in Hx; simpl in Hx; congruence.
Qed.

Lemma sub_nan_r (x : float) : x - nan = nan.
Proof.
  apply Prim2SF_inj. rewrite FloatAxioms.sub_spec.
  change (Prim2SF nan) with S754_nan.
  destruct (Prim2SF x) as [s|s| |s m e]; try destruct s; reflexivity.
Qed.

Lemma div_nan_l (y : float) : nan / y = nan.
Proof.
  apply Prim2SF_inj. rewrite FloatAxioms.div_spec.
  change (Prim2SF nan) with S754_nan. reflexivity.
Qed.

Lemma ltb_nan_l (y : float) : (nan <? y) = false.
Proof. rewrite FloatAxioms.ltb_spec. reflexivity. Qed.

Lemma ltb_nan_r (y : float) : (y <? nan) = false.
Proof.
  rewrite FloatAxioms.ltb_spec. change (Prim2SF nan) with S754_nan.
  unfold SFltb. destruct (Prim2SF y); reflexivity.
Qed.

(** A zero of either sign is not positive. *)
Lemma eqb_zero_not_pos (x : float) : (x =? 0) = true -> (0 <? x) = false.
Proof.
  rewrite FloatAxioms.eqb_spec, FloatAxioms.ltb_spec.
  change (Prim2SF 0) with (S754_zero false). unfold SFeqb, SFltb.
  destruct (Prim2SF x) as [s|s| |s m e]; simpl; try destruct s; simpl;
    congruence.
Qed.

Lemma leb_not_ltb (a b : float) : (a <=? b) = true -> (b <? a) = false.
Proof.
  rewrite FloatAxioms.leb_spec, FloatAxioms.ltb_spec. unfold SFleb, SFltb.
  destruct (SFcompare (Prim2SF a) (Prim2SF b)) as [c|] eqn:E; [|congruence].
  rewrite (SFcompare_antisym _ _ _ E). destruct c; simpl; congruence.
Qed.

(** [x || 0] is positive exactly when [x], read as [0] when it is [NaN], is
    positive. *)
Lemma or_else_pos (x : float) :
  JS.gt (JS.or_else x 0) 0 = (0 <? (if is_nan x then 0 else x)).
Proof.
  unfold JS.gt, JS.or_else, JS.truthy.
  destruct (is_nan x) eqn:Hn.
  - rewrite orb_true_r. reflexivity.
  - rewrite orb_false_r. destruct (x =? 0) eqn:Hz; simpl.
    + rewrite (eqb_zero_not_pos _ Hz). reflexivity.
    + reflexivity.
Qed.

Local Close Scope float_scope.

(** ** Facts about the effects of a run *)

Lemma replay_app (es1 es2 : list event) (p : gmap string string) :
  replay (es1 ++ es2) p = replay es1 (replay es2 p).
Proof. unfold replay. apply fold_right_app. Qed.

Lemma replay_no_set (P : event -> Prop) (es : list event)
    (p : gmap string string) :
  (forall k v, ~ P (SetProperty k v)) -> Forall P es -> replay es p = p.
Proof.
  intros HP Hes. induction Hes as [|e es He _ IH]; [reflexivity|].
  simpl. rewrite IH. destruct e; try reflexivity. destruct (HP _ _ He).
Qed.

Lemma effects_ret {A} (P : event -> Prop) (a : A) : effects P (ret a).
Proof. intros [p h]. exists []. split; [reflexivity | constructor]. Qed.

Lemma effects_bind {A B} (P : event -> Prop) (m : M A) (k : A -> M B) :
  effects P m -> (forall a, effects P (k a)) -> effects P (bind m k).
Proof.
  intros Hm Hk w. unfold bind.
  destruct (Hm w) as (es1 & E1 & F1). destruct (m w) as [a w1]. simpl in E1.
  destruct (Hk a w1) as (es2 & E2 & F2).
  exists (es2 ++ es1). split.
  - rewrite E2, E1. simpl. rewrite replay_app, app_assoc. reflexivity.
  - apply Forall_app. split; assumption.
Qed.

Lemma effects_logMessage (P : event -> Prop) (m : list frag) :
  P (Log INFO m) -> effects P (logMessage m).
Proof.
  intros He w. exists [Log INFO m]. split; [reflexivity|].
  repeat constructor. exact He.
Qed.

Lemma effects_logError (P : event -> Prop) (m : list frag) :
  P (Log ERROR m) -> effects P (logError m).
Proof.
  intros He w. exists [Log ERROR m]. split; [reflexivity|].
  repeat constructor. exact He.
Qed.

Lemma effects_getProperty (P : event -> Prop) (key : string) :
  P (GetProperty key) -> effects P (getProperty key).
Proof.
  intros He w. exists [GetProperty key]. split; [reflexivity|].
  repeat constructor. exact He.
Qed.

Lemma effects_setProperty (P : event -> Prop) (key value : string) :
  P (SetProperty key value) -> effects P (setProperty key value).
Proof.
  intros He w. exists [SetProperty key value]. split; [reflexivity|].
  repeat constructor. exact He.
Qed.

Lemma effects_weaken {A} (P Q : event -> Prop) (m : M A) :
  (forall e, P e -> Q e) -> effects P m -> effects Q m.
Proof.
  intros HPQ Hm w. destruct (Hm w) as (es & E & F).
  exists es. split; [exact E|]. eapply Forall_impl; eassumption.
Qed.

(** The events a run adds are those [effects] speaks of. *)
Lemma effects_added {A} (P : event -> Prop) (m : M A) (w : world) :
  effects P m ->
  (m w).2 = {| props := replay (added m w) (props w);
               history := added m w ++ history w |}
  /\ Forall P (added m w).
Proof.
  intros Hm. destruct (Hm w) as (es & E & F).
  assert (added m w = es) as ->; [|split; assumption].
  unfold added. rewrite E. simpl. rewrite length_app.
  replace (length es + length (history w) - length (history w)) with (length es)
    by lia.
  apply take_app_length.
Qed.

Section EffectsOfHost.
Context `{Host}.

Lemma effects_new_Date (P : event -> Prop) : effects P new_Date.
Proof. intros [p h]. exists []. split; [reflexivity | constructor]. Qed.

Lemma effects_readSheet (P : event -> Prop) (name : string) :
  effects P (readSheet name).
Proof. intros [p h]. exists []. split; [reflexivity | constructor]. Qed.

Lemma effects_fetch (P : event -> Prop) (r : request) :
  P (Fetch r) -> effects P (fetch r).
Proof.
  intros He w. exists [Fetch r]. split; [reflexivity|].
  repeat constructor. exact He.
Qed.

Lemma effects_sleep (P : event -> Prop) (ms : nat) :
  P (Sleep ms) -> effects P (sleep ms).
Proof.
  intros He w. exists [Sleep ms]. split; [reflexivity|].
  repeat constructor. exact He.
Qed.

End EffectsOfHost.

(** Takes an [effects] goal apart along the structure of the script. *)
Ltac effects_step :=
  lazymatch goal with
  | |- effects _ (bind _ _) => apply effects_bind; [|intros]
  | |- effects _ (ret _) => apply effects_ret
  | |- effects _ (logMessage _) => apply effects_logMessage; simpl; auto
  | |- effects _ (logError _) => apply effects_logError; simpl; auto
  | |- effects _ (sleep _) => apply effects_sleep; simpl; auto
  | |- effects _ (fetch _) => apply effects_fetch; simpl; auto
  | |- effects _ (getProperty _) => apply effects_getProperty; simpl; auto
  | |- effects _ (setProperty _ _) => apply effects_setProperty; simpl; auto
  | |- effects _ new_Date => apply effects_new_Date
  | |- effects _ (readSheet _) => apply effects_readSheet
  | |- effects _ (if ?b then _ else _) => destruct b
  | |- effects _ (match ?x with _ => _ end) => destruct x
  end.

(** ** What the functions of the script may do *)

Section EffectsOfScript.
Context `{Host}.
Variable P : event -> Prop.
Hypothesis P_log : forall lv m, P (Log lv m).

Lemma effects_scanRow formSlugs fi di ni row st :
  effects P (scanRow formSlugs fi di ni row st).
Proof. unfold scanRow. repeat effects_step. Qed.

Lemma effects_scanRows values formSlugs fi di ni remaining :
  forall i st, effects P (scanRows values formSlugs fi di ni remaining i st).
Proof.
  induction remaining as [|n IH]; intros i st; simpl.
  - effects_step.
  - effects_step; [apply effects_scanRow | apply IH].
Qed.

Lemma effects_getSheetData airtableRecords :
  effects P (getSheetData airtableRecords).
Proof.
  unfold getSheetData. repeat (effects_step || apply effects_scanRows).
Qed.

Lemma effects_processData airtableRecords sheetData :
  effects P (processData airtableRecords sheetData).
Proof. unfold processData. repeat effects_step. Qed.

Hypothesis P_sleep : forall ms, P (Sleep ms).
Hypothesis P_fetch : forall r, P (Fetch r).

Lemma effects_updateRecord requestFor record index counts :
  effects P (updateRecord requestFor record index counts).
Proof. unfold updateRecord. repeat effects_step. Qed.

Lemma effects_updateEach requestFor processedData :
  forall index counts,
    effects P (updateEach requestFor processedData index counts).
Proof.
  induction processedData as [|record rest IH]; intros index counts; simpl.
  - effects_step.
  - effects_step; [apply effects_updateRecord | apply IH].
Qed.

Lemma effects_Script_syncData key : effects P (Script.syncData key).
Proof.
  unfold Script.syncData, Script.fetchAirtableRecords, Script.updateAirtable.
  repeat (effects_step || apply effects_getSheetData
          || apply effects_processData || apply effects_updateEach).
Qed.

Lemma effects_Script_manualSyncData key :
  effects P (Script.manualSyncData key).
Proof.
  unfold Script.manualSyncData.
  repeat (effects_step || apply effects_Script_syncData).
Qed.

Hypothesis P_api_key : P (GetProperty MultiTarget.AIRTABLE_API_KEY_PROP).

Lemma effects_MultiTarget_syncTarget cfg :
  effects P (MultiTarget.syncTarget cfg).
Proof.
  unfold MultiTarget.syncTarget, MultiTarget.fetchAirtableRecords,
    MultiTarget.updateAirtable.
  repeat (effects_step || apply effects_getSheetData
          || apply effects_processData || apply effects_updateEach).
Qed.

Lemma effects_MultiTarget_forEachTarget targets :
  effects P (MultiTarget.forEachTarget targets).
Proof.
  induction targets as [|cfg rest IH]; simpl.
  - effects_step.
  - effects_step; [apply effects_MultiTarget_syncTarget | apply IH].
Qed.

Lemma effects_MultiTarget_manualSyncData :
  effects P MultiTarget.manualSyncData.
Proof.
  unfold MultiTarget.manualSyncData, MultiTarget.syncData,
    MultiTarget.syncTargets.
  repeat (effects_step || apply effects_MultiTarget_forEachTarget).
Qed.

End EffectsOfScript.

Section RateLimitSteps.
Context `{Host}.

(** [shouldRespectRateLimit] reads the property once and changes nothing. *)
Lemma shouldRespectRateLimit_world (limit : float) (w : world) :
  (shouldRespectRateLimit limit w).2 =
  {| props := props w;
     history := GetProperty RATE_LIMIT_PROP_KEY :: history w |}.
Proof.
  unfold shouldRespectRateLimit, bind, getProperty; simpl.
  destruct (props w !! RATE_LIMIT_PROP_KEY) as [s|]; [|reflexivity].
  destruct (negb (JS.string_truthy s)); reflexivity.
Qed.

(** [updateLastSyncTime] stores the current time. *)
Lemma updateLastSyncTime_world (w : world) :
  (updateLastSyncTime w).2 =
  {| props := <[RATE_LIMIT_PROP_KEY := Date_toISOString (Date_now (history w))]>
                (props w);
     history := SetProperty RATE_LIMIT_PROP_KEY
                  (Date_toISOString (Date_now (history w))) :: history w |}.
Proof. reflexivity. Qed.

End RateLimitSteps.

(** ** Sums of positive numbers *)

Section Rounding.
Local Open Scope Z_scope.

Lemma digits2_pos_lower (p : positive) :
  2 ^ (Z.pos (digits2_pos p) - 1) <= Z.pos p.
Proof.
  induction p as [p IH|p IH|]; simpl digits2_pos.
  - rewrite Pos2Z.inj_succ.
    replace (Z.succ (Z.pos (digits2_pos p)) - 1)
      with (Z.succ (Z.pos (digits2_pos p) - 1)) by lia.
    rewrite Z.pow_succ_r by lia. lia.
  - rewrite Pos2Z.inj_succ.
    replace (Z.succ (Z.pos (digits2_pos p)) - 1)
      with (Z.succ (Z.pos (digits2_pos p) - 1)) by lia.
    rewrite Z.pow_succ_r by lia. lia.
  - simpl. lia.
Qed.

(** A shift by one bit halves the bound. *)
Lemma shr_1_lower (k : Z) (mrs : shr_record) :
  0 <= k -> 2 ^ (k + 1) <= shr_m mrs -> 2 ^ k <= shr_m (shr_1 mrs).
Proof.
  intros Hk. rewrite Z.pow_add_r by lia. change (2 ^ 1) with 2.
  destruct mrs as [m r s]. simpl shr_m.
  assert (0 < 2 ^ k) by (apply Z.pow_pos_nonneg; lia).
  destruct m as [|[p|p|]|p]; simpl; lia.
Qed.

Lemma iter_shr_1_lower (p : positive) :
  forall (k : Z) (mrs : shr_record),
    0 <= k -> 2 ^ (k + Z.pos p) <= shr_m mrs ->
    2 ^ k <= shr_m (SpecFloat.iter_pos shr_1 p mrs).
Proof.
  induction p as [p IH|p IH|]; intros k mrs Hk Hm; simpl SpecFloat.iter_pos.
  - apply IH; [exact Hk|]. apply IH; [lia|]. apply shr_1_lower; [lia|].
    replace (k + Z.pos p + Z.pos p + 1) with (k + Z.pos p~1) by lia.
    exact Hm.
  - apply IH; [exact Hk|]. apply IH; [lia|].
    replace (k + Z.pos p + Z.pos p) with (k + Z.pos p~0) by lia. exact Hm.
  - apply shr_1_lower; assumption.
Qed.

(** Shifting a positive mantissa to its place leaves it positive. *)
Lemma shr_fexp_pos (m e : Z) (l : location) :
  0 < m -> emin <= e ->
  0 < shr_m (shr_fexp prec emax m e l).1
  /\ emin <= (shr_fexp prec emax m e l).2.
Proof.
  intros Hm He. unfold shr_fexp, shr, fexp.
  destruct m as [|p|p]; try lia. simpl Zdigits2.
  pose proof (digits2_pos_lower p) as Hd.
  assert (shr_m (shr_record_of_loc (Z.pos p) l) = Z.pos p) as Hrec
    by (destruct l as [|[]]; reflexivity).
  destruct (Z.max (Z.pos (digits2_pos p) + e - prec) (emin) - e)
    as [|n|n] eqn:Hn; simpl fst; simpl snd.
  - rewrite Hrec. lia.
  - split; [|lia].
    assert (Z.pos n <= Z.pos (digits2_pos p) - 1) as Hle.
    { assert (prec = 53) as Hp by reflexivity. lia. }
    assert (2 ^ 0 <= shr_m (SpecFloat.iter_pos shr_1 n
                              (shr_record_of_loc (Z.pos p) l))) as Hlow.
    { apply iter_shr_1_lower; [lia|]. rewrite Hrec.
      eapply Z.le_trans; [|exact Hd].
      apply Z.pow_le_mono_r; lia. }
    simpl in Hlow. lia.
  - rewrite Hrec. lia.
Qed.

Lemma round_nearest_even_pos (m : Z) (l : location) :
  0 < m -> 0 < round_nearest_even m l.
Proof.
  intros Hm. unfold round_nearest_even.
  destruct l as [|[]]; try lia. destruct (Z.even m); lia.
Qed.

(** Rounding a positive number gives a positive number or infinity. *)
Lemma binary_round_aux_pos (m e : Z) (l : location) :
  0 < m -> emin <= e ->
  SFltb (S754_zero false) (binary_round_aux prec emax false m e l) = true.
Proof.
  intros Hm He. unfold binary_round_aux.
  destruct (shr_fexp_pos m e l Hm He) as [Hm1 He1].
  destruct (shr_fexp prec emax m e l) as [mrs1 e1]. simpl in Hm1, He1.
  pose proof (round_nearest_even_pos _ (loc_of_shr_record mrs1) Hm1) as Hr.
  destruct (shr_fexp_pos _ e1 loc_Exact Hr He1) as [Hm2 He2].
  destruct (shr_fexp prec emax _ e1 loc_Exact) as [mrs2 e2].
  simpl in Hm2, He2.
  destruct (shr_m mrs2) as [|p|p]; try lia.
  destruct (e2 <=? emax - prec); reflexivity.
Qed.

Lemma binary_round_pos (m : positive) (e : Z) :
  emin <= e ->
  SFltb (S754_zero false) (binary_round prec emax false m e) = true.
Proof.
  intros He. unfold binary_round, shl_align.
  assert (emin <= fexp prec emax (Z.pos (digits2_pos m) + e))
    as Hf by (unfold fexp; lia).
  destruct (fexp prec emax (Z.pos (digits2_pos m) + e) - e);
    apply binary_round_aux_pos; lia.
Qed.

(** The exponent of a number of the format is not below [emin]. *)
Lemma valid_exponent (s : bool) (m : positive) (e : Z) :
  valid_binary (S754_finite s m e) = true -> emin <= e.
Proof.
  unfold SpecFloat.valid_binary, bounded, canonical_mantissa, fexp.
  intros Hv. apply andb_prop in Hv as [Hc _]. apply Z.eqb_eq in Hc. lia.
Qed.

(** Zero or a positive number, plus a positive number, is positive. *)
Lemma SFadd_pos (x y : spec_float) :
  valid_binary x = true -> valid_binary y = true ->
  SFleb (S754_zero false) x = true ->
  SFltb (S754_zero false) y = true ->
  SFltb (S754_zero false) (SF64add x y) = true.
Proof.
  intros Hvx Hvy Hx Hy.
  destruct x as [sx|sx| |sx mx ex], y as [sy|sy| |sy my ey];
    try discriminate; try destruct sx; try destruct sy; try discriminate;
    try reflexivity.
  pose proof (valid_exponent _ _ _ Hvx) as Hex.
  pose proof (valid_exponent _ _ _ Hvy) as Hey.
  unfold SF64add, SFadd, cond_Zopp, binary_normalize.
  cbv zeta. simpl Z.add.
  apply binary_round_pos. lia.
Qed.

End Rounding.

Local Open Scope float_scope.

Lemma add_pos (x y : float) :
  (0 <=? x) = true -> (0 <? y) = true -> (0 <? x + y) = true.
Proof.
  rewrite FloatAxioms.leb_spec, !FloatAxioms.ltb_spec, FloatAxioms.add_spec.
  change (Prim2SF 0) with (S754_zero false).
  apply SFadd_pos; apply Prim2SF_valid.
Qed.

Lemma pos_nonneg (x : float) : (0 <? x) = true -> (0 <=? x) = true.
Proof.
  rewrite FloatAxioms.leb_spec, FloatAxioms.ltb_spec. unfold SFleb, SFltb.
  destruct (SFcompare _ _) as [[]|]; congruence.
Qed.

(** A positive number is truthy. *)
Lemma pos_truthy (x : float) : (0 <? x) = true -> JS.truthy x = true.
Proof.
  intros Hx. unfold JS.truthy.
  assert ((x =? 0) = false) as ->.
  { destruct (x =? 0) eqn:Hz; [|reflexivity].
    rewrite (eqb_zero_not_pos _ Hz) in Hx. discriminate. }
  destruct (is_nan x) eqn:Hn; [|reflexivity].
  rewrite (is_nan_eq _ Hn), ltb_nan_r in Hx. discriminate.
Qed.

Local Close Scope float_scope.

(** ** The manual entry point and the rate-limit timestamp *)

(** A run that accesses no script property leaves the properties alone. *)
Lemma no_property_frame {A} (m : M A) (w : world) :
  effects no_property m -> props (m w).2 = props w.
Proof.
  intros Hm. destruct (Hm w) as (es & E & F). rewrite E. simpl.
  apply (replay_no_set no_property); [|exact F]. intros k v [].
Qed.

(** A run that writes no script property leaves the properties alone. *)
Lemma no_write_frame {A} (m : M A) (w : world) :
  effects no_write m -> props (m w).2 = props w.
Proof.
  intros Hm. destruct (Hm w) as (es & E & F). rewrite E. simpl.
  apply (replay_no_set no_write); [|exact F]. intros k v [].
Qed.

(** The properties after [onEdit]. *)
Lemma onEdit_props `{Host} (key activeSheet : string) (w : world) :
  props (Script.onEdit key activeSheet w).2 =
  (if String.eqb activeSheet SHEET_NAME
      && negb (shouldRespectRateLimit Script.RATE_LIMIT_HOURS w).1
   then <[RATE_LIMIT_PROP_KEY :=
            Date_toISOString
              (Date_now (GetProperty RATE_LIMIT_PROP_KEY :: history w))]>
          (props w)
   else props w).
Proof.
  unfold Script.onEdit.
  destruct (String.eqb activeSheet SHEET_NAME); simpl; [|reflexivity].
  unfold bind at 1.
  pose proof (shouldRespectRateLimit_world Script.RATE_LIMIT_HOURS w) as Hw.
  destruct (shouldRespectRateLimit Script.RATE_LIMIT_HOURS w) as [skip w1].
  simpl in Hw. subst w1. destruct skip; simpl; [reflexivity|].
  unfold bind at 1. simpl. unfold bind at 1. simpl.
  rewrite no_property_frame; [reflexivity|].
  apply effects_Script_syncData; intros; exact I.
Qed.

(** C9.  A manual sync accesses no script property at all, so it neither
    reads nor writes [lastAutoSyncTime] and leaves the properties as they
    were.  [onEdit] writes [lastAutoSyncTime], with the current time, exactly
    when the edit is in the data sheet and the rate-limit check lets the sync
    proceed; otherwise it leaves the properties as they were. *)
Theorem manual_sync_leaves_rate_limit `{Host} (key activeSheet : string)
    (w : world) :
  Forall no_property (added (Script.manualSyncData key) w)
  /\ props (Script.manualSyncData key w).2 = props w
  /\ props (Script.onEdit key activeSheet w).2 =
     (if String.eqb activeSheet SHEET_NAME
         && negb (shouldRespectRateLimit Script.RATE_LIMIT_HOURS w).1
      then <[RATE_LIMIT_PROP_KEY :=
               Date_toISOString
                 (Date_now (GetProperty RATE_LIMIT_PROP_KEY :: history w))]>
             (props w)
      else props w).
Proof.
  assert (effects no_property (Script.manualSyncData key)) as Hmanual.
  { apply effects_Script_manualSyncData; intros; exact I. }
  split; [|split].
  - apply (effects_added no_property), Hmanual.
  - apply no_property_frame, Hmanual.
  - apply onEdit_props.
Qed.

(** Revision 1.1.0 reads its API key from the script properties during a
    manual sync, and still neither reads nor writes [lastAutoSyncTime]. *)
Lemma manual_sync_leaves_rate_limit_1_1 `{Host} (w : world) :
  Forall (leaves RATE_LIMIT_PROP_KEY) (added MultiTarget.manualSyncData w)
  /\ props (MultiTarget.manualSyncData w).2 = props w.
Proof.
  pose (P := fun e => leaves RATE_LIMIT_PROP_KEY e
                      /\ match e with SetProperty _ _ => False | _ => True end).
  assert (effects P MultiTarget.manualSyncData) as Hm.
  { apply effects_MultiTarget_manualSyncData; unfold P; simpl; intros;
      (split; [try exact I; discriminate | exact I]). }
  destruct (effects_added P _ w Hm) as [E F]. split.
  - eapply Forall_impl; [exact F|]. intros e [He _]. exact He.
  - rewrite E. simpl. apply (replay_no_set P); [|exact F].
    intros k v [_ []].
Qed.

(** The properties after [hourlyAutoSync] of revision 1.1.0: the timestamp is
    written exactly when the rate-limit check lets the sync proceed. *)
Lemma hourlyAutoSync_props `{Host} (w : world) :
  let triggered :=
    {| props := props w;
       history := Log INFO [T "Hourly auto-sync triggered"] :: history w |} in
  props (MultiTarget.hourlyAutoSync w).2 =
  (if (shouldRespectRateLimit MultiTarget.RATE_LIMIT_HOURS triggered).1
   then props w
   else <[RATE_LIMIT_PROP_KEY :=
            Date_toISOString
              (Date_now (GetProperty RATE_LIMIT_PROP_KEY
                         :: history triggered))]>
          (props w)).
Proof.
  intros triggered. unfold MultiTarget.hourlyAutoSync.
  unfold bind at 1. change (logMessage _ w) with (tt, triggered).
  unfold bind at 1.
  pose proof (shouldRespectRateLimit_world MultiTarget.RATE_LIMIT_HOURS
                triggered) as Hw.
  destruct (shouldRespectRateLimit MultiTarget.RATE_LIMIT_HOURS triggered)
    as [skip w1].
  simpl in Hw. subst w1. destruct skip; simpl; [reflexivity|].
  unfold bind at 1. simpl.
  rewrite no_write_frame; [reflexivity|].
  unfold MultiTarget.syncData, MultiTarget.syncTargets.
  repeat (effects_step || apply effects_MultiTarget_forEachTarget);
    intros; exact I.
Qed.

(** An edit of the data sheet on a first run stores the time of the edit; a
    manual sync on a first run stores nothing. *)
Lemma first_runs_example :
  props (Script.onEdit (H := Scenario.host) "key" SHEET_NAME Scenario.fresh).2
  = {[ RATE_LIMIT_PROP_KEY := "2024-03-05T12:00:00.000Z" ]}
  /\ props (Script.manualSyncData (H := Scenario.host) "key" Scenario.fresh).2
     = ∅.
Proof. vm_compute. split; reflexivity. Qed.

(** ** Blank targets *)

(** C8.  A target whose base or table identifier is blank is skipped: the
    callback of [AIRTABLE_TARGETS.forEach] adds one log line and nothing
    else (no request, no property access), and the loop goes on with the
    targets after it. *)
Theorem blank_target_is_skipped `{Host} (cfg : MultiTarget.target)
    (before rest : list MultiTarget.target) (w : world) :
  blank cfg ->
  let skip (w : world) :=
    {| props := props w;
       history := Log INFO [T "Skipping target with blank Base/Table IDs"]
                  :: history w |} in
  MultiTarget.syncTarget cfg w = (tt, skip w)
  /\ MultiTarget.forEachTarget (before ++ cfg :: rest) w =
     MultiTarget.forEachTarget rest
       (skip (MultiTarget.forEachTarget before w).2).
Proof.
  intros Hblank skip.
  assert (forall w0, MultiTarget.syncTarget cfg w0 = (tt, skip w0)) as Hskip.
  { intros w0. unfold MultiTarget.syncTarget.
    destruct Hblank as [-> | ->]; simpl; [reflexivity|].
    rewrite orb_true_r. reflexivity. }
  split; [apply Hskip|].
  revert w. induction before as [|cfg0 before IH]; intros w; simpl.
  - unfold bind. rewrite Hskip. reflexivity.
  - unfold bind. destruct (MultiTarget.syncTarget cfg0 w) as [[] w1].
    apply IH.
Qed.

(** The scenario of the specification: [{baseId: "", tableId: "x"}] adds one
    log line to a fresh world. *)
Lemma blank_target_witness :
  MultiTarget.syncTarget (H := Scenario.host)
    {| MultiTarget.baseId := ""; MultiTarget.tableId := "x" |} Scenario.fresh
  = (tt, {| props := ∅;
            history := [Log INFO
                          [T "Skipping target with blank Base/Table IDs"]] |}).
Proof.
  exact (proj1 (blank_target_is_skipped (H := Scenario.host)
                  {| MultiTarget.baseId := ""; MultiTarget.tableId := "x" |}
                  [] [] Scenario.fresh (or_introl eq_refl))).
Defined.

(** The configured list: the second entry of [AIRTABLE_TARGETS] is blank, so
    [syncData] sends no request for it. *)
Lemma configured_blank_target_skipped `{Host} (w : world) :
  (MultiTarget.syncData w).2 =
  (logMessage [T "Sync completed for all configured targets"]
     ((logMessage [T "Skipping target with blank Base/Table IDs"]
        ((MultiTarget.syncTarget
            {| MultiTarget.baseId := "appGDzLGgrYmcW9R1";
               MultiTarget.tableId := "tblTo3zgLYNby9UnL" |}
            ((logMessage [T "Starting multi-destination sync process..."] w).2)).2)).2)).2.
Proof.
  unfold MultiTarget.syncData, MultiTarget.syncTargets,
    MultiTarget.AIRTABLE_TARGETS. simpl. unfold bind. simpl.
  destruct (MultiTarget.syncTarget _ _) as [[] w1]. reflexivity.
Qed.

(** ** The rate limiter *)

(** The value [shouldRespectRateLimit] returns. *)
Lemma shouldRespectRateLimit_value `{Host} (limit : float) (w : world) :
  (shouldRespectRateLimit limit w).1 =
  match props w !! RATE_LIMIT_PROP_KEY with
  | None => false
  | Some s =>
      JS.string_truthy s
      && (elapsedHours (Date_parse s)
            (Date_now (GetProperty RATE_LIMIT_PROP_KEY :: history w))
          <? limit)%float
  end.
Proof.
  unfold shouldRespectRateLimit, bind, getProperty; simpl.
  destruct (props w !! RATE_LIMIT_PROP_KEY) as [s|]; [|reflexivity].
  destruct (JS.string_truthy s); reflexivity.
Qed.

(** C5.  With no stored timestamp [shouldRespectRateLimit] returns [false].
    With a stored timestamp it returns [true] exactly when the hours elapsed
    from it to now are strictly below the threshold, so it returns [false]
    when they equal or exceed it.  (A stored empty string counts as no
    timestamp.) *)
Theorem shouldRespectRateLimit_threshold `{Host} (limit : float) (w : world) :
  let now := Date_now (GetProperty RATE_LIMIT_PROP_KEY :: history w) in
  let skip := (shouldRespectRateLimit limit w).1 in
  (props w !! RATE_LIMIT_PROP_KEY = None -> skip = false)
  /\ (props w !! RATE_LIMIT_PROP_KEY = Some "" -> skip = false)
  /\ (forall s, props w !! RATE_LIMIT_PROP_KEY = Some s -> s <> "" ->
        (skip = true <->
         (elapsedHours (Date_parse s) now <? limit)%float = true)
        /\ ((limit <=? elapsedHours (Date_parse s) now)%float = true ->
            skip = false)).
Proof.
  intros now skip. unfold skip. rewrite shouldRespectRateLimit_value.
  fold now. split; [|split].
  - intros ->. reflexivity.
  - intros ->. reflexivity.
  - intros s -> Hs.
    assert (JS.string_truthy s = true) as ->.
    { unfold JS.string_truthy. apply negb_true_iff, String.eqb_neq, Hs. }
    simpl. split; [reflexivity|].
    apply leb_not_ltb.
Qed.

(** At noon with the threshold of one hour of [SheetsToAirtableSync.js]: a
    sync at 11:30 suppresses the automatic sync, a sync at 11:00 sharp does
    not, nor does a first run.  With the quarter of an hour of revision
    1.1.0: a sync one millisecond after 11:45 suppresses it, a sync at 11:45
    sharp does not. *)
Lemma shouldRespectRateLimit_threshold_witness :
  (shouldRespectRateLimit (H := Scenario.host) Script.RATE_LIMIT_HOURS
     (Scenario.last_synced "2024-03-05T11:30:00.000Z")).1 = true
  /\ (shouldRespectRateLimit (H := Scenario.host) Script.RATE_LIMIT_HOURS
        (Scenario.last_synced "2024-03-05T11:00:00.000Z")).1 = false
  /\ (shouldRespectRateLimit (H := Scenario.host) Script.RATE_LIMIT_HOURS
        Scenario.fresh).1 = false
  /\ (shouldRespectRateLimit (H := Scenario.host) MultiTarget.RATE_LIMIT_HOURS
        (Scenario.last_synced "2024-03-05T11:45:00.001Z")).1 = true
  /\ (shouldRespectRateLimit (H := Scenario.host) MultiTarget.RATE_LIMIT_HOURS
        (Scenario.last_synced "2024-03-05T11:45:00.000Z")).1 = false.
Proof.
  split; [|split; [|split; [|split]]].
  - destruct (shouldRespectRateLimit_threshold (H := Scenario.host)
                Script.RATE_LIMIT_HOURS
                (Scenario.last_synced "2024-03-05T11:30:00.000Z"))
      as (_ & _ & Hs).
    destruct (Hs "2024-03-05T11:30:00.000Z" eq_refl) as [Hiff _];
      [discriminate|].
    apply Hiff. vm_compute. reflexivity.
  - destruct (shouldRespectRateLimit_threshold (H := Scenario.host)
                Script.RATE_LIMIT_HOURS
                (Scenario.last_synced "2024-03-05T11:00:00.000Z"))
      as (_ & _ & Hs).
    destruct (Hs "2024-03-05T11:00:00.000Z" eq_refl) as [_ Hge];
      [discriminate|].
    apply Hge. vm_compute. reflexivity.
  - destruct (shouldRespectRateLimit_threshold (H := Scenario.host)
                Script.RATE_LIMIT_HOURS Scenario.fresh) as (Hnone & _).
    apply Hnone. reflexivity.
  - destruct (shouldRespectRateLimit_threshold (H := Scenario.host)
                MultiTarget.RATE_LIMIT_HOURS
                (Scenario.last_synced "2024-03-05T11:45:00.001Z"))
      as (_ & _ & Hs).
    destruct (Hs "2024-03-05T11:45:00.001Z" eq_refl) as [Hiff _];
      [discriminate|].
    apply Hiff. vm_compute. reflexivity.
  - destruct (shouldRespectRateLimit_threshold (H := Scenario.host)
                MultiTarget.RATE_LIMIT_HOURS
                (Scenario.last_synced "2024-03-05T11:45:00.000Z"))
      as (_ & _ & Hs).
    destruct (Hs "2024-03-05T11:45:00.000Z" eq_refl) as [_ Hge];
      [discriminate|].
    apply Hge. vm_compute. reflexivity.
Defined.

(** C10.  A stored timestamp that is present and is no parseable date (it is
    empty, or its time value is [NaN]) makes [shouldRespectRateLimit] return
    [false], whatever the time and the threshold; [onEdit] in the data sheet
    then overwrites it with the current time. *)
Theorem corrupted_timestamp_never_skips `{Host} (limit : float)
    (key s : string) (w : world) :
  props w !! RATE_LIMIT_PROP_KEY = Some s ->
  s = "" \/ is_nan (Date_parse s) = true ->
  (shouldRespectRateLimit limit w).1 = false
  /\ props (Script.onEdit key SHEET_NAME w).2 !! RATE_LIMIT_PROP_KEY =
     Some (Date_toISOString
             (Date_now (GetProperty RATE_LIMIT_PROP_KEY :: history w))).
Proof.
  intros Hs Hnan.
  assert (forall l, (shouldRespectRateLimit l w).1 = false) as Hno.
  { intros l. rewrite shouldRespectRateLimit_value, Hs.
    destruct Hnan as [-> | Hnan]; [reflexivity|].
    rewrite (is_nan_eq _ Hnan). unfold elapsedHours.
    rewrite sub_nan_r, div_nan_l, ltb_nan_l. apply andb_false_r. }
  split; [apply Hno|].
  rewrite onEdit_props, Hno. simpl. apply lookup_insert_eq.
Qed.

(** A stored value that is no date: the check does not suppress the sync. *)
Lemma corrupted_timestamp_witness :
  (shouldRespectRateLimit (H := Scenario.host) 1
     (Scenario.last_synced "last tuesday")).1 = false.
Proof.
  exact (proj1 (corrupted_timestamp_never_skips (H := Scenario.host) 1 ""
                  "last tuesday" (Scenario.last_synced "last tuesday")
                  eq_refl (or_intror eq_refl))).
Defined.

(** ** The update loop *)

Section UpdateLoop.
Context `{Host}.

Lemma successes_app (es1 es2 before : list event) :
  successes (es1 ++ es2) before =
  successes es1 (es2 ++ before) + successes es2 before.
Proof.
  induction es1 as [|e es1 IH]; [reflexivity|].
  destruct e; simpl; rewrite IH; try reflexivity.
  rewrite <- app_assoc. lia.
Qed.

Lemma requests_app (es1 es2 : list event) :
  requests (es1 ++ es2) = requests es2 ++ requests es1.
Proof. unfold requests. rewrite rev_app_distr. apply omap_app. Qed.

(** One turn of the loop: a pause after the first record, the request, one
    log line; the answer is counted once. *)
Lemma updateRecord_attempt (requestFor : UpdateInstruction -> request)
    (record : UpdateInstruction) (index successCount errorCount : nat)
    (w : world) :
  let pause := if (0 <? index)%nat then [Sleep 200] else [] in
  let response :=
    UrlFetchApp_fetch (pause ++ history w) (requestFor record) in
  exists lv m,
    updateRecord requestFor record index (successCount, errorCount) w
    = ((if succeeded response then (S successCount, errorCount)
        else (successCount, S errorCount)),
       {| props := props w;
          history := Log lv m :: Fetch (requestFor record) :: pause
                     ++ history w |}).
Proof.
  intros pause response. unfold updateRecord, bind, fetch, sleep, emit.
  subst pause response. destruct w as [p h].
  destruct (0 <? index)%nat; simpl;
    match goal with |- context [UrlFetchApp_fetch ?a ?b] =>
      destruct (UrlFetchApp_fetch a b) as [msg|code content] end; simpl;
    try (destruct (code =? 200)%nat); eexists _, _; reflexivity.
Qed.

Lemma updateEach_cons (requestFor : UpdateInstruction -> request)
    (record : UpdateInstruction) (rest : list UpdateInstruction)
    (index : nat) (counts : nat * nat) (w : world) :
  updateEach requestFor (record :: rest) index counts w =
  updateEach requestFor rest (S index)
    (updateRecord requestFor record index counts w).1
    (updateRecord requestFor record index counts w).2.
Proof.
  simpl. unfold bind.
  destruct (updateRecord requestFor record index counts w). reflexivity.
Qed.

(** The loop sends the request of every record, in order, whatever the
    answers, and counts each answer once. *)
Lemma updateEach_attempts (requestFor : UpdateInstruction -> request)
    (processedData : list UpdateInstruction) :
  forall (index successCount errorCount : nat) (w : world),
  exists es,
    (updateEach requestFor processedData index (successCount, errorCount) w).2
    = {| props := props w; history := es ++ history w |}
    /\ requests es = List.map requestFor processedData
    /\ successes es (history w) <= length processedData
    /\ (updateEach requestFor processedData index
          (successCount, errorCount) w).1
       = (successCount + successes es (history w),
          errorCount + (length processedData - successes es (history w))).
Proof.
  induction processedData as [|record rest IH];
    intros index successCount errorCount w.
  - exists []. simpl. destruct w. repeat split; try reflexivity; try lia.
    unfold ret. simpl. f_equal; lia.
  - rewrite updateEach_cons.
    destruct (updateRecord_attempt requestFor record index successCount
                errorCount w) as (lv & m & ->).
    cbn [fst snd].
    set (pause := if (0 <? index)%nat then [Sleep 200] else []).
    set (response :=
           UrlFetchApp_fetch (pause ++ history w) (requestFor record)).
    set (w1 := {| props := props w;
                  history := Log lv m :: Fetch (requestFor record) :: pause
                             ++ history w |}).
    assert (exists s1 e1,
              (if succeeded response then (S successCount, errorCount)
               else (successCount, S errorCount)) = (s1, e1)
              /\ s1 = successCount + (if succeeded response then 1 else 0)
              /\ e1 = errorCount + (if succeeded response then 0 else 1))
      as (s1 & e1 & -> & Hs1 & He1).
    { destruct (succeeded response); eexists _, _;
        (split; [reflexivity|]); lia. }
    destruct (IH (S index) s1 e1 w1) as (es & E & R & B & V).
    exists (es ++ Log lv m :: Fetch (requestFor record) :: pause).
    assert (successes (es ++ Log lv m :: Fetch (requestFor record) :: pause)
              (history w)
            = successes es (history w1)
              + (if succeeded response then 1 else 0)) as Hs.
    { rewrite successes_app. simpl.
      assert (successes pause (history w) = 0) as ->
        by (unfold pause; destruct (0 <? index)%nat; reflexivity).
      fold response. unfold w1. simpl. lia. }
    rewrite Hs. repeat split.
    + rewrite E. unfold w1. simpl. rewrite <- app_assoc. reflexivity.
    + rewrite requests_app, R.
      replace (requests (Log lv m :: Fetch (requestFor record) :: pause))
        with [requestFor record]; [reflexivity|].
      unfold pause. destruct (0 <? index)%nat; reflexivity.
    + change (length (record :: rest)) with (S (length rest)).
      destruct (succeeded response); lia.
    + rewrite V. subst s1 e1.
      change (length (record :: rest)) with (S (length rest)).
      destruct (succeeded response); f_equal; lia.
Qed.

End UpdateLoop.

(** In revision 1.1.0 the callback of [syncData] reaches [updateAirtable]
    with the API key stored: [fetchAirtableRecords] returns a record only
    when it has found the key, and neither it nor [getSheetData] nor
    [processData] writes a property. *)
Lemma MultiTarget_update_reached_with_key `{Host} (cfg : MultiTarget.target)
    (w : world) :
  let fetched := MultiTarget.fetchAirtableRecords cfg w in
  let sheet := getSheetData fetched.1 fetched.2 in
  let joined := processData fetched.1 sheet.1 sheet.2 in
  fetched.1 <> [] ->
  exists apiKey,
    props joined.2 !! MultiTarget.AIRTABLE_API_KEY_PROP = Some apiKey
    /\ apiKey <> "".
Proof.
  intros fetched sheet joined Hne.
  assert (props joined.2 = props w) as ->.
  { unfold joined, sheet, fetched.
    rewrite (no_write_frame (processData _ _))
      by (apply effects_processData; intros; exact I).
    rewrite (no_write_frame (getSheetData _))
      by (apply effects_getSheetData; intros; exact I).
    apply no_write_frame. unfold MultiTarget.fetchAirtableRecords.
    repeat effects_step. }
  unfold fetched, MultiTarget.fetchAirtableRecords, bind, logMessage,
    logError, getProperty, emit in Hne. simpl in Hne.
  unfold MultiTarget.usable in Hne.
  destruct (props w !! MultiTarget.AIRTABLE_API_KEY_PROP) as [apiKey|];
    [|contradiction].
  destruct (JS.string_truthy apiKey) eqn:Hk; [|contradiction].
  exists apiKey. split; [reflexivity|].
  intros ->. discriminate.
Qed.

(** C6.  [updateAirtable] sends the request of every instruction exactly
    once and in order, whatever the earlier answers: an HTTP 200 answer adds
    to [successCount], any other answer or a thrown error adds to
    [errorCount], and the closing log line reports counts that add up to the
    number of instructions.  In revision 1.1.0 the loop stands behind the
    check of the API key property, and so does the statement; a run of
    [syncData] always passes that check, as the callback calls
    [updateAirtable] only when [fetchAirtableRecords] has returned a record,
    which it does only with the key stored, and nothing in between writes a
    property. *)
Theorem updateAirtable_attempts_every_instruction `{Host}
    (processedData : list UpdateInstruction) (w : world) :
  (forall key,
     let start := Log INFO [T "Updating "; N (length processedData);
                            T " Airtable records..."] :: history w in
     exists es successCount errorCount,
       history (Script.updateAirtable key processedData w).2
       = Log INFO [T "Update complete: "; N successCount; T " successful, ";
                   N errorCount; T " failed"] :: es ++ start
       /\ requests es = List.map (Script.updateRequest key) processedData
       /\ successCount = successes es start
       /\ successCount + errorCount = length processedData)
  /\ (forall cfg apiKey,
        props w !! MultiTarget.AIRTABLE_API_KEY_PROP = Some apiKey ->
        apiKey <> "" ->
        let start := GetProperty MultiTarget.AIRTABLE_API_KEY_PROP
                     :: Log INFO [T "Updating "; N (length processedData);
                                  T " Airtable records in base ";
                                  T (MultiTarget.baseId cfg); T "..."]
                     :: history w in
        exists es successCount errorCount,
          history (MultiTarget.updateAirtable cfg processedData w).2
          = Log INFO [T "Update complete: "; N successCount;
                      T " successful, "; N errorCount; T " failed"]
            :: es ++ start
          /\ requests es
             = List.map (MultiTarget.updateRequest cfg apiKey) processedData
          /\ successCount = successes es start
          /\ successCount + errorCount = length processedData)
  /\ (forall cfg w0,
        let fetched := MultiTarget.fetchAirtableRecords cfg w0 in
        let sheet := getSheetData fetched.1 fetched.2 in
        let joined := processData fetched.1 sheet.1 sheet.2 in
        fetched.1 <> [] ->
        exists apiKey,
          props joined.2 !! MultiTarget.AIRTABLE_API_KEY_PROP = Some apiKey
          /\ apiKey <> "").
Proof.
  split; [|split].
  - intros key start.
    unfold Script.updateAirtable, bind, logMessage, emit. simpl.
    destruct (updateEach_attempts (Script.updateRequest key) processedData
                0 0 0 {| props := props w; history := start |})
      as (es & E & R & B & V).
    destruct (updateEach _ _ _ _ _) as [[s e] w1]. simpl in E, V.
    injection V as -> ->. subst w1. simpl in *.
    exists es, (successes es start), (length processedData - successes es start).
    repeat split; try assumption. lia.
  - intros cfg apiKey Hkey Hne start.
    unfold MultiTarget.updateAirtable, bind, logMessage, getProperty, emit.
    simpl. rewrite Hkey. unfold MultiTarget.usable.
    assert (JS.string_truthy apiKey = true) as ->.
    { apply negb_true_iff, String.eqb_neq, Hne. }
    destruct (updateEach_attempts (MultiTarget.updateRequest cfg apiKey)
                processedData 0 0 0 {| props := props w; history := start |})
      as (es & E & R & B & V).
    fold start.
    destruct (updateEach _ _ _ _ _) as [[s e] w1]. simpl in E, V.
    injection V as -> ->. subst w1. simpl in *.
    exists es, (successes es start), (length processedData - successes es start).
    repeat split; try assumption. lia.
  - intros cfg w0. apply MultiTarget_update_reached_with_key.
Qed.

(** With the key stored, revision 1.1.0 sends the one request of a
    one-instruction batch; and the callback, run for the configured base
    from a world that holds the key, finds the key stored where it calls
    [updateAirtable]. *)
Lemma updateAirtable_attempts_witness :
  (exists es successCount errorCount,
     history (MultiTarget.updateAirtable (H := Scenario.host) Scenario.primary
                Scenario.instructions Scenario.keyed).2
     = Log INFO [T "Update complete: "; N successCount; T " successful, ";
                 N errorCount; T " failed"]
       :: es ++
          [GetProperty MultiTarget.AIRTABLE_API_KEY_PROP;
           Log INFO [T "Updating "; N 1; T " Airtable records in base ";
                     T "appGDzLGgrYmcW9R1"; T "..."]]
     /\ requests es
        = List.map (MultiTarget.updateRequest Scenario.primary "key")
            Scenario.instructions
     /\ successCount
        = successes (H := Scenario.host) es
            [GetProperty MultiTarget.AIRTABLE_API_KEY_PROP;
             Log INFO [T "Updating "; N 1; T " Airtable records in base ";
                       T "appGDzLGgrYmcW9R1"; T "..."]]
     /\ successCount + errorCount = 1)
  /\ (MultiTarget.fetchAirtableRecords (H := Scenario.host) Scenario.primary
        Scenario.keyed).1 <> []
  /\ (let fetched :=
        MultiTarget.fetchAirtableRecords (H := Scenario.host)
          Scenario.primary Scenario.keyed in
      let sheet := getSheetData (H := Scenario.host) fetched.1 fetched.2 in
      let joined :=
        processData fetched.1 sheet.1 sheet.2 in
      exists apiKey,
        props joined.2 !! MultiTarget.AIRTABLE_API_KEY_PROP = Some apiKey
        /\ apiKey <> "").
Proof.
  assert ((MultiTarget.fetchAirtableRecords (H := Scenario.host)
             Scenario.primary Scenario.keyed).1 <> []) as Hne
    by (vm_compute; discriminate).
  split; [|split; [exact Hne|]].
  - exact (proj1 (proj2 (updateAirtable_attempts_every_instruction
                           (H := Scenario.host) Scenario.instructions
                           Scenario.keyed))
             Scenario.primary "key" eq_refl ltac:(discriminate)).
  - exact (proj2 (proj2 (updateAirtable_attempts_every_instruction
                           (H := Scenario.host) Scenario.instructions
                           Scenario.keyed))
             Scenario.primary Scenario.keyed Hne).
Defined.

(** Called on its own in a world without the API key property, which no run
    of [syncData] does, [updateAirtable] of revision 1.1.0 logs an error and
    sends no request. *)
Lemma updateAirtable_without_key_sends_nothing :
  history (MultiTarget.updateAirtable (H := Scenario.host) Scenario.primary
             Scenario.instructions Scenario.fresh).2
  = [Log ERROR [T "Airtable API key not found in script properties"];
     GetProperty "AIRTABLE_API_KEY";
     Log INFO [T "Updating "; N 1; T " Airtable records in base ";
               T "appGDzLGgrYmcW9R1"; T "..."]]
  /\ requests (added (MultiTarget.updateAirtable (H := Scenario.host)
                        Scenario.primary Scenario.instructions)
                     Scenario.fresh) = [].
Proof. repeat split. Qed.

(** ** Aggregation and join *)

Lemma proto_not_ordinary (key : string) :
  key ∉ JS.Object_prototype -> key <> "__proto__".
Proof.
  intros Hkey ->. apply Hkey.
  apply (bool_decide_unpack _). vm_compute. exact I.
Qed.

(** On a key that [Object.prototype] does not have, reading is a lookup and
    assigning an insertion. *)
Lemma get_ordinary (m : gmap string JS.stored) (key : string) :
  key ∉ JS.Object_prototype -> JS.get m key = m !! key.
Proof.
  intros Hkey. unfold JS.get. destruct (m !! key); [reflexivity|].
  rewrite bool_decide_eq_false_2 by exact Hkey. reflexivity.
Qed.

Lemma set_ordinary (m : gmap string JS.stored) (key : string)
    (v : JS.stored) :
  key ∉ JS.Object_prototype -> JS.set m key v = <[key := v]> m.
Proof.
  intros Hkey. unfold JS.set.
  destruct (String.eqb_spec key "__proto__") as [Heq|_]; [|reflexivity].
  destruct (proto_not_ordinary key Hkey Heq).
Qed.

Lemma set_other (m : gmap string JS.stored) (k key : string) (v : JS.stored) :
  k <> key -> JS.set m k v !! key = m !! key.
Proof.
  intros Hne. unfold JS.set. destruct (String.eqb k "__proto__");
    [reflexivity|]. apply lookup_insert_ne. exact Hne.
Qed.

Lemma aggregate_snoc (sheetData : list SheetRow) (item : SheetRow) :
  aggregate (sheetData ++ [item]) = addRow (aggregate sheetData) item.
Proof. unfold aggregate. rewrite fold_left_app. reflexivity. Qed.

(** [addRow] leaves the other keys alone. *)
Lemma addRow_other (formTotals formDonations : gmap string JS.stored)
    (item : SheetRow) (key : string) :
  formName item <> key ->
  (addRow (formTotals, formDonations) item).1 !! key = formTotals !! key
  /\ (addRow (formTotals, formDonations) item).2 !! key = formDonations !! key.
Proof.
  intros Hne. unfold addRow.
  destruct (negb (JS.stored_truthy (JS.get formTotals (formName item))));
    simpl; rewrite !set_other by exact Hne; split; reflexivity.
Qed.

(** [addRow] at the key of the row: both sums start over from [0] when the
    amount so far is missing, zero or [NaN]. *)
Lemma addRow_same (formTotals formDonations : gmap string JS.stored)
    (item : SheetRow) :
  let key := formName item in
  key ∉ JS.Object_prototype ->
  (addRow (formTotals, formDonations) item).1 !! key
  = Some (JS.plus (if JS.stored_truthy (formTotals !! key)
                   then formTotals !! key else Some (JS.Num 0))
                  (dollarsRaised item))
  /\ (addRow (formTotals, formDonations) item).2 !! key
     = Some (JS.plus (if JS.stored_truthy (formTotals !! key)
                      then formDonations !! key else Some (JS.Num 0))
                     (numDonations item)).
Proof.
  intros key Hkey. subst key. unfold addRow.
  rewrite (get_ordinary formTotals) by exact Hkey.
  destruct (JS.stored_truthy (formTotals !! formName item)); simpl;
    rewrite ?set_ordinary by exact Hkey;
    rewrite ?get_ordinary by exact Hkey;
    rewrite !lookup_insert_eq; split; reflexivity.
Qed.

(** On the keys [Object.prototype] does not have, the two objects have the
    same keys, the form names of the rows, and hold numbers. *)
Lemma aggregate_keys (sheetData : list SheetRow) (key : string) :
  key ∉ JS.Object_prototype ->
  (key ∈ List.map formName sheetData ->
   exists totalAmount totalCount,
     (aggregate sheetData).1 !! key = Some (JS.Num totalAmount)
     /\ (aggregate sheetData).2 !! key = Some (JS.Num totalCount))
  /\ (key ∉ List.map formName sheetData ->
      (aggregate sheetData).1 !! key = None
      /\ (aggregate sheetData).2 !! key = None).
Proof.
  intros Hkey.
  induction sheetData as [|item sheetData IH] using rev_ind.
  - split.
    + intros Hin. apply elem_of_nil in Hin. destruct Hin.
    + intros _. split; apply lookup_empty.
  - rewrite aggregate_snoc, List.map_app.
    destruct (aggregate sheetData) as [T0 D0].
    cbn [fst snd] in IH. destruct IH as [IHsome IHnone].
    destruct (decide (formName item = key)) as [<- | Hne].
    + split.
      * intros _.
        destruct (addRow_same T0 D0 item Hkey) as [-> ->].
        destruct (decide (formName item ∈ List.map formName sheetData))
          as [Hrow | Hnorow].
        -- destruct (IHsome Hrow) as (t & d & -> & ->). simpl.
           destruct (JS.truthy t); eexists _, _; split; reflexivity.
        -- destruct (IHnone Hnorow) as [-> ->]. simpl.
           eexists _, _; split; reflexivity.
      * intros Hno. exfalso. apply Hno. apply elem_of_app. right.
        simpl. apply list_elem_of_singleton. reflexivity.
    + destruct (addRow_other T0 D0 item key Hne) as [-> ->]. split.
      * intros Hin. apply IHsome. apply elem_of_app in Hin as [Hin|Hin];
          [exact Hin|]. simpl in Hin. apply list_elem_of_singleton in Hin.
        congruence.
      * intros Hno. apply IHnone. intros Hin. apply Hno.
        apply elem_of_app. left. exact Hin.
Qed.

Lemma formName_elem (sheetData : list SheetRow) (key : string) :
  key ∈ List.map formName sheetData
  <-> exists row, row ∈ sheetData /\ formName row = key.
Proof.
  change (List.map formName sheetData) with (formName <$> sheetData).
  rewrite list_elem_of_fmap. split; intros (row & H1 & H2); exists row;
    split; congruence.
Qed.

Lemma rowsOf_snoc (key : string) (sheetData : list SheetRow)
    (item : SheetRow) :
  rowsOf key (sheetData ++ [item]) =
  rowsOf key sheetData
  ++ (if String.eqb (formName item) key then [item] else []).
Proof. unfold rowsOf. rewrite List.filter_app. reflexivity. Qed.

Lemma sumOf_snoc (measure : SheetRow -> float) (rows : list SheetRow)
    (item : SheetRow) :
  sumOf measure (rows ++ [item]) = (sumOf measure rows + measure item)%float.
Proof. unfold sumOf. rewrite fold_left_app. reflexivity. Qed.

Lemma rowsOf_nil_iff (key : string) (sheetData : list SheetRow) :
  rowsOf key sheetData = [] <-> key ∉ List.map formName sheetData.
Proof.
  unfold rowsOf. induction sheetData as [|row rest IH]; simpl.
  - split; [intros _; apply not_elem_of_nil | reflexivity].
  - rewrite not_elem_of_cons.
    destruct (String.eqb_spec (formName row) key) as [Heq|Hne].
    + split; [discriminate|]. intros [Hne _]. congruence.
    + rewrite IH. split; [intros Hno; split; [congruence | exact Hno]|].
      intros [_ Hno]. exact Hno.
Qed.

(** Where the sums hold: on a key that [Object.prototype] does not have, as
    long as the amount summed so far is a non-zero number whenever a further
    row of the key arrives, the two entries of the key are the left-to-right
    sums over its rows. *)
Lemma aggregate_sums (sheetData : list SheetRow) (key : string) :
  key ∉ JS.Object_prototype ->
  rowsOf key sheetData <> [] ->
  (forall earlier later,
     rowsOf key sheetData = earlier ++ later ->
     earlier <> [] -> later <> [] ->
     JS.truthy (sumOf dollarsRaised earlier) = true) ->
  (aggregate sheetData).1 !! key
  = Some (JS.Num (sumOf dollarsRaised (rowsOf key sheetData)))
  /\ (aggregate sheetData).2 !! key
     = Some (JS.Num (sumOf numDonations (rowsOf key sheetData))).
Proof.
  intros Hkey.
  induction sheetData as [|item sheetData IH] using rev_ind.
  - intros Hne. destruct Hne. reflexivity.
  - rewrite rowsOf_snoc, aggregate_snoc.
    destruct (String.eqb_spec (formName item) key) as [Heq|Hne].
    + intros _ Hrun. subst key.
      pose proof (aggregate_keys sheetData (formName item) Hkey) as [_ Hnone].
      destruct (aggregate sheetData) as [T0 D0]. cbn [fst snd] in *.
      destruct (addRow_same T0 D0 item Hkey) as [-> ->].
      destruct (rowsOf (formName item) sheetData) as [|r0 rows0] eqn:Hrows.
      * apply rowsOf_nil_iff in Hrows. destruct (Hnone Hrows) as [-> ->].
        split; reflexivity.
      * assert (r0 :: rows0 <> []) as Hcons by discriminate.
        destruct IH as [IHT IHD]; [exact Hcons| |].
        { intros earlier later Hsplit He Hl.
          apply (Hrun earlier (later ++ [item])); [|exact He|].
          - rewrite Hsplit, <- app_assoc. reflexivity.
          - destruct later; discriminate. }
        assert (JS.truthy (sumOf dollarsRaised (r0 :: rows0)) = true) as Ht.
        { apply (Hrun (r0 :: rows0) [item]);
            [reflexivity | exact Hcons | discriminate]. }
        rewrite IHT, IHD. cbn [JS.stored_truthy]. rewrite Ht.
        cbn [JS.plus]. rewrite !sumOf_snoc. split; reflexivity.
    + rewrite app_nil_r. intros Hrows Hrun.
      destruct (aggregate sheetData) as [T0 D0]. cbn [fst snd] in *.
      destruct (addRow_other T0 D0 item key Hne) as [-> ->].
      apply IH; assumption.
Qed.

(** The join treats the records one by one, in their order. *)
Lemma joinRecords_emitted (formTotals formDonations : gmap string JS.stored)
    (airtableRecords : list RemoteRecord) :
  joinRecords formTotals formDonations airtableRecords
  = omap (emitted formTotals formDonations) airtableRecords.
Proof.
  unfold joinRecords.
  assert (forall acc,
            fold_left (matchRecord formTotals formDonations) airtableRecords acc
            = acc ++ omap (emitted formTotals formDonations) airtableRecords)
    as Hfold; [|apply (Hfold [])].
  induction airtableRecords as [|record rest IH]; intros acc.
  - simpl. rewrite app_nil_r. reflexivity.
  - cbn [fold_left]. rewrite IH.
    change (omap (emitted formTotals formDonations) (record :: rest))
      with (match emitted formTotals formDonations record with
            | Some u => u :: omap (emitted formTotals formDonations) rest
            | None => omap (emitted formTotals formDonations) rest
            end).
    unfold emitted, joinRecords. cbn [fold_left]. unfold matchRecord.
    destruct (JS.defined _ || JS.defined _); simpl.
    + rewrite <- app_assoc. reflexivity.
    + reflexivity.
Qed.

(** For a record whose key [Object.prototype] does not have, the join emits
    an instruction exactly when the key has an entry in the aggregate. *)
Lemma emitted_ordinary (sheetData : list SheetRow) (record : RemoteRecord) :
  r_formSlug record ∉ JS.Object_prototype ->
  emitted (aggregate sheetData).1 (aggregate sheetData).2 record
  = instructionFor (aggregate sheetData).1 (aggregate sheetData).2 record.
Proof.
  intros Hkey. unfold emitted, joinRecords. cbn [fold_left].
  unfold matchRecord, instructionFor, totalsOf.
  rewrite !get_ordinary by exact Hkey.
  destruct (aggregate_keys sheetData (r_formSlug record) Hkey)
    as [Hsome Hnone].
  destruct (decide (r_formSlug record ∈ List.map formName sheetData))
    as [Hin|Hout].
  - destruct (Hsome Hin) as (t & d & -> & ->). reflexivity.
  - destruct (Hnone Hout) as [-> ->]. reflexivity.
Qed.

(** C1.  The claim holds of the code only where [aggregate_sums] applies.
    On two rows of one form that record 5 and 3 donations and raise nothing,
    which [getSheetData] returns as they are, the entry of [formDonations]
    is 3: the second row finds the amount so far at zero and starts both
    sums over.  The left-to-right sum of the counts is 8.  The sync then
    writes 3 to Airtable. *)
Theorem aggregate_restarts_counts_at_zero_amount :
  let sheetData :=
    [ {| formName := "alpha"; dollarsRaised := 0; numDonations := 5 |};
      {| formName := "alpha"; dollarsRaised := 0; numDonations := 3 |} ] in
  (getSheetData (H := Scenario.unpaid_host) Scenario.remote Scenario.fresh).1
  = sheetData
  /\ (aggregate sheetData).2 !! "alpha" = Some (JS.Num 3)
  /\ sumOf numDonations (rowsOf "alpha" sheetData) = 8%float
  /\ patches (added (Script.syncData (H := Scenario.unpaid_host) "key")
                Scenario.fresh)
     = [ {| req_method := PATCH;
            req_url := "https://api.airtable.com/v0/appGDzLGgrYmcW9R1/tblTo3zgLYNby9UnL/r1";
            req_bearer := "key";
            req_fields := [("Raised", JS.Num 0);
                           ("fldoNVriyq6Z0YEE7", JS.Num 0);
                           ("Donations", JS.Num 3);
                           ("fldgEEtQMx96RUqds", JS.Num 3)] |} ].
Proof. vm_compute. repeat split. Qed.

(** C2, as amended.  [processData] returns, in the order of the remote
    records, what the join emits for each of them.  For a record whose
    [formSlug] is no name of a member of [Object.prototype], it emits an
    instruction exactly when the [formSlug] is a key of the aggregate; the
    keys of the aggregate are the form names of the sheet rows, compared as
    strings; the instruction carries the key's two totals, each replaced by
    [0] when it is zero or [NaN]. *)
Theorem processData_joins_by_key (airtableRecords : list RemoteRecord)
    (sheetData : list SheetRow) (w : world) :
  let formTotals := (aggregate sheetData).1 in
  let formDonations := (aggregate sheetData).2 in
  (processData airtableRecords sheetData w).1
  = omap (emitted formTotals formDonations) airtableRecords
  /\ (forall record,
        r_formSlug record ∉ JS.Object_prototype ->
        emitted formTotals formDonations record
        = instructionFor formTotals formDonations record)
  /\ (forall key,
        key ∉ JS.Object_prototype ->
        (is_Some (totalsOf formTotals formDonations key)
         <-> exists row, row ∈ sheetData /\ formName row = key))
  /\ (forall record,
        is_Some (instructionFor formTotals formDonations record)
        <-> is_Some (totalsOf formTotals formDonations (r_formSlug record)))
  /\ (forall record instruction,
        instructionFor formTotals formDonations record = Some instruction ->
        exists totalAmount totalCount,
          totalsOf formTotals formDonations (r_formSlug record)
          = Some (totalAmount, totalCount)
          /\ u_id instruction = r_id record
          /\ (JS.truthy totalAmount = true ->
              raised instruction = JS.Num totalAmount)
          /\ (JS.truthy totalAmount = false ->
              raised instruction = JS.Num 0)
          /\ (JS.truthy totalCount = true ->
              donations instruction = JS.Num totalCount)
          /\ (JS.truthy totalCount = false ->
              donations instruction = JS.Num 0)).
Proof.
  intros formTotals formDonations.
  split; [|split; [|split; [|split]]].
  - unfold processData, bind, logMessage, emit, ret.
    pose proof (joinRecords_emitted formTotals formDonations airtableRecords)
      as Hjoin.
    subst formTotals formDonations.
    destruct (aggregate sheetData) as [T0 D0]. exact Hjoin.
  - intros record Hkey. apply emitted_ordinary. exact Hkey.
  - intros key Hkey. rewrite <- formName_elem. unfold totalsOf.
    destruct (aggregate_keys sheetData key Hkey) as [Hsome Hnone].
    fold formTotals formDonations in Hsome, Hnone.
    destruct (decide (key ∈ List.map formName sheetData)) as [Hin|Hout].
    + destruct (Hsome Hin) as (t & d & -> & ->).
      split; [intros _; exact Hin | intros _; eexists; reflexivity].
    + destruct (Hnone Hout) as [-> _].
      split; [intros [? [=]] | intros Hin; contradiction].
  - intros record. unfold instructionFor.
    destruct (totalsOf formTotals formDonations (r_formSlug record))
      as [[t d]|]; split; intros Hs;
      solve [eexists; reflexivity | destruct Hs as [? [=]]].
  - intros record instruction. unfold instructionFor.
    destruct (totalsOf formTotals formDonations (r_formSlug record))
      as [[t d]|]; [|discriminate].
    intros [= <-]. exists t, d. simpl.
    repeat split; try reflexivity; intros ->; reflexivity.
Qed.

(** The scenario of the specification: the retained rows of [alpha] sum to 15
    in 3 donations; [r1] gets the one instruction and [r2], whose key has no
    aggregate, gets none. *)
Lemma processData_joins_by_key_witness :
  (processData Scenario.remote
     [ {| formName := "alpha"; dollarsRaised := 10.5; numDonations := 2 |};
       {| formName := "alpha"; dollarsRaised := 4.5; numDonations := 1 |} ]
     Scenario.fresh).1
  = [ {| u_id := "r1"; raised := JS.Num 15; donations := JS.Num 3 |} ].
Proof.
  rewrite (proj1 (processData_joins_by_key Scenario.remote
                    [ {| formName := "alpha"; dollarsRaised := 10.5;
                         numDonations := 2 |};
                      {| formName := "alpha"; dollarsRaised := 4.5;
                         numDonations := 1 |} ]
                    Scenario.fresh)).
  vm_compute. reflexivity.
Defined.

(** C2, as stated, fails in two places.  Where a total is [NaN]: two rows of
    one form whose amounts read [Infinity] and [-Infinity] sum to [NaN], and
    the instruction carries [0].  Where a record's key names a member of
    [Object.prototype]: the record of a form called [toString] gets an
    instruction, carrying no numbers, although no sheet row has that form
    name and the aggregate has no such key. *)
Lemma nan_total_is_sent_as_zero :
  let sheetData :=
    [ {| formName := "alpha"; dollarsRaised := infinity; numDonations := 1 |};
      {| formName := "alpha"; dollarsRaised := neg_infinity;
         numDonations := 1 |} ] in
  (getSheetData (H := Scenario.unbounded_host) Scenario.remote
     Scenario.fresh).1 = sheetData
  /\ (aggregate sheetData).1 !! "alpha" = Some (JS.Num nan)
  /\ (aggregate sheetData).2 !! "alpha" = Some (JS.Num 2)
  /\ (processData Scenario.remote sheetData Scenario.fresh).1
     = [ {| u_id := "r1"; raised := JS.Num 0; donations := JS.Num 2 |} ]
  /\ is_nan 0 = false
  /\ (aggregate sheetData).1 !! "toString" = None
  /\ (processData [Scenario.namesake] sheetData Scenario.fresh).1
     = [ {| u_id := "r4"; raised := JS.Other; donations := JS.Other |} ].
Proof. vm_compute. repeat split. Qed.

(** ** Match keys *)

Lemma app_cons (c : ascii) (s t : string) :
  String c s +:+ t = String c (s +:+ t).
Proof. reflexivity. Qed.

Lemma length_append (s t : string) :
  String.length (s +:+ t) = String.length s + String.length t.
Proof.
  induction s as [|c s IH]; [reflexivity|].
  rewrite app_cons. simpl. rewrite IH. reflexivity.
Qed.

Lemma prefix_append (pat s : string) :
  String.prefix pat s = true <-> exists rest, s = pat +:+ rest.
Proof.
  revert s. induction pat as [|c pat IH]; intros s; simpl.
  - split; [intros _; exists s; reflexivity | intros _; destruct s; reflexivity].
  - destruct s as [|d s]; simpl.
    + split; [discriminate | intros [rest [=]]].
    + destruct (ascii_dec c d) as [<- | Hne].
      * rewrite IH. split; intros [rest Hrest]; exists rest.
        -- rewrite app_cons, Hrest. reflexivity.
        -- rewrite app_cons in Hrest. injection Hrest as ->. reflexivity.
      * split; [discriminate|]. intros [rest Hrest].
        rewrite app_cons in Hrest. injection Hrest as -> _. contradiction.
Qed.

Lemma occurs_at_0 (pat s : string) :
  occurs_at pat s 0 <-> String.prefix pat s = true.
Proof.
  rewrite prefix_append. split.
  - intros (pre & post & -> & Hlen).
    destruct pre; [|discriminate]. exists post. reflexivity.
  - intros [rest ->]. exists "", rest. split; reflexivity.
Qed.

Lemma occurs_at_S (pat : string) (c : ascii) (s : string) (n : nat) :
  occurs_at pat (String c s) (S n) <-> occurs_at pat s n.
Proof.
  split.
  - intros (pre & post & Hs & Hlen). destruct pre as [|d pre]; [discriminate|].
    rewrite app_cons in Hs. injection Hs as -> ->. injection Hlen as Hlen.
    exists pre, post. split; [reflexivity | exact Hlen].
  - intros (pre & post & -> & Hlen). exists (String c pre), post.
    split; [reflexivity | simpl; rewrite Hlen; reflexivity].
Qed.

(** [indexOf] finds the leftmost occurrence, and [None] means none. *)
Lemma indexOf_spec (pat s : string) :
  match JS.indexOf pat s with
  | Some n => occurs_at pat s n /\ forall m, occurs_at pat s m -> n <= m
  | None => ~ contains pat s
  end.
Proof.
  induction s as [|c s IH]; cbn [JS.indexOf].
  - destruct (String.prefix pat "") eqn:Hp; simpl.
    + split; [apply occurs_at_0, Hp | intros; lia].
    + intros (n & pre & post & Hs & _).
      destruct pre; [|discriminate].
      assert (String.prefix pat "" = true) as Hp'
        by (apply prefix_append; exists post; exact Hs).
      congruence.
  - destruct (String.prefix pat (String c s)) eqn:Hp; simpl.
    + split; [apply occurs_at_0, Hp | intros; lia].
    + destruct (JS.indexOf pat s) as [n|]; simpl.
      * destruct IH as [Hn Hmin]. split; [apply occurs_at_S, Hn|].
        intros [|m] Hm.
        -- apply occurs_at_0 in Hm. congruence.
        -- apply occurs_at_S in Hm. apply Hmin in Hm. lia.
      * intros ([|m] & Hm).
        -- apply occurs_at_0 in Hm. congruence.
        -- apply occurs_at_S in Hm. apply IH. exists m. exact Hm.
Qed.

Lemma substring_0_append (a b : string) :
  String.substring 0 (String.length a) (a +:+ b) = a.
Proof.
  induction a as [|c a IH].
  - destruct b; reflexivity.
  - rewrite app_cons. simpl. rewrite IH. reflexivity.
Qed.

Lemma substring_whole (s : string) :
  String.substring 0 (String.length s) s = s.
Proof. induction s as [|c s IH]; simpl; [|rewrite IH]; reflexivity. Qed.

Lemma substring_skip_append (a b : string) (k m : nat) :
  String.substring (String.length a + k) m (a +:+ b) = String.substring k m b.
Proof.
  induction a as [|c a IH]; [reflexivity|].
  rewrite app_cons. simpl. exact IH.
Qed.

(** Where [pat] first occurs at the end of [pre], [replace] cuts it out. *)
Lemma replace_at (pat pre post : string) :
  JS.indexOf pat (pre +:+ pat +:+ post) = Some (String.length pre) ->
  JS.replace_with_empty pat (pre +:+ pat +:+ post) = pre +:+ post.
Proof.
  intros Hidx. unfold JS.replace_with_empty. rewrite Hidx.
  rewrite substring_0_append. f_equal.
  rewrite substring_skip_append.
  replace (String.length pat) with (String.length pat + 0) at 1 by lia.
  rewrite substring_skip_append.
  rewrite !length_append.
  replace (String.length pre + (String.length pat + String.length post)
           - (String.length pre + String.length pat))
    with (String.length post) by lia.
  apply substring_whole.
Qed.

Lemma append_split_eq (a b c d : string) :
  a +:+ b = c +:+ d -> String.length a = String.length c -> a = c /\ b = d.
Proof.
  revert c. induction a as [|x a IH]; intros [|y c]; simpl; try discriminate.
  - intros Hbd _. split; [reflexivity | exact Hbd].
  - rewrite !app_cons. intros [= -> Hrest] [= Hlen].
    destruct (IH c Hrest Hlen) as [-> ->]. split; reflexivity.
Qed.

(** What remains after the leftmost occurrence is taken out is unique. *)
Lemma stripped_once_unique (pat s r1 r2 : string) :
  stripped_once pat s r1 -> stripped_once pat s r2 -> r1 = r2.
Proof.
  intros (pre1 & post1 & Hs1 & -> & Hmin1) (pre2 & post2 & Hs2 & -> & Hmin2).
  assert (String.length pre1 = String.length pre2) as Hlen.
  { apply Nat.le_antisymm.
    - apply Hmin1. exists pre2, post2. split; [exact Hs2 | reflexivity].
    - apply Hmin2. exists pre1, post1. split; [exact Hs1 | reflexivity]. }
  rewrite Hs1 in Hs2.
  destruct (append_split_eq _ _ _ _ Hs2 Hlen) as [-> Hrest].
  apply String.app_inj in Hrest. rewrite Hrest. reflexivity.
Qed.

(** [replace] returns what remains after the leftmost occurrence. *)
Lemma replace_strips_once (pat s : string) :
  contains pat s -> stripped_once pat s (JS.replace_with_empty pat s).
Proof.
  intros Hc. pose proof (indexOf_spec pat s) as Hspec.
  destruct (JS.indexOf pat s) as [n|] eqn:Hidx; [|contradiction].
  destruct Hspec as [(pre & post & -> & Hlen) Hmin]. subst n.
  exists pre, post. split; [reflexivity|]. split; [|exact Hmin].
  apply replace_at. exact Hidx.
Qed.

Lemma indexOf_contains (pat s : string) :
  is_Some (JS.indexOf pat s) <-> contains pat s.
Proof.
  pose proof (indexOf_spec pat s) as Hspec.
  destruct (JS.indexOf pat s) as [n|]; split.
  - intros _. exists n. apply Hspec.
  - intros _. eexists; reflexivity.
  - intros [? [=]].
  - intros Hc. contradiction.
Qed.

Lemma string_truthy_iff (s : string) : JS.string_truthy s = true <-> s <> "".
Proof. unfold JS.string_truthy. rewrite negb_true_iff. apply String.eqb_neq. Qed.

Lemma produced_eq (urlOf : AirtableRecord -> string) (record : AirtableRecord) :
  produced urlOf record =
  if JS.string_truthy (r_formSlug (toRemoteRecord urlOf record))
  then Some (toRemoteRecord urlOf record) else None.
Proof.
  unfold produced, validRecords. simpl.
  destruct (JS.string_truthy _); reflexivity.
Qed.

Lemma validRecords_omap (urlOf : AirtableRecord -> string)
    (records : list AirtableRecord) :
  validRecords urlOf records = omap (produced urlOf) records.
Proof.
  induction records as [|record rest IH]; [reflexivity|].
  change (omap (produced urlOf) (record :: rest))
    with (match produced urlOf record with
          | Some r => r :: omap (produced urlOf) rest
          | None => omap (produced urlOf) rest
          end).
  rewrite <- IH, produced_eq. unfold validRecords. simpl.
  destruct (JS.string_truthy _); reflexivity.
Qed.

(** One response item yields a record exactly when its URL is not empty,
    contains the prefix, and leaves a non-empty key. *)
Lemma produced_iff (urlOf : AirtableRecord -> string)
    (record : AirtableRecord) (r : RemoteRecord) :
  produced urlOf record = Some r <->
  r_id r = ar_id record
  /\ r_actBlueUrl r = urlOf record
  /\ urlOf record <> ""
  /\ contains ACTBLUE_URL_PREFIX (urlOf record)
  /\ stripped_once ACTBLUE_URL_PREFIX (urlOf record) (r_formSlug r)
  /\ r_formSlug r <> "".
Proof.
  rewrite produced_eq. unfold toRemoteRecord. simpl.
  destruct (JS.string_truthy (urlOf record)) eqn:Hurl; simpl.
  - destruct (bool_decide
                (is_Some (JS.indexOf ACTBLUE_URL_PREFIX (urlOf record))))
      eqn:Hidx.
    + apply bool_decide_eq_true, indexOf_contains in Hidx.
      pose proof (replace_strips_once _ _ Hidx) as Hstrip.
      destruct (JS.string_truthy
                  (JS.replace_with_empty ACTBLUE_URL_PREFIX (urlOf record)))
        eqn:Hslug; split.
      * intros [= <-]. simpl.
        repeat split; try assumption; apply string_truthy_iff; assumption.
      * intros (Hid & Hu & _ & _ & Hr & _). f_equal.
        destruct r as [i u f]. simpl in *. subst i u. f_equal.
        apply (stripped_once_unique _ _ _ _ Hstrip Hr).
      * discriminate.
      * intros (_ & _ & _ & _ & Hr & Hne). exfalso.
        rewrite (stripped_once_unique _ _ _ _ Hr Hstrip) in Hne.
        apply string_truthy_iff in Hne. congruence.
    + apply bool_decide_eq_false in Hidx. rewrite indexOf_contains in Hidx.
      simpl. split; [discriminate|]. intros (_ & _ & _ & Hc & _).
      contradiction.
  - split; [discriminate|]. intros (_ & _ & Hne & _).
    apply string_truthy_iff in Hne. congruence.
Qed.

Section FetchedRecords.
Context `{Host}.

(** What [fetchAirtableRecords] returns, whatever the answer. *)
Lemma Script_fetchAirtableRecords_value (key : string) (w : world) :
  (Script.fetchAirtableRecords key w).1
  = validRecords Script.actBlueUrlOf
      (carried (UrlFetchApp_fetch
                  (Log INFO [T "Fetching records from Airtable..."]
                   :: history w)
                  (Script.recordsRequest key))).
Proof.
  unfold Script.fetchAirtableRecords, bind, fetch, logMessage, emit. simpl.
  destruct (UrlFetchApp_fetch _ _) as [msg|code [msg|[records|]]];
    reflexivity.
Qed.

(** What [fetchAirtableRecords(cfg)] returns in revision 1.1.0. *)
Lemma MultiTarget_fetchAirtableRecords_value (cfg : MultiTarget.target)
    (w : world) :
  (MultiTarget.fetchAirtableRecords cfg w).1
  = match MultiTarget.usable (props w !! MultiTarget.AIRTABLE_API_KEY_PROP) with
    | None => []
    | Some apiKey =>
        validRecords MultiTarget.actBlueUrlOf
          (carried (UrlFetchApp_fetch
                      (GetProperty MultiTarget.AIRTABLE_API_KEY_PROP
                       :: Log INFO [T "Fetching records from Airtable (base: ";
                                    T (MultiTarget.baseId cfg); T ", table: ";
                                    T (MultiTarget.tableId cfg); T ")..."]
                       :: history w)
                      (MultiTarget.recordsRequest cfg apiKey)))
    end.
Proof.
  unfold MultiTarget.fetchAirtableRecords, bind, fetch, logMessage,
    getProperty, emit. simpl.
  destruct (MultiTarget.usable _) as [apiKey|]; [|reflexivity]. simpl.
  destruct (UrlFetchApp_fetch _ _) as [msg|code [msg|[records|]]];
    reflexivity.
Qed.

End FetchedRecords.

(** C3, as amended.  [fetchAirtableRecords] returns, in order, what
    [produced] makes of the items of the response.  An item yields a record
    exactly when its URL field is not empty, contains the prefix, and is more
    than the prefix alone: the key is the URL with its leftmost occurrence of
    the prefix taken out, and an item whose key would be empty yields
    nothing.  So every record returned has a non-empty key. *)
Theorem fetched_records_keep_a_key `{Host} (key : string) (w : world) :
  let response :=
    UrlFetchApp_fetch
      (Log INFO [T "Fetching records from Airtable..."] :: history w)
      (Script.recordsRequest key) in
  (Script.fetchAirtableRecords key w).1
  = omap (produced Script.actBlueUrlOf) (carried response)
  /\ (forall urlOf record r,
        produced urlOf record = Some r <->
        r_id r = ar_id record
        /\ r_actBlueUrl r = urlOf record
        /\ urlOf record <> ""
        /\ contains ACTBLUE_URL_PREFIX (urlOf record)
        /\ stripped_once ACTBLUE_URL_PREFIX (urlOf record) (r_formSlug r)
        /\ r_formSlug r <> "")
  /\ (forall r, r ∈ (Script.fetchAirtableRecords key w).1 ->
                r_formSlug r <> "")
  /\ (forall cfg,
        exists records,
          (MultiTarget.fetchAirtableRecords cfg w).1
          = omap (produced MultiTarget.actBlueUrlOf) records).
Proof.
  intros response.
  assert ((Script.fetchAirtableRecords key w).1
          = omap (produced Script.actBlueUrlOf) (carried response)) as Hval.
  { rewrite Script_fetchAirtableRecords_value. apply validRecords_omap. }
  split; [exact Hval|]. split; [apply produced_iff|]. split.
  - intros r Hr. rewrite Hval in Hr.
    apply list_elem_of_omap in Hr as (record & _ & Hp).
    apply produced_iff in Hp. apply Hp.
  - intros cfg. rewrite MultiTarget_fetchAirtableRecords_value.
    destruct (MultiTarget.usable _) as [apiKey|].
    + eexists. apply validRecords_omap.
    + exists []. reflexivity.
Qed.

(** The scenario of the specification: both records are kept, with the keys
    [alpha] and [beta]. *)
Lemma fetched_records_keep_a_key_witness :
  (Script.fetchAirtableRecords (H := Scenario.host) "key" Scenario.fresh).1
  = Scenario.remote.
Proof.
  rewrite (proj1 (fetched_records_keep_a_key (H := Scenario.host) "key"
                    Scenario.fresh)).
  reflexivity.
Defined.

(** C3, as stated, fails on a URL that is the prefix and nothing more: the
    URL is not empty and contains the prefix, and no record is produced. *)
Lemma bare_prefix_yields_no_record :
  Script.actBlueUrlOf Scenario.bare = "https://secure.actblue.com/donate/"
  /\ contains ACTBLUE_URL_PREFIX (Script.actBlueUrlOf Scenario.bare)
  /\ produced Script.actBlueUrlOf Scenario.bare = None
  /\ (Script.fetchAirtableRecords (H := Scenario.bare_host) "key"
        Scenario.fresh).1 = [].
Proof.
  split; [reflexivity|]. split; [|split; reflexivity].
  exists 0, "", "". split; reflexivity.
Qed.

(** ** Sheet rows *)

Lemma existsb_eqb_elem (name : string) (keys : list string) :
  existsb (String.eqb name) keys = bool_decide (name ∈ keys).
Proof.
  induction keys as [|k keys IH]; cbn [existsb].
  - symmetry. apply bool_decide_eq_false_2, not_elem_of_nil.
  - rewrite IH. destruct (String.eqb_spec name k) as [->|Hne]; cbn [orb].
    + symmetry. apply bool_decide_eq_true_2, elem_of_cons. left. reflexivity.
    + apply bool_decide_ext. rewrite elem_of_cons. split; [auto|].
      intros [Heq|Hin]; [contradiction | exact Hin].
Qed.

(** [headers.indexOf(name)] is the position of the first cell that is the
    string [name]. *)
Lemma array_indexOf_first (headers : list JS.value) (name : string) (i : nat) :
  JS.array_indexOf headers name = Some i ->
  JS.index headers i = JS.VString name
  /\ forall j, j < i -> JS.index headers j <> JS.VString name.
Proof.
  revert i. induction headers as [|h headers IH]; intros i; [discriminate|].
  assert (forall k, S <$> JS.array_indexOf headers name = Some k ->
            h <> JS.VString name ->
            JS.index (h :: headers) k = JS.VString name
            /\ forall j, j < k -> JS.index (h :: headers) j <> JS.VString name)
    as Hrest.
  { intros k Hk Hh. destruct (JS.array_indexOf headers name) as [k'|];
      [|discriminate]. injection Hk as <-.
    destruct (IH k' eq_refl) as [Hat Hbefore]. split; [exact Hat|].
    intros [|j] Hj; [exact Hh|]. apply Hbefore. lia. }
  simpl. destruct h as [|s|x|b|t];
    try (intros Hi; apply Hrest; [exact Hi | discriminate]).
  destruct (String.eqb_spec s name) as [->|Hne].
  - intros [= <-]. split; [reflexivity|]. intros j Hj. lia.
  - intros Hi. apply Hrest; [exact Hi|]. intros [= Heq]. contradiction.
Qed.

Section SheetRows.
Context `{Host}.

(** The test of the row loop is the test of the specification. *)
Lemma retained_eq (formSlugs : list string) (fi di ni : nat)
    (row : list JS.value) :
  JS.value_truthy (JS.index row fi) && JS.includes formSlugs (JS.index row fi)
  && (JS.gt (JS.or_else (parseFloat (JS.index row di)) 0) 0
      || JS.gt (JS.or_else (parseInt (JS.index row ni)) 0) 0)
  = retained formSlugs fi di ni row.
Proof.
  unfold retained, coerce_amount, coerce_count.
  rewrite !or_else_pos.
  destruct (JS.index row fi) as [|name|x|b|t]; simpl;
    rewrite ?andb_false_r; try reflexivity.
  rewrite existsb_eqb_elem. reflexivity.
Qed.

(** One turn of the row loop pushes the row when it is retained. *)
Lemma scanRow_sheetData (formSlugs : list string) (fi di ni : nat)
    (row : list JS.value) (st : scan) (w : world) :
  sheetData (scanRow formSlugs fi di ni row st w).1
  = sheetData st ++ materialized formSlugs fi di ni [row].
Proof.
  unfold materialized. simpl. rewrite <- retained_eq.
  unfold scanRow, bind, ret.
  destruct (JS.value_truthy (JS.index row fi)
            && JS.includes formSlugs (JS.index row fi)); simpl.
  - destruct (JS.gt _ 0 || JS.gt _ 0);
      destruct (N.of_nat _ mod 50000 =? 0)%N; simpl;
      rewrite ?app_nil_r; reflexivity.
  - destruct (N.of_nat _ mod 50000 =? 0)%N; simpl; rewrite app_nil_r;
      reflexivity.
Qed.

Lemma materialized_app (keys : list string) (fi di ni : nat)
    (rows1 rows2 : list (list JS.value)) :
  materialized keys fi di ni (rows1 ++ rows2)
  = materialized keys fi di ni rows1 ++ materialized keys fi di ni rows2.
Proof. unfold materialized. apply omap_app. Qed.

(** The row loop pushes, in order, the retained rows among those it
    visits. *)
Lemma scanRows_sheetData (values : list (list JS.value))
    (formSlugs : list string) (fi di ni : nat) (remaining : nat) :
  forall (i : nat) (st : scan) (w : world),
    i + remaining <= length values ->
    sheetData (scanRows values formSlugs fi di ni remaining i st w).1
    = sheetData st
      ++ materialized formSlugs fi di ni (take remaining (drop i values)).
Proof.
  induction remaining as [|n IH]; intros i st w Hlen.
  - simpl. unfold materialized. simpl. rewrite app_nil_r. reflexivity.
  - cbn [scanRows]. unfold bind at 1.
    pose proof (scanRow_sheetData formSlugs fi di ni (nth i values []) st w)
      as Hrow.
    destruct (scanRow formSlugs fi di ni (nth i values []) st w) as [st' w'].
    cbn [fst] in Hrow. rewrite IH by lia. rewrite Hrow, <- app_assoc.
    f_equal. rewrite <- materialized_app. f_equal.
    assert (is_Some (values !! i)) as [row Hrow'].
    { apply lookup_lt_is_Some. lia. }
    rewrite (drop_S _ _ _ Hrow'). simpl.
    rewrite nth_lookup, Hrow'. reflexivity.
Qed.

(** What [getSheetData] returns, whatever the sheet holds. *)
Lemma getSheetData_value (airtableRecords : list RemoteRecord) (w : world) :
  (getSheetData airtableRecords w).1
  = sheetRowsOf (List.map r_formSlug airtableRecords)
      (getSheetValues
         (Log INFO [T "Retrieving data from Google Sheets..."] :: history w)
         SHEET_NAME).
Proof.
  unfold getSheetData, bind, readSheet, logMessage, logError, emit. simpl.
  destruct (getSheetValues _ SHEET_NAME) as [values|]; [|reflexivity].
  simpl. destruct values as [|headers rows]; [reflexivity|].
  destruct rows as [|row rows].
  - simpl.
    destruct (JS.array_indexOf headers "form_name"),
             (JS.array_indexOf headers "dollars_raised"),
             (JS.array_indexOf headers "num_of_donations"); reflexivity.
  - change (length (headers :: row :: rows) <=? 1)%nat with false.
    cbv iota. cbn [nth].
    destruct (JS.array_indexOf headers "form_name") as [fi|];
      [|reflexivity].
    destruct (JS.array_indexOf headers "dollars_raised") as [di|];
      [|reflexivity].
    destruct (JS.array_indexOf headers "num_of_donations") as [ni|];
      [|reflexivity].
    pose proof (scanRows_sheetData (headers :: row :: rows)
                  (List.map r_formSlug airtableRecords) fi di ni
                  (length (headers :: row :: rows) - 1) 1
                  {| sheetData := []; processedRows := 0; matchedRows := 0 |})
      as Hscan.
    match goal with
    | |- context [scanRows ?v ?k ?a ?b ?c ?n ?i ?s ?w0] =>
        specialize (Hscan w0);
        destruct (scanRows v k a b c n i s w0) as [st w1]
    end.
    simpl in Hscan. simpl. rewrite Hscan by lia.
    rewrite firstn_all. reflexivity.
Qed.

End SheetRows.

(** C4.  With the three columns found in the header row, [getSheetData]
    returns, in order, one [SheetRow] for each data row that is retained and
    none for the others: a row is retained exactly when its [form_name] cell
    is a non-empty string of the candidate keys and [dollars_raised] read as
    a float, or [num_of_donations] read as an integer, each [0] when it does
    not parse, is positive. *)
Theorem getSheetData_materializes `{Host}
    (airtableRecords : list RemoteRecord) (w : world)
    (headers : list JS.value) (rows : list (list JS.value))
    (formNameIndex dollarsRaisedIndex numDonationsIndex : nat) :
  getSheetValues
    (Log INFO [T "Retrieving data from Google Sheets..."] :: history w)
    SHEET_NAME = Some (headers :: rows) ->
  JS.array_indexOf headers "form_name" = Some formNameIndex ->
  JS.array_indexOf headers "dollars_raised" = Some dollarsRaisedIndex ->
  JS.array_indexOf headers "num_of_donations" = Some numDonationsIndex ->
  let candidateKeys := List.map r_formSlug airtableRecords in
  (getSheetData airtableRecords w).1
  = materialized candidateKeys formNameIndex dollarsRaisedIndex
      numDonationsIndex rows
  /\ (forall sheetRow,
        sheetRow ∈ (getSheetData airtableRecords w).1 <->
        exists row,
          row ∈ rows
          /\ retained candidateKeys formNameIndex dollarsRaisedIndex
               numDonationsIndex row = true
          /\ sheetRow = toSheetRow formNameIndex dollarsRaisedIndex
                          numDonationsIndex row)
  /\ JS.index headers formNameIndex = JS.VString "form_name"
  /\ JS.index headers dollarsRaisedIndex = JS.VString "dollars_raised"
  /\ JS.index headers numDonationsIndex = JS.VString "num_of_donations".
Proof.
  intros Hsheet Hf Hd Hn candidateKeys.
  assert ((getSheetData airtableRecords w).1
          = materialized candidateKeys formNameIndex dollarsRaisedIndex
              numDonationsIndex rows) as Hval.
  { rewrite getSheetData_value, Hsheet. unfold sheetRowsOf.
    rewrite Hf, Hd, Hn. reflexivity. }
  split; [exact Hval|]. split.
  - intros sheetRow. rewrite Hval. unfold materialized.
    rewrite list_elem_of_omap. split; intros (row & Hin & Hrow); exists row.
    + destruct (retained _ _ _ _ row); [|discriminate].
      injection Hrow as <-. repeat split; assumption.
    + destruct Hrow as [-> ->]. split; [exact Hin | reflexivity].
  - repeat split; eapply array_indexOf_first; eassumption.
Qed.

(** The scenario of the specification: of the four rows the two of [alpha]
    are returned; the row of [beta] has no positive measure and [gamma] is no
    candidate key. *)
Lemma getSheetData_materializes_witness :
  (getSheetData (H := Scenario.host) Scenario.remote Scenario.fresh).1
  = [ {| formName := "alpha"; dollarsRaised := 10.5; numDonations := 2 |};
      {| formName := "alpha"; dollarsRaised := 4.5; numDonations := 1 |} ].
Proof.
  destruct (getSheetData_materializes (H := Scenario.host) Scenario.remote
              Scenario.fresh
              [JS.VString "form_name"; JS.VString "dollars_raised";
               JS.VString "num_of_donations"]
              (tl Scenario.grid) 0 1 2
              eq_refl eq_refl eq_refl eq_refl) as [Hval _].
  rewrite Hval. vm_compute. reflexivity.
Defined.

(** ** The pipeline as a function of what it reads *)

Lemma added_bind {A B} (m : M A) (k : A -> M B) (w : world) :
  effects anything m -> (forall a, effects anything (k a)) ->
  added (bind m k) w = added (k (m w).1) (m w).2 ++ added m w.
Proof.
  intros Hm Hk.
  destruct (effects_added anything m w Hm) as [Em _].
  destruct (effects_added anything (k (m w).1) (m w).2 (Hk _)) as [Ek _].
  unfold added at 1. unfold bind. destruct (m w) as [a w1].
  cbn [fst snd] in *.
  remember (added (k a) w1) as es2 eqn:Hes2. clear Hes2.
  remember (added m w) as es1 eqn:Hes1. clear Hes1.
  rewrite Ek. cbn [history]. subst w1. cbn [history].
  rewrite app_assoc, length_app.
  replace (length (es2 ++ es1) + length (history w) - length (history w))
    with (length (es2 ++ es1)) by lia.
  apply take_app_length.
Qed.

Lemma added_of_history {A} (m : M A) (w : world) (es : list event) :
  history (m w).2 = es ++ history w -> added m w = es.
Proof.
  intros E. unfold added. rewrite E, length_app.
  replace (length es + length (history w) - length (history w))
    with (length es) by lia.
  apply take_app_length.
Qed.

Lemma patches_app (es1 es2 : list event) :
  patches (es1 ++ es2) = patches es2 ++ patches es1.
Proof. unfold patches. rewrite requests_app. apply List.filter_app. Qed.

Lemma patches_no_update (es : list event) :
  Forall no_update es -> patches es = [].
Proof.
  intros Hes. induction Hes as [|e es He _ IH]; [reflexivity|].
  change (e :: es) with ([e] ++ es). rewrite patches_app, IH.
  destruct e; try reflexivity. simpl in He. unfold patches, requests. simpl.
  rewrite He. reflexivity.
Qed.

Lemma patches_added_no_update {A} (m : M A) (w : world) :
  effects no_update m -> patches (added m w) = [].
Proof.
  intros Hm. apply patches_no_update. apply (effects_added no_update), Hm.
Qed.

Lemma joinRecords_nil (formTotals formDonations : gmap string JS.stored) :
  joinRecords formTotals formDonations [] = [].
Proof. reflexivity. Qed.

Lemma length_zero_nil {A} (l : list A) :
  (length l =? 0)%nat = true -> l = [].
Proof. destruct l; [reflexivity | discriminate]. Qed.

Lemma length_nonzero_cons {A} (l : list A) :
  (length l =? 0)%nat = false -> exists x l', l = x :: l'.
Proof. destruct l as [|x l']; [discriminate | intros _; eauto]. Qed.

(** Proves that a part of the script has effects of a kind that allows log
    lines, pauses and requests. *)
Ltac sync_effects :=
  intros; unfold Script.fetchAirtableRecords, Script.updateAirtable;
  repeat (effects_step || apply effects_getSheetData
          || apply effects_processData || apply effects_updateEach);
  intros; exact I.

Section Pipeline.
Context `{Host}.

Lemma anything_Script_updateAirtable key processedData :
  effects anything (Script.updateAirtable key processedData).
Proof.
  unfold Script.updateAirtable.
  repeat (effects_step || apply effects_updateEach); intros; exact I.
Qed.

Lemma no_update_Script_fetchAirtableRecords key :
  effects no_update (Script.fetchAirtableRecords key).
Proof.
  unfold Script.fetchAirtableRecords. repeat effects_step.
Qed.

(** [updateAirtable] sends exactly the requests of its instructions. *)
Lemma Script_updateAirtable_patches (key : string)
    (processedData : list UpdateInstruction) (w : world) :
  patches (added (Script.updateAirtable key processedData) w)
  = List.map (Script.updateRequest key) processedData.
Proof.
  assert (exists first last es,
            history (Script.updateAirtable key processedData w).2
            = ([Log INFO last] ++ es ++ [Log INFO first]) ++ history w
            /\ requests es
               = List.map (Script.updateRequest key) processedData)
    as (first & last & es & E & R).
  { unfold Script.updateAirtable, bind, logMessage, emit. simpl.
    match goal with
    | |- context [updateEach ?f ?l ?i ?c ?w0] =>
        destruct (updateEach_attempts f l 0 0 0 w0) as (es & E & R & _ & _);
        destruct (updateEach f l i c w0) as [[s e] w1]
    end.
    simpl in E. subst w1. simpl. eexists _, _, es. split; [|exact R].
    rewrite <- !app_assoc. reflexivity. }
  rewrite (added_of_history _ _ _ E), !patches_app. simpl.
  rewrite app_nil_r. unfold patches. rewrite R.
  clear. induction processedData as [|r rest IH]; [reflexivity|].
  simpl. rewrite IH. reflexivity.
Qed.

Lemma processData_value (airtableRecords : list RemoteRecord)
    (sheetData : list SheetRow) (w : world) :
  (processData airtableRecords sheetData w).1
  = joinRecords (aggregate sheetData).1 (aggregate sheetData).2
      airtableRecords.
Proof.
  unfold processData, bind, logMessage, emit, ret.
  destruct (aggregate sheetData) as [formTotals formDonations]. reflexivity.
Qed.


End Pipeline.

(** Items that agree on identifier and URL field yield the same records. *)
Lemma validRecords_same_source (urlOf : AirtableRecord -> string)
    (records1 records2 : list AirtableRecord) :
  Forall2 (same_source urlOf) records1 records2 ->
  validRecords urlOf records1 = validRecords urlOf records2.
Proof.
  intros Hsame. unfold validRecords. f_equal.
  induction Hsame as [|a b l1 l2 [Hid Hurl] _ IH]; [reflexivity|].
  simpl. rewrite IH. f_equal. unfold toRemoteRecord. rewrite Hid, Hurl.
  reflexivity.
Qed.



(** The end-to-end scenario of the specification: one update, for [r1], with
    15 raised in 3 donations; [r2] has no retained row and [gamma] no
    record. *)
Lemma scenario_end_to_end :
  patches (added (Script.syncData (H := Scenario.host) "key") Scenario.fresh)
  = [ {| req_method := PATCH;
         req_url := "https://api.airtable.com/v0/appGDzLGgrYmcW9R1/tblTo3zgLYNby9UnL/r1";
         req_bearer := "key";
         req_fields := [("Raised", JS.Num 15);
                        ("fldoNVriyq6Z0YEE7", JS.Num 15);
                        ("Donations", JS.Num 3);
                        ("fldgEEtQMx96RUqds", JS.Num 3)] |} ]
  /\ patches (added (Script.syncData (H := Scenario.live_host) "key")
                (Script.syncData (H := Scenario.live_host) "key"
                   Scenario.fresh).2)
     = patches (added (Script.syncData (H := Scenario.host) "key")
                  Scenario.fresh).
Proof. vm_compute. split; reflexivity. Qed.

(** *** Revision 1.1.0 *)

(** Proves an [effects] goal about a part of revision 1.1.0, from the kinds
    of events in the context. *)
Ltac target_effects :=
  intros;
  unfold MultiTarget.fetchAirtableRecords, MultiTarget.updateAirtable;
  repeat (effects_step || apply effects_getSheetData
          || apply effects_processData || apply effects_updateEach);
  intros; exact I.

Section TargetPipeline.
Context `{Host}.

(** [updateAirtable(cfg, _)] sends the requests of its instructions when it
    finds the API key, and none otherwise. *)
Lemma MultiTarget_updateAirtable_patches (cfg : MultiTarget.target)
    (processedData : list UpdateInstruction) (w : world) :
  patches (added (MultiTarget.updateAirtable cfg processedData) w)
  = match MultiTarget.usable (props w !! MultiTarget.AIRTABLE_API_KEY_PROP) with
    | Some apiKey =>
        List.map (MultiTarget.updateRequest cfg apiKey) processedData
    | None => []
    end.
Proof.
  destruct (MultiTarget.usable (props w !! MultiTarget.AIRTABLE_API_KEY_PROP))
    as [apiKey|] eqn:Hkey.
  - assert (exists first last es,
              history (MultiTarget.updateAirtable cfg processedData w).2
              = ([Log INFO last] ++ es
                 ++ [GetProperty MultiTarget.AIRTABLE_API_KEY_PROP;
                     Log INFO first]) ++ history w
              /\ requests es
                 = List.map (MultiTarget.updateRequest cfg apiKey)
                     processedData)
      as (first & last & es & E & R).
    { unfold MultiTarget.updateAirtable, bind, logMessage, getProperty, emit.
      simpl. rewrite Hkey.
      match goal with
      | |- context [updateEach ?f ?l ?i ?c ?w0] =>
          destruct (updateEach_attempts f l 0 0 0 w0) as (es & E & R & _ & _);
          destruct (updateEach f l i c w0) as [[s e] w1]
      end.
      simpl in E. subst w1. simpl. eexists _, _, es. split; [|exact R].
      rewrite <- !app_assoc. reflexivity. }
    rewrite (added_of_history _ _ _ E), !patches_app. simpl.
    rewrite app_nil_r. unfold patches. rewrite R.
    clear. induction processedData as [|r rest IH]; [reflexivity|].
    simpl. rewrite IH. reflexivity.
  - apply patches_no_update.
    assert (history (MultiTarget.updateAirtable cfg processedData w).2
            = [Log ERROR [T "Airtable API key not found in script properties"];
               GetProperty MultiTarget.AIRTABLE_API_KEY_PROP;
               Log INFO [T "Updating "; N (length processedData);
                         T " Airtable records in base ";
                         T (MultiTarget.baseId cfg); T "..."]] ++ history w)
      as E.
    { unfold MultiTarget.updateAirtable, bind, logMessage, logError,
        getProperty, emit. simpl. rewrite Hkey. reflexivity. }
    rewrite (added_of_history _ _ _ E). repeat constructor.
Qed.

(** The updates the callback of [AIRTABLE_TARGETS.forEach] sends for a
    target are those of the plan made from the answer to its read request
    and from the content of the data sheet. *)
Lemma MultiTarget_syncTarget_patches (cfg : MultiTarget.target) (w : world) :
  exists h1 h2,
    patches (added (MultiTarget.syncTarget cfg) w)
    = match MultiTarget.usable
              (props w !! MultiTarget.AIRTABLE_API_KEY_PROP) with
      | Some apiKey =>
          if negb (JS.string_truthy (MultiTarget.baseId cfg))
             || negb (JS.string_truthy (MultiTarget.tableId cfg))
          then []
          else
            List.map (MultiTarget.updateRequest cfg apiKey)
              (planned MultiTarget.actBlueUrlOf
                 (carried (UrlFetchApp_fetch h1
                             (MultiTarget.recordsRequest cfg apiKey)))
                 (getSheetValues h2 SHEET_NAME))
      | None => []
      end.
Proof.
  unfold MultiTarget.syncTarget, planned.
  destruct (negb (JS.string_truthy (MultiTarget.baseId cfg))
            || negb (JS.string_truthy (MultiTarget.tableId cfg))).
  { exists [], [].
    rewrite (patches_added_no_update (logMessage _)); [|target_effects].
    destruct (MultiTarget.usable _); reflexivity. }
  rewrite added_bind; [|target_effects..].
  rewrite patches_app,
    (patches_added_no_update (MultiTarget.fetchAirtableRecords cfg));
    [|target_effects]. rewrite app_nil_l.
  pose proof (MultiTarget_fetchAirtableRecords_value cfg w) as Hrecs.
  assert (props (MultiTarget.fetchAirtableRecords cfg w).2 = props w) as Hp1.
  { apply no_write_frame. target_effects. }
  set (w1 := (MultiTarget.fetchAirtableRecords cfg w).2) in *.
  set (airtableRecords := (MultiTarget.fetchAirtableRecords cfg w).1) in *.
  destruct (MultiTarget.usable (props w !! MultiTarget.AIRTABLE_API_KEY_PROP))
    as [apiKey|] eqn:Hkey.
  2:{ exists [], []. rewrite Hrecs. simpl.
      apply patches_added_no_update. target_effects. }
  eexists _, (Log INFO [T "Retrieving data from Google Sheets..."]
              :: history w1).
  rewrite <- Hrecs.
  destruct (length airtableRecords =? 0)%nat eqn:Hn.
  { rewrite (length_zero_nil _ Hn), joinRecords_nil.
    rewrite patches_added_no_update by target_effects.
    destruct (sheetRowsOf _ _); reflexivity. }
  rewrite added_bind; [|target_effects..].
  rewrite patches_app,
    (patches_added_no_update (getSheetData airtableRecords));
    [|target_effects]. rewrite app_nil_l.
  rewrite <- (getSheetData_value airtableRecords w1).
  assert (props (getSheetData airtableRecords w1).2 = props w) as Hp2.
  { rewrite no_write_frame; [exact Hp1 | target_effects]. }
  set (sheetData := (getSheetData airtableRecords w1).1).
  set (w2 := (getSheetData airtableRecords w1).2) in *.
  destruct (length sheetData =? 0)%nat eqn:Hs.
  { rewrite (length_zero_nil _ Hs).
    apply patches_added_no_update. target_effects. }
  assert (forall X : list UpdateInstruction,
            match sheetData with [] => [] | _ :: _ => X end = X) as ->.
  { intros X. destruct (length_nonzero_cons _ Hs) as (row0 & rows0 & ->).
    reflexivity. }
  rewrite added_bind; [|target_effects..].
  rewrite patches_app,
    (patches_added_no_update (processData airtableRecords sheetData));
    [|target_effects]. rewrite app_nil_l.
  rewrite <- (processData_value airtableRecords sheetData w2).
  assert (props (processData airtableRecords sheetData w2).2 = props w)
    as Hp3.
  { rewrite no_write_frame; [exact Hp2 | target_effects]. }
  set (processedData := (processData airtableRecords sheetData w2).1).
  set (w3 := (processData airtableRecords sheetData w2).2) in *.
  destruct (length processedData =? 0)%nat eqn:Hp.
  { rewrite (length_zero_nil _ Hp).
    apply patches_added_no_update. target_effects. }
  rewrite MultiTarget_updateAirtable_patches, Hp3, Hkey. reflexivity.
Qed.

(** The pipeline of revision 1.1.0 for one target is as deterministic: two
    runs that find the same API key, the same grid and records of the same
    identifiers and URL field send the same updates. *)
Lemma sync_target_is_deterministic (cfg : MultiTarget.target)
    (w1 w2 : world) :
  props w1 !! MultiTarget.AIRTABLE_API_KEY_PROP
  = props w2 !! MultiTarget.AIRTABLE_API_KEY_PROP ->
  (forall h1 h2, getSheetValues h1 SHEET_NAME = getSheetValues h2 SHEET_NAME) ->
  (forall apiKey h1 h2,
     Forall2 (same_source MultiTarget.actBlueUrlOf)
       (carried (UrlFetchApp_fetch h1 (MultiTarget.recordsRequest cfg apiKey)))
       (carried (UrlFetchApp_fetch h2
                   (MultiTarget.recordsRequest cfg apiKey)))) ->
  patches (added (MultiTarget.syncTarget cfg) w1)
  = patches (added (MultiTarget.syncTarget cfg) w2).
Proof.
  intros Hkey Hsheet Hrecords.
  destruct (MultiTarget_syncTarget_patches cfg w1) as (h1 & h2 & ->).
  destruct (MultiTarget_syncTarget_patches cfg w2) as (h1' & h2' & ->).
  rewrite Hkey.
  destruct (MultiTarget.usable _) as [apiKey|]; [|reflexivity].
  destruct (negb _ || negb _); [reflexivity|]. f_equal. unfold planned.
  rewrite (validRecords_same_source _ _ _ (Hrecords apiKey h1 h1')).
  rewrite (Hsheet h2 h2'). reflexivity.
Qed.

End TargetPipeline.

(** ** The update loop: pacing and error rows *)

Section UpdateTrace.
Context `{Host}.

Lemma traffic_app (es1 es2 : list event) :
  traffic (es1 ++ es2) = traffic es2 ++ traffic es1.
Proof. unfold traffic. rewrite rev_app_distr. apply List.filter_app. Qed.

Lemma errorRows_app (es1 es2 : list event) :
  errorRows (es1 ++ es2) = errorRows es1 + errorRows es2.
Proof. unfold errorRows. rewrite List.filter_app. apply length_app. Qed.

(** One turn of the loop, with the level of its log row. *)
Lemma updateRecord_trace (requestFor : UpdateInstruction -> request)
    (record : UpdateInstruction) (index successCount errorCount : nat)
    (w : world) :
  let pause := if (0 <? index)%nat then [Sleep 200] else [] in
  let response :=
    UrlFetchApp_fetch (pause ++ history w) (requestFor record) in
  exists m,
    updateRecord requestFor record index (successCount, errorCount) w
    = ((if succeeded response then (S successCount, errorCount)
        else (successCount, S errorCount)),
       {| props := props w;
          history := Log (if succeeded response then INFO else ERROR) m
                     :: Fetch (requestFor record) :: pause ++ history w |}).
Proof.
  intros pause response. unfold updateRecord, bind, fetch, sleep, emit.
  subst pause response. destruct w as [p h].
  destruct (0 <? index)%nat; simpl;
    match goal with |- context [UrlFetchApp_fetch ?a ?b] =>
      destruct (UrlFetchApp_fetch a b) as [msg|code content] end; simpl;
    try (destruct (code =? 200)%nat); eexists; reflexivity.
Qed.

(** The loop from [index] on: a pause before every request but the one of
    index [0], and one [ERROR] row for every answer that is no HTTP 200. *)
Lemma updateEach_trace (requestFor : UpdateInstruction -> request)
    (processedData : list UpdateInstruction) :
  forall (index successCount errorCount : nat) (w : world),
  exists es,
    (updateEach requestFor processedData index (successCount, errorCount) w).2
    = {| props := props w; history := es ++ history w |}
    /\ traffic es
       = (if (0 <? index)%nat
          then flat_map (fun r => [Sleep 200; Fetch r])
                 (List.map requestFor processedData)
          else paced (List.map requestFor processedData))
    /\ errorRows es + successes es (history w) = length processedData
    /\ Forall (fun e => match e with
                        | Log _ _ | Fetch _ | Sleep _ => True
                        | _ => False
                        end) es
    /\ (updateEach requestFor processedData index
          (successCount, errorCount) w).1
       = (successCount + successes es (history w),
          errorCount + errorRows es).
Proof.
  induction processedData as [|record rest IH];
    intros index successCount errorCount w.
  - exists []. simpl. destruct w. repeat split; try reflexivity.
    + destruct (0 <? index)%nat; reflexivity.
    + constructor.
    + unfold ret, errorRows. simpl. f_equal; lia.
  - rewrite updateEach_cons.
    destruct (updateRecord_trace requestFor record index successCount
                errorCount w) as (m & ->).
    cbn [fst snd].
    set (pause := if (0 <? index)%nat then [Sleep 200] else []).
    set (response :=
           UrlFetchApp_fetch (pause ++ history w) (requestFor record)).
    set (lv := if succeeded response then INFO else ERROR).
    set (w1 := {| props := props w;
                  history := Log lv m :: Fetch (requestFor record) :: pause
                             ++ history w |}).
    assert (exists s1 e1,
              (if succeeded response then (S successCount, errorCount)
               else (successCount, S errorCount)) = (s1, e1)
              /\ s1 = successCount + (if succeeded response then 1 else 0)
              /\ e1 = errorCount + (if succeeded response then 0 else 1))
      as (s1 & e1 & -> & Hs1 & He1).
    { destruct (succeeded response); eexists _, _;
        (split; [reflexivity|]); lia. }
    destruct (IH (S index) s1 e1 w1) as (es & E & R & B & K & V).
    exists (es ++ Log lv m :: Fetch (requestFor record) :: pause).
    assert (successes (es ++ Log lv m :: Fetch (requestFor record) :: pause)
              (history w)
            = successes es (history w1)
              + (if succeeded response then 1 else 0)) as Hs.
    { rewrite successes_app. simpl.
      assert (successes pause (history w) = 0) as ->
        by (unfold pause; destruct (0 <? index)%nat; reflexivity).
      fold response. unfold w1. simpl. lia. }
    assert (errorRows (es ++ Log lv m :: Fetch (requestFor record) :: pause)
            = errorRows es + (if succeeded response then 0 else 1)) as He.
    { rewrite errorRows_app. f_equal. unfold lv, pause.
      destruct (succeeded response), (0 <? index)%nat; reflexivity. }
    rewrite Hs, He. split; [|split; [|split; [|split]]].
    + rewrite E. unfold w1. simpl. rewrite <- app_assoc. reflexivity.
    + rewrite traffic_app, R. change (0 <? S index)%nat with true.
      unfold pause. destruct (0 <? index)%nat; reflexivity.
    + change (length (record :: rest)) with (S (length rest)).
      destruct (succeeded response); lia.
    + apply Forall_app. split; [exact K|].
      unfold pause. destruct (0 <? index)%nat; repeat constructor.
    + rewrite V. subst s1 e1. f_equal; lia.
Qed.

End UpdateTrace.

(** X1.  [updateAirtable] sends its requests one after the other, in the
    order of the instructions, and pauses 200 ms before each of them but the
    first: no pause precedes the first request or follows the last, and
    nothing else is sent.  Revision 1.1.0 does the same with the stored API
    key, and sends nothing and never pauses without one. *)
Theorem updateAirtable_paces_requests `{Host}
    (processedData : list UpdateInstruction) (w : world) :
  (forall key,
     traffic (added (Script.updateAirtable key processedData) w)
     = paced (List.map (Script.updateRequest key) processedData))
  /\ (forall cfg,
        traffic (added (MultiTarget.updateAirtable cfg processedData) w)
        = match MultiTarget.usable
                  (props w !! MultiTarget.AIRTABLE_API_KEY_PROP) with
          | Some apiKey =>
              paced (List.map (MultiTarget.updateRequest cfg apiKey)
                       processedData)
          | None => []
          end).
Proof.
  split.
  - intros key.
    assert (exists first last es,
              history (Script.updateAirtable key processedData w).2
              = ([Log INFO last] ++ es ++ [Log INFO first]) ++ history w
              /\ traffic es
                 = paced (List.map (Script.updateRequest key) processedData))
      as (first & last & es & E & R).
    { unfold Script.updateAirtable, bind, logMessage, emit. simpl.
      match goal with
      | |- context [updateEach ?f ?l ?i ?c ?w0] =>
          destruct (updateEach_trace f l 0 0 0 w0) as (es & E & R & _);
          destruct (updateEach f l i c w0) as [[s e] w1]
      end.
      simpl in E. subst w1. simpl. eexists _, _, es. split; [|exact R].
      rewrite <- !app_assoc. reflexivity. }
    rewrite (added_of_history _ _ _ E), !traffic_app, R. simpl.
    apply app_nil_r.
  - intros cfg.
    destruct (MultiTarget.usable
                (props w !! MultiTarget.AIRTABLE_API_KEY_PROP))
      as [apiKey|] eqn:Hkey.
    + assert (exists first last es,
                history (MultiTarget.updateAirtable cfg processedData w).2
                = ([Log INFO last] ++ es
                   ++ [GetProperty MultiTarget.AIRTABLE_API_KEY_PROP;
                       Log INFO first]) ++ history w
                /\ traffic es
                   = paced (List.map (MultiTarget.updateRequest cfg apiKey)
                              processedData))
        as (first & last & es & E & R).
      { unfold MultiTarget.updateAirtable, bind, logMessage, getProperty,
          emit. simpl. rewrite Hkey.
        match goal with
        | |- context [updateEach ?f ?l ?i ?c ?w0] =>
            destruct (updateEach_trace f l 0 0 0 w0) as (es & E & R & _);
            destruct (updateEach f l i c w0) as [[s e] w1]
        end.
        simpl in E. subst w1. simpl. eexists _, _, es. split; [|exact R].
        rewrite <- !app_assoc. reflexivity. }
      rewrite (added_of_history _ _ _ E), !traffic_app, R. simpl.
      apply app_nil_r.
    + assert (history (MultiTarget.updateAirtable cfg processedData w).2
              = [Log ERROR
                   [T "Airtable API key not found in script properties"];
                 GetProperty MultiTarget.AIRTABLE_API_KEY_PROP;
                 Log INFO [T "Updating "; N (length processedData);
                           T " Airtable records in base ";
                           T (MultiTarget.baseId cfg); T "..."]]
                ++ history w) as E.
      { unfold MultiTarget.updateAirtable, bind, logMessage, logError,
          getProperty, emit. simpl. rewrite Hkey. reflexivity. }
      rewrite (added_of_history _ _ _ E). reflexivity.
Qed.

(** X2.  Every update that is not answered with HTTP 200 (another code, or
    a thrown error) leaves exactly one [ERROR] row in the log, and no other
    [ERROR] row is written: the [ERROR] rows and the HTTP 200 answers add up
    to the number of instructions, and the closing row reports these two
    numbers.  Revision 1.1.0 does the same with the stored API key; without
    one it writes a single [ERROR] row and sends nothing. *)
Theorem updateAirtable_logs_every_failure `{Host}
    (processedData : list UpdateInstruction) (w : world) :
  (forall key,
     let es := added (Script.updateAirtable key processedData) w in
     errorRows es + successes es (history w) = length processedData
     /\ head es
        = Some (Log INFO [T "Update complete: ";
                          N (successes es (history w)); T " successful, ";
                          N (errorRows es); T " failed"]))
  /\ (forall cfg,
        let es := added (MultiTarget.updateAirtable cfg processedData) w in
        match MultiTarget.usable
                (props w !! MultiTarget.AIRTABLE_API_KEY_PROP) with
        | Some _ =>
            errorRows es + successes es (history w) = length processedData
            /\ head es
               = Some (Log INFO [T "Update complete: ";
                                 N (successes es (history w));
                                 T " successful, ";
                                 N (errorRows es); T " failed"])
        | None =>
            errorRows es = 1 /\ requests es = []
            /\ head es
               = Some (Log ERROR
                         [T "Airtable API key not found in script properties"])
        end).
Proof.
  split.
  - intros key es.
    assert (exists first es0,
              history (Script.updateAirtable key processedData w).2
              = ([Log INFO [T "Update complete: ";
                            N (successes es0 (Log INFO first :: history w));
                            T " successful, ";
                            N (errorRows es0); T " failed"]]
                 ++ es0 ++ [Log INFO first]) ++ history w
              /\ errorRows es0
                 + successes es0 (Log INFO first :: history w)
                 = length processedData)
      as (first & es0 & E & B).
    { unfold Script.updateAirtable, bind, logMessage, emit. simpl.
      match goal with
      | |- context [updateEach ?f ?l ?i ?c ?w0] =>
          destruct (updateEach_trace f l 0 0 0 w0)
            as (es0 & E & _ & B & _ & V);
          destruct (updateEach f l i c w0) as [[s e] w1]
      end.
      simpl in E, V, B. injection V as -> ->. subst w1. simpl.
      eexists _, es0. split; [|exact B].
      rewrite <- !app_assoc. reflexivity. }
    unfold es. rewrite (added_of_history _ _ _ E).
    rewrite !errorRows_app, !successes_app. simpl.
    change (errorRows [Log INFO first]) with 0.
    rewrite !Nat.add_0_r. split; [exact B | reflexivity].
  - intros cfg es.
    destruct (MultiTarget.usable
                (props w !! MultiTarget.AIRTABLE_API_KEY_PROP))
      as [apiKey|] eqn:Hkey.
    + assert (exists first es0,
                let start := GetProperty MultiTarget.AIRTABLE_API_KEY_PROP
                             :: Log INFO first :: history w in
                history (MultiTarget.updateAirtable cfg processedData w).2
                = ([Log INFO [T "Update complete: ";
                              N (successes es0 start);
                              T " successful, ";
                              N (errorRows es0); T " failed"]]
                   ++ es0
                   ++ [GetProperty MultiTarget.AIRTABLE_API_KEY_PROP;
                       Log INFO first]) ++ history w
                /\ errorRows es0 + successes es0 start
                   = length processedData)
        as (first & es0 & E & B).
      { unfold MultiTarget.updateAirtable, bind, logMessage, getProperty,
          emit. simpl. rewrite Hkey.
        match goal with
        | |- context [updateEach ?f ?l ?i ?c ?w0] =>
            destruct (updateEach_trace f l 0 0 0 w0)
              as (es0 & E & _ & B & _ & V);
            destruct (updateEach f l i c w0) as [[s e] w1]
        end.
        simpl in E, V, B. injection V as -> ->. subst w1. simpl.
        eexists _, es0. split; [|exact B].
        rewrite <- !app_assoc. reflexivity. }
      unfold es. rewrite (added_of_history _ _ _ E).
      rewrite !errorRows_app, !successes_app. simpl.
      change (errorRows [GetProperty MultiTarget.AIRTABLE_API_KEY_PROP;
                         Log INFO first]) with 0.
      rewrite !Nat.add_0_r. split; [exact B | reflexivity].
    + assert (history (MultiTarget.updateAirtable cfg processedData w).2
              = [Log ERROR
                   [T "Airtable API key not found in script properties"];
                 GetProperty MultiTarget.AIRTABLE_API_KEY_PROP;
                 Log INFO [T "Updating "; N (length processedData);
                           T " Airtable records in base ";
                           T (MultiTarget.baseId cfg); T "..."]]
                ++ history w) as E.
      { unfold MultiTarget.updateAirtable, bind, logMessage, logError,
          getProperty, emit. simpl. rewrite Hkey. reflexivity. }
      unfold es. rewrite (added_of_history _ _ _ E).
      split; [|split]; reflexivity.
Qed.

(** ** What [getSheetData] returns *)

Lemma or_else_not_nan (x : float) : is_nan (JS.or_else x 0) = false.
Proof.
  unfold JS.or_else, JS.truthy.
  destruct (is_nan x) eqn:Hn.
  - rewrite orb_true_r. reflexivity.
  - rewrite orb_false_r. destruct (x =? 0)%float; simpl; [reflexivity|].
    exact Hn.
Qed.

Section SoundRows.
Context `{Host}.

Lemma retained_sound (keys : list string) (fi di ni : nat)
    (row : list JS.value) :
  retained keys fi di ni row = true ->
  sound keys (toSheetRow fi di ni row).
Proof.
  intros Hr. pose proof (retained_eq keys fi di ni row) as He.
  rewrite Hr in He. unfold retained in Hr. unfold sound, toSheetRow. simpl.
  destruct (JS.index row fi) as [|name|x|b|t]; try discriminate.
  apply andb_prop in Hr as [Hr _]. apply andb_prop in Hr as [Hne Hin].
  simpl. split; [|split; [|split; [|split]]].
  - apply String.eqb_neq, negb_true_iff, Hne.
  - apply bool_decide_eq_true in Hin. exact Hin.
  - apply or_else_not_nan.
  - apply or_else_not_nan.
  - apply andb_prop in He as [_ He]. exact He.
Qed.

Lemma materialized_sound (keys : list string) (fi di ni : nat)
    (rows : list (list JS.value)) :
  Forall (sound keys) (materialized keys fi di ni rows)
  /\ length (materialized keys fi di ni rows) <= length rows.
Proof.
  unfold materialized. induction rows as [|row rows [IHs IHl]].
  - split; [constructor | reflexivity].
  - change (omap ?f (row :: rows))
      with (match f row with
            | Some y => y :: omap f rows
            | None => omap f rows
            end).
    cbv beta. destruct (retained keys fi di ni row) eqn:Hr.
    + split; [constructor; [apply retained_sound, Hr | exact IHs]|].
      simpl. lia.
    + split; [exact IHs | simpl; lia].
Qed.

Lemma sheetRowsOf_sound (keys : list string)
    (sheet : option (list (list JS.value))) :
  Forall (sound keys) (sheetRowsOf keys sheet)
  /\ length (sheetRowsOf keys sheet) <= length (default [] sheet) - 1.
Proof.
  unfold sheetRowsOf.
  destruct sheet as [[|headers rows]|]; simpl;
    try (split; [constructor | lia]).
  destruct (JS.array_indexOf headers "form_name") as [fi|];
    [|split; [constructor | simpl; lia]].
  destruct (JS.array_indexOf headers "dollars_raised") as [di|];
    [|split; [constructor | simpl; lia]].
  destruct (JS.array_indexOf headers "num_of_donations") as [ni|];
    [|split; [constructor | simpl; lia]].
  destruct (materialized_sound keys fi di ni rows) as [Hs Hl].
  split; [exact Hs | lia].
Qed.

(** Rows that show the same three cells materialize alike. *)
Lemma materialized_same_cells (keys : list string) (c1 c2 : nat * nat * nat)
    (rows1 rows2 : list (list JS.value)) :
  Forall2 (same_cells c1 c2) rows1 rows2 ->
  materialized keys c1.1.1 c1.1.2 c1.2 rows1
  = materialized keys c2.1.1 c2.1.2 c2.2 rows2.
Proof.
  intros Hsame. unfold materialized.
  induction Hsame as [|row1 row2 rows1 rows2 (Hf & Hd & Hn) _ IH];
    [reflexivity|].
  change (omap ?f (?r :: ?rs))
    with (match f r with
          | Some y => y :: omap f rs
          | None => omap f rs
          end).
  cbv beta. rewrite IH.
  unfold retained, toSheetRow, coerce_amount, coerce_count.
  rewrite Hf, Hd, Hn. reflexivity.
Qed.

End SoundRows.

(** X3.  Whatever the data sheet holds, every row [getSheetData] returns
    has a non-empty form name that is the [formSlug] of one of the records
    it was given, two measures that are numbers (never [NaN]), and at least
    one measure that is positive; and it returns no more rows than the sheet
    has data rows. *)
Theorem getSheetData_returns_sound_rows `{Host}
    (airtableRecords : list RemoteRecord) (w : world) :
  let sheet :=
    getSheetValues
      (Log INFO [T "Retrieving data from Google Sheets..."] :: history w)
      SHEET_NAME in
  Forall (sound (List.map r_formSlug airtableRecords))
         (getSheetData airtableRecords w).1
  /\ length (getSheetData airtableRecords w).1
     <= length (default [] sheet) - 1.
Proof.
  intros sheet. rewrite getSheetData_value. apply sheetRowsOf_sound.
Qed.

(** X4.  [getSheetData] reads the data sheet through its three named
    columns only: two sheets whose header rows have the three names, in
    whatever columns, and whose data rows show the same cells under these
    names, yield the same rows, whatever their other columns hold. *)
Theorem getSheetData_reads_three_named_columns `{Host}
    (airtableRecords : list RemoteRecord) (w1 w2 : world)
    (headers1 headers2 : list JS.value) (rows1 rows2 : list (list JS.value))
    (c1 c2 : nat * nat * nat) :
  getSheetValues
    (Log INFO [T "Retrieving data from Google Sheets..."] :: history w1)
    SHEET_NAME = Some (headers1 :: rows1) ->
  getSheetValues
    (Log INFO [T "Retrieving data from Google Sheets..."] :: history w2)
    SHEET_NAME = Some (headers2 :: rows2) ->
  (JS.array_indexOf headers1 "form_name",
   JS.array_indexOf headers1 "dollars_raised",
   JS.array_indexOf headers1 "num_of_donations")
  = (Some c1.1.1, Some c1.1.2, Some c1.2) ->
  (JS.array_indexOf headers2 "form_name",
   JS.array_indexOf headers2 "dollars_raised",
   JS.array_indexOf headers2 "num_of_donations")
  = (Some c2.1.1, Some c2.1.2, Some c2.2) ->
  Forall2 (same_cells c1 c2) rows1 rows2 ->
  (getSheetData airtableRecords w1).1 = (getSheetData airtableRecords w2).1.
Proof.
  intros Hs1 Hs2 Hc1 Hc2 Hsame.
  injection Hc1 as Hf1 Hd1 Hn1. injection Hc2 as Hf2 Hd2 Hn2.
  rewrite !getSheetData_value, Hs1, Hs2. unfold sheetRowsOf.
  rewrite Hf1, Hd1, Hn1, Hf2, Hd2, Hn2.
  apply materialized_same_cells, Hsame.
Qed.

(** The scenario of the specification before and after its data sheet is
    rearranged: the same two rows. *)
Lemma getSheetData_reads_three_named_columns_witness :
  (getSheetData (H := Rearranged.host) Scenario.remote Scenario.fresh).1
  = (getSheetData (H := Rearranged.host) Scenario.remote Rearranged.later).1.
Proof.
  apply (getSheetData_reads_three_named_columns (H := Rearranged.host)
           Scenario.remote Scenario.fresh Rearranged.later
           (hd [] Scenario.grid) (hd [] Rearranged.grid)
           (tl Scenario.grid) (tl Rearranged.grid)
           (0, 1, 2) (2, 3, 1)).
  - reflexivity.
  - reflexivity.
  - reflexivity.
  - reflexivity.
  - repeat constructor.
Defined.

(** ** What the join returns *)

Lemma get_set_other (m : gmap string JS.stored) (k key : string)
    (v : JS.stored) :
  k <> key -> JS.get (JS.set m k v) key = JS.get m key.
Proof.
  intros Hne. unfold JS.get. rewrite set_other by exact Hne. reflexivity.
Qed.

Lemma get_set_defined (m : gmap string JS.stored) (key : string)
    (v : JS.stored) :
  JS.defined (JS.get (JS.set m key v) key) = true.
Proof.
  unfold JS.get, JS.set.
  destruct (String.eqb_spec key "__proto__") as [->|Hne].
  - destruct (m !! "__proto__"); reflexivity.
  - rewrite lookup_insert_eq. reflexivity.
Qed.

(** After the aggregation, reading the entry of a form name that a row
    carries never gives [undefined]. *)
Lemma aggregate_defined (sheetData : list SheetRow) (key : string) :
  key ∈ List.map formName sheetData ->
  JS.defined (JS.get (aggregate sheetData).1 key) = true.
Proof.
  induction sheetData as [|item sheetData IH] using rev_ind.
  - intros Hin. apply elem_of_nil in Hin. destruct Hin.
  - rewrite aggregate_snoc, List.map_app. intros Hin.
    destruct (aggregate sheetData) as [T0 D0]. cbn [fst snd] in IH.
    unfold addRow.
    destruct (negb (JS.stored_truthy (JS.get T0 (formName item))));
      cbn [fst snd];
      (destruct (String.eqb_spec (formName item) key) as [<-|Hne];
       [apply get_set_defined|]);
      rewrite !get_set_other by exact Hne; apply IH;
      apply elem_of_app in Hin as [Hin|Hin]; try exact Hin;
      apply list_elem_of_singleton in Hin; congruence.
Qed.

(** A record whose key a row carries gets an instruction. *)
Lemma emitted_defined (sheetData : list SheetRow) (record : RemoteRecord) :
  r_formSlug record ∈ List.map formName sheetData ->
  is_Some (emitted (aggregate sheetData).1 (aggregate sheetData).2 record).
Proof.
  intros Hin. unfold emitted, joinRecords. cbn [fold_left].
  unfold matchRecord. rewrite (aggregate_defined _ _ Hin). simpl. eauto.
Qed.

(** When the rows carry keys of the records only, and there is a row, the
    join returns an instruction. *)
Lemma joinRecords_finds_a_match (airtableRecords : list RemoteRecord)
    (sheetData : list SheetRow) :
  sheetData <> [] ->
  Forall (fun row => formName row ∈ List.map r_formSlug airtableRecords)
         sheetData ->
  joinRecords (aggregate sheetData).1 (aggregate sheetData).2 airtableRecords
  <> [].
Proof.
  intros Hne Hall. destruct sheetData as [|row rows]; [contradiction|].
  apply Forall_cons in Hall as [Hrow _].
  apply list_elem_of_fmap in Hrow as (record & Hkey & Hin).
  destruct (emitted_defined (row :: rows) record) as [u Hu].
  { rewrite <- Hkey. left. }
  rewrite joinRecords_emitted. intros Hnil.
  assert (u ∈ omap (emitted (aggregate (row :: rows)).1
                      (aggregate (row :: rows)).2) airtableRecords) as Hu'.
  { apply list_elem_of_omap. exists record. split; assumption. }
  rewrite Hnil in Hu'. apply elem_of_nil in Hu'. exact Hu'.
Qed.

Lemma or_zero_not_nan (v : option JS.stored) : not_nan (JS.or_zero v).
Proof.
  destruct v as [[x|]|]; simpl; [apply or_else_not_nan | exact I | reflexivity].
Qed.

(** What the join makes of one record. *)
Lemma emitted_eq (formTotals formDonations : gmap string JS.stored)
    (record : RemoteRecord) :
  emitted formTotals formDonations record
  = if JS.defined (JS.get formTotals (r_formSlug record))
       || JS.defined (JS.get formDonations (r_formSlug record))
    then Some {| u_id := r_id record;
                 raised := JS.or_zero (JS.get formTotals (r_formSlug record));
                 donations :=
                   JS.or_zero (JS.get formDonations (r_formSlug record)) |}
    else None.
Proof.
  unfold emitted, joinRecords. cbn [fold_left]. unfold matchRecord.
  destruct (JS.defined _ || JS.defined _); reflexivity.
Qed.

(** X5.  [processData] returns at most one instruction for each record, in
    the order of the records, and never one that carries [NaN]: a total
    that is [NaN] is sent as [0]. *)
Theorem processData_instructions_follow_the_records
    (airtableRecords : list RemoteRecord) (sheetData : list SheetRow)
    (w : world) :
  let processedData := (processData airtableRecords sheetData w).1 in
  List.map u_id processedData `sublist_of` List.map r_id airtableRecords
  /\ length processedData <= length airtableRecords
  /\ Forall (fun u => not_nan (raised u) /\ not_nan (donations u))
            processedData.
Proof.
  intros processedData. unfold processedData.
  rewrite processData_value, joinRecords_emitted.
  set (T0 := (aggregate sheetData).1). set (D0 := (aggregate sheetData).2).
  clearbody T0 D0. clear processedData.
  induction airtableRecords as [|record rest (IHs & IHl & IHn)].
  - repeat split; constructor.
  - change (omap ?f (record :: rest))
      with (match f record with
            | Some y => y :: omap f rest
            | None => omap f rest
            end).
    cbv beta. destruct (emitted T0 D0 record) as [u|] eqn:Hu.
    + rewrite emitted_eq in Hu.
      destruct (JS.defined _ || JS.defined _); [|discriminate].
      injection Hu as <-. split; [|split].
      * simpl. apply sublist_skip. exact IHs.
      * simpl. lia.
      * constructor; [|exact IHn]. simpl. split; apply or_zero_not_nan.
    + split; [|split].
      * simpl. apply sublist_cons. exact IHs.
      * simpl. lia.
      * exact IHn.
Qed.

(** ** The totals of a form whose amounts are positive *)

Lemma sumOf_pos (measure : SheetRow -> float) (rows : list SheetRow) :
  rows <> [] ->
  Forall (fun row => (0 <? measure row)%float = true) rows ->
  (0 <? sumOf measure rows)%float = true.
Proof.
  unfold sumOf.
  assert (forall acc : float,
            (0 <=? acc)%float = true ->
            rows <> [] ->
            Forall (fun row => (0 <? measure row)%float = true) rows ->
            (0 <? fold_left (fun acc row => (acc + measure row)%float)
                    rows acc)%float = true) as Hacc.
  { induction rows as [|row rows IH]; intros acc Hnn Hne Hall;
      [contradiction|].
    apply Forall_cons in Hall as [Hrow Hall]. cbn [fold_left].
    pose proof (add_pos acc (measure row) Hnn Hrow) as Hsum.
    destruct rows as [|row' rows']; [exact Hsum|].
    apply IH; [apply pos_nonneg, Hsum | discriminate | exact Hall]. }
  apply Hacc. reflexivity.
Qed.

(** For a key whose rows all carry a positive amount, the aggregation holds
    the sums and the join makes them the instruction of a record. *)
Lemma emitted_sums (sheetData : list SheetRow) (record : RemoteRecord) :
  let key := r_formSlug record in
  let rows := rowsOf key sheetData in
  key ∉ JS.Object_prototype ->
  rows <> [] ->
  Forall (fun row => (0 <? dollarsRaised row)%float = true) rows ->
  (aggregate sheetData).1 !! key = Some (JS.Num (sumOf dollarsRaised rows))
  /\ (aggregate sheetData).2 !! key
     = Some (JS.Num (sumOf numDonations rows))
  /\ emitted (aggregate sheetData).1 (aggregate sheetData).2 record
     = Some {| u_id := r_id record;
               raised := JS.Num (sumOf dollarsRaised rows);
               donations :=
                 JS.Num (JS.or_else (sumOf numDonations rows) 0) |}.
Proof.
  intros key rows Hkey Hne Hpos.
  destruct (aggregate_sums sheetData key Hkey Hne) as [HT HD].
  { intros earlier later Hsplit He _. apply pos_truthy, sumOf_pos; [exact He|].
    fold rows in Hsplit. rewrite Hsplit in Hpos.
    apply Forall_app in Hpos as [Hpos _]. exact Hpos. }
  fold rows in HT, HD.
  split; [exact HT|]. split; [exact HD|].
  rewrite emitted_eq. fold key. rewrite !get_ordinary by exact Hkey.
  rewrite HT, HD. simpl. do 3 f_equal.
  unfold JS.or_else. rewrite (pos_truthy _ (sumOf_pos _ _ Hne Hpos)).
  reflexivity.
Qed.

(** X6.  For a form whose rows all carry a positive amount, and whose name
    is no name of a member of [Object.prototype], the aggregation holds the
    left-to-right sums of its amounts and of its counts, and the join gives
    a record of that form one instruction with these sums: the amount as it
    is, the count with [0] for a count that is zero. *)
Theorem positive_amounts_are_summed (airtableRecords : list RemoteRecord)
    (sheetData : list SheetRow) (record : RemoteRecord) (w : world) :
  let key := r_formSlug record in
  let rows := rowsOf key sheetData in
  let instruction :=
    {| u_id := r_id record;
       raised := JS.Num (sumOf dollarsRaised rows);
       donations := JS.Num (JS.or_else (sumOf numDonations rows) 0) |} in
  key ∉ JS.Object_prototype ->
  rows <> [] ->
  Forall (fun row => (0 <? dollarsRaised row)%float = true) rows ->
  (aggregate sheetData).1 !! key = Some (JS.Num (sumOf dollarsRaised rows))
  /\ (aggregate sheetData).2 !! key
     = Some (JS.Num (sumOf numDonations rows))
  /\ emitted (aggregate sheetData).1 (aggregate sheetData).2 record
     = Some instruction
  /\ (record ∈ airtableRecords ->
      instruction ∈ (processData airtableRecords sheetData w).1).
Proof.
  intros key rows instruction Hkey Hne Hpos.
  destruct (emitted_sums sheetData record Hkey Hne Hpos) as (HT & HD & He).
  split; [exact HT|]. split; [exact HD|]. split; [exact He|].
  intros Hin. rewrite processData_value, joinRecords_emitted.
  apply list_elem_of_omap. exists record. split; assumption.
Qed.

(** The scenario of the specification: 10.5 and 4.5 raised in 2 and 1
    donations for [alpha] make 15 raised in 3 donations for [r1]. *)
Lemma positive_amounts_are_summed_witness :
  {| u_id := "r1"; raised := JS.Num 15; donations := JS.Num 3 |}
  ∈ (processData Scenario.remote
       [ {| formName := "alpha"; dollarsRaised := 10.5; numDonations := 2 |};
         {| formName := "alpha"; dollarsRaised := 4.5; numDonations := 1 |} ]
       Scenario.fresh).1.
Proof.
  refine (proj2 (proj2 (proj2
            (positive_amounts_are_summed Scenario.remote
               [ {| formName := "alpha"; dollarsRaised := 10.5;
                    numDonations := 2 |};
                 {| formName := "alpha"; dollarsRaised := 4.5;
                    numDonations := 1 |} ]
               {| r_id := "r1";
                  r_actBlueUrl := "https://secure.actblue.com/donate/alpha";
                  r_formSlug := "alpha" |}
               Scenario.fresh _ _ _))) _).
  - apply (bool_decide_unpack _). vm_compute. exact I.
  - discriminate.
  - repeat constructor.
  - left.
Defined.

(** ** The requests and the closing row of a sync *)

Lemma requests_no_fetch (es : list event) :
  Forall no_fetch es -> requests es = [].
Proof.
  intros Hes. induction Hes as [|e es He _ IH]; [reflexivity|].
  change (e :: es) with ([e] ++ es). rewrite requests_app, IH.
  destruct e; try reflexivity. destruct He.
Qed.

Lemma requests_added_no_fetch {A} (m : M A) (w : world) :
  effects no_fetch m -> requests (added m w) = [].
Proof.
  intros Hm. apply requests_no_fetch. apply (effects_added no_fetch), Hm.
Qed.

Lemma added_logMessage (m : list frag) (w : world) :
  added (logMessage m) w = [Log INFO m].
Proof. apply added_of_history. reflexivity. Qed.

(** Proves that a part of the script that sends nothing has effects that
    are no requests. *)
Ltac quiet_effects :=
  intros;
  repeat (effects_step || apply effects_getSheetData
          || apply effects_processData);
  intros; exact I.

Section SyncTrace.
Context `{Host}.

(** [fetchAirtableRecords] sends its one read request. *)
Lemma Script_fetchAirtableRecords_requests (key : string) (w : world) :
  requests (added (Script.fetchAirtableRecords key) w)
  = [Script.recordsRequest key].
Proof.
  assert (exists lv m,
            history (Script.fetchAirtableRecords key w).2
            = [Log lv m; Fetch (Script.recordsRequest key);
               Log INFO [T "Fetching records from Airtable..."]]
              ++ history w) as (lv & m & E).
  { unfold Script.fetchAirtableRecords, bind, logMessage, logError, fetch,
      emit. simpl.
    destruct (UrlFetchApp_fetch _ _) as [msg|code [msg|[records|]]];
      eexists _, _; reflexivity. }
  rewrite (added_of_history _ _ _ E). reflexivity.
Qed.

(** [updateAirtable] sends the requests of its instructions. *)
Lemma Script_updateAirtable_requests (key : string)
    (processedData : list UpdateInstruction) (w : world) :
  requests (added (Script.updateAirtable key processedData) w)
  = List.map (Script.updateRequest key) processedData.
Proof.
  assert (exists first last es,
            history (Script.updateAirtable key processedData w).2
            = ([Log INFO last] ++ es ++ [Log INFO first]) ++ history w
            /\ requests es
               = List.map (Script.updateRequest key) processedData)
    as (first & last & es & E & R).
  { unfold Script.updateAirtable, bind, logMessage, emit. simpl.
    match goal with
    | |- context [updateEach ?f ?l ?i ?c ?w0] =>
        destruct (updateEach_attempts f l 0 0 0 w0) as (es & E & R & _ & _);
        destruct (updateEach f l i c w0) as [[s e] w1]
    end.
    simpl in E. subst w1. simpl. eexists _, _, es. split; [|exact R].
    rewrite <- !app_assoc. reflexivity. }
  rewrite (added_of_history _ _ _ E), !requests_app, R. simpl.
  apply app_nil_r.
Qed.

(** The rows [fetchAirtableRecords] leaves when it returns a record. *)
Lemma Script_fetchAirtableRecords_history (key : string) (w : world) :
  (Script.fetchAirtableRecords key w).1 <> [] ->
  history (Script.fetchAirtableRecords key w).2
  = Log INFO [T "Found "; N (length (Script.fetchAirtableRecords key w).1);
              T " valid ActBlue form slugs in Airtable"]
    :: Fetch (Script.recordsRequest key)
    :: Log INFO [T "Fetching records from Airtable..."] :: history w.
Proof.
  unfold Script.fetchAirtableRecords, bind, logMessage, logError, fetch,
    emit. simpl.
  destruct (UrlFetchApp_fetch _ _) as [msg|code [msg|[records|]]];
    simpl; intros Hne; try contradiction; reflexivity.
Qed.

(** A run of [syncData] gets its records from [answer] and, when there is
    one, its rows from [sheetRead]. *)
Lemma Script_syncData_reads (key : string) (w : world) :
  let w0 := (logMessage [T "Starting sync process..."] w).2 in
  let airtableRecords := (Script.fetchAirtableRecords key w0).1 in
  let w1 := (Script.fetchAirtableRecords key w0).2 in
  airtableRecords = validRecords Script.actBlueUrlOf (carried (answer key w))
  /\ ((length airtableRecords =? 0)%nat = false ->
      getSheetValues
        (Log INFO [T "Retrieving data from Google Sheets..."] :: history w1)
        SHEET_NAME
      = sheetRead key w).
Proof.
  intros w0 airtableRecords w1.
  assert (airtableRecords
          = validRecords Script.actBlueUrlOf (carried (answer key w)))
    as Hrecs by apply Script_fetchAirtableRecords_value.
  split; [exact Hrecs|]. intros Hn.
  unfold sheetRead, sheetAt. rewrite <- Hrecs. unfold w1.
  rewrite Script_fetchAirtableRecords_history; [reflexivity|].
  fold airtableRecords. intros Hnil. rewrite Hnil in Hn. discriminate.
Qed.

(** What a run of [syncData] sends and how it closes its log. *)
Lemma Script_syncData_run (key : string) (w : world) :
  let plan :=
    planned Script.actBlueUrlOf (carried (answer key w)) (sheetRead key w) in
  exists closing,
    requests (added (Script.syncData key) w)
    = Script.recordsRequest key :: List.map (Script.updateRequest key) plan
    /\ head (added (Script.syncData key) w) = Some (Log INFO [T closing])
    /\ closing
       ∈ [ "No records found in Airtable, sync complete";
           "No matching data found in Google Sheet, sync complete";
           "Sync completed successfully" ]
    /\ (closing = "Sync completed successfully" <-> plan <> []).
Proof.
  destruct (Script_syncData_reads key w) as [Hrecs Hsheet].
  unfold Script.syncData, planned.
  rewrite added_bind; [|sync_effects..].
  rewrite added_logMessage.
  set (w0 := (logMessage [T "Starting sync process..."] w).2) in *.
  rewrite added_bind; [|sync_effects..].
  pose proof (Script_fetchAirtableRecords_requests key w0) as Hreq.
  set (w1 := (Script.fetchAirtableRecords key w0).2) in *.
  rewrite <- Hrecs.
  set (airtableRecords := (Script.fetchAirtableRecords key w0).1) in *.
  destruct (length airtableRecords =? 0)%nat eqn:Hn.
  { eexists. rewrite added_logMessage, !requests_app, Hreq.
    rewrite (length_zero_nil _ Hn), joinRecords_nil.
    assert (forall sd : list SheetRow,
              match sd with [] => [] | _ :: _ => [] end
              = ([] : list UpdateInstruction)) as ->
      by (intros []; reflexivity).
    split; [reflexivity|]. split; [reflexivity|].
    split; [set_solver|]. split; [discriminate | intros []; reflexivity]. }
  rewrite <- (Hsheet eq_refl).
  rewrite added_bind; [|sync_effects..].
  rewrite <- (getSheetData_value airtableRecords w1).
  assert (requests (added (getSheetData airtableRecords) w1) = []) as Hq1.
  { apply requests_added_no_fetch. quiet_effects. }
  assert (Forall (sound (List.map r_formSlug airtableRecords))
                 (getSheetData airtableRecords w1).1) as Hsound.
  { rewrite getSheetData_value. apply sheetRowsOf_sound. }
  set (sheetData := (getSheetData airtableRecords w1).1) in *.
  set (w2 := (getSheetData airtableRecords w1).2) in *.
  destruct (length sheetData =? 0)%nat eqn:Hs.
  { eexists. rewrite added_logMessage, !requests_app, Hreq, Hq1.
    rewrite (length_zero_nil _ Hs).
    split; [reflexivity|]. split; [reflexivity|].
    split; [set_solver|]. split; [discriminate | intros []; reflexivity]. }
  assert (forall X : list UpdateInstruction,
            match sheetData with [] => [] | _ :: _ => X end = X) as ->.
  { intros X. destruct (length_nonzero_cons _ Hs) as (row0 & rows0 & ->).
    reflexivity. }
  rewrite added_bind; [|sync_effects..].
  rewrite <- (processData_value airtableRecords sheetData w2).
  assert (requests (added (processData airtableRecords sheetData) w2) = [])
    as Hq2.
  { apply requests_added_no_fetch. quiet_effects. }
  set (processedData := (processData airtableRecords sheetData w2).1).
  set (w3 := (processData airtableRecords sheetData w2).2) in *.
  destruct (length processedData =? 0)%nat eqn:Hp.
  { exfalso. apply length_zero_nil in Hp. unfold processedData in Hp.
    rewrite processData_value in Hp.
    apply (joinRecords_finds_a_match airtableRecords sheetData);
      [|eapply Forall_impl; [exact Hsound|]; intros row Hrow; apply Hrow
       |exact Hp].
    intros Hnil. rewrite Hnil in Hs. discriminate. }
  rewrite added_bind; [|sync_effects..].
  eexists. rewrite added_logMessage, !requests_app, Hreq, Hq1, Hq2.
  rewrite Script_updateAirtable_requests.
  change (requests [Log INFO [T "Sync completed successfully"]]) with
    ([] : list request).
  rewrite app_nil_r.
  split; [reflexivity|]. split; [reflexivity|].
  split; [set_solver|]. split; [|reflexivity].
  intros _ Hnil. rewrite Hnil in Hp. discriminate.
Qed.

(** The update requests are the requests that are no read. *)
Lemma patches_of_plan (key : string) (plan : list UpdateInstruction) :
  List.filter
    (fun r => match req_method r with PATCH => true | GET => false end)
    (Script.recordsRequest key :: List.map (Script.updateRequest key) plan)
  = List.map (Script.updateRequest key) plan.
Proof.
  cbn [List.filter Script.recordsRequest req_method].
  induction plan as [|u plan IH]; [reflexivity|].
  cbn [List.map List.filter Script.updateRequest req_method]. f_equal.
  exact IH.
Qed.

End SyncTrace.

(** X7.  A run of [syncData] sends exactly one read request, first, and
    then the updates of the plan made from the answer it gets to that
    request ([answer]: the platform's answer at the history of the run when
    it sends the request) and from what it then finds in the data sheet
    ([sheetRead]), in the order of the records; it sends nothing else, so
    every request goes to the configured table with the configured key. *)
Theorem syncData_sends_one_read_then_the_updates `{Host} (key : string)
    (w : world) :
  requests (added (Script.syncData key) w)
  = Script.recordsRequest key
    :: List.map (Script.updateRequest key)
         (planned Script.actBlueUrlOf (carried (answer key w))
            (sheetRead key w))
  /\ Forall (fun r =>
               req_bearer r = key
               /\ String.prefix
                    "https://api.airtable.com/v0/appGDzLGgrYmcW9R1/tblTo3zgLYNby9UnL"
                    (req_url r) = true)
            (requests (added (Script.syncData key) w)).
Proof.
  pose proof (Script_syncData_run key w) as Hrun. cbv zeta in Hrun.
  destruct Hrun as (closing & R & _).
  split; [exact R|].
  rewrite R. constructor; [split; reflexivity|].
  clear R. induction (planned _ _ _) as [|u plan IH]; simpl;
    [constructor | constructor; [split; reflexivity | exact IH]].
Qed.

(** X8.  A run of [syncData] closes its log with one of three [INFO] rows,
    and with "Sync completed successfully" exactly when it has sent at least
    one update, whether or not any update was accepted.  It never closes
    with "No matches found between Airtable and Sheet data, sync complete":
    the rows [getSheetData] returns carry keys of the records, so the join
    finds a match whenever there is a row. *)
Theorem syncData_closing_row `{Host} (key : string) (w : world) :
  exists closing,
    head (history (Script.syncData key w).2) = Some (Log INFO [T closing])
    /\ closing
       ∈ [ "No records found in Airtable, sync complete";
           "No matching data found in Google Sheet, sync complete";
           "Sync completed successfully" ]
    /\ (closing = "Sync completed successfully"
        <-> patches (added (Script.syncData key) w) <> []).
Proof.
  pose proof (Script_syncData_run key w) as Hrun. cbv zeta in Hrun.
  destruct Hrun as (closing & R & L & C & S).
  exists closing. split; [|split; [exact C|]].
  - assert (effects anything (Script.syncData key)) as Hm
      by (apply effects_Script_syncData; intros; exact I).
    destruct (effects_added anything _ w Hm) as [-> _]. simpl.
    destruct (added (Script.syncData key) w); [discriminate|exact L].
  - rewrite S. unfold patches. rewrite R. simpl.
    destruct (planned _ _ _); simpl; split; intros Hx; congruence.
Qed.

(** ** The requests of revision 1.1.0 *)

Lemma reads_app (es1 es2 : list event) :
  reads (es1 ++ es2) = reads es2 ++ reads es1.
Proof. unfold reads. rewrite requests_app. apply List.filter_app. Qed.

Section TargetTrace.
Context `{Host}.

(** [fetchAirtableRecords(cfg)] sends its one read request when it finds
    the API key, and nothing otherwise. *)
Lemma MultiTarget_fetchAirtableRecords_requests (cfg : MultiTarget.target)
    (w : world) :
  requests (added (MultiTarget.fetchAirtableRecords cfg) w)
  = match MultiTarget.usable (props w !! MultiTarget.AIRTABLE_API_KEY_PROP) with
    | Some apiKey => [MultiTarget.recordsRequest cfg apiKey]
    | None => []
    end.
Proof.
  destruct (MultiTarget.usable (props w !! MultiTarget.AIRTABLE_API_KEY_PROP))
    as [apiKey|] eqn:Hkey.
  - assert (exists lv m first,
              history (MultiTarget.fetchAirtableRecords cfg w).2
              = [Log lv m; Fetch (MultiTarget.recordsRequest cfg apiKey);
                 GetProperty MultiTarget.AIRTABLE_API_KEY_PROP;
                 Log INFO first] ++ history w) as (lv & m & first & E).
    { unfold MultiTarget.fetchAirtableRecords, bind, logMessage, logError,
        getProperty, fetch, emit. simpl. rewrite Hkey. simpl.
      destruct (UrlFetchApp_fetch _ _) as [msg|code [msg|[records|]]];
        eexists _, _, _; reflexivity. }
    rewrite (added_of_history _ _ _ E). reflexivity.
  - assert (exists first,
              history (MultiTarget.fetchAirtableRecords cfg w).2
              = [Log ERROR
                   [T "Airtable API key not found in script properties"];
                 GetProperty MultiTarget.AIRTABLE_API_KEY_PROP;
                 Log INFO first] ++ history w) as (first & E).
    { unfold MultiTarget.fetchAirtableRecords, bind, logMessage, logError,
        getProperty, emit. simpl. rewrite Hkey. eexists. reflexivity. }
    rewrite (added_of_history _ _ _ E). reflexivity.
Qed.

(** [updateAirtable(cfg, _)] sends the requests of its instructions when it
    finds the API key, and nothing otherwise. *)
Lemma MultiTarget_updateAirtable_requests (cfg : MultiTarget.target)
    (processedData : list UpdateInstruction) (w : world) :
  requests (added (MultiTarget.updateAirtable cfg processedData) w)
  = match MultiTarget.usable (props w !! MultiTarget.AIRTABLE_API_KEY_PROP) with
    | Some apiKey =>
        List.map (MultiTarget.updateRequest cfg apiKey) processedData
    | None => []
    end.
Proof.
  destruct (MultiTarget.usable (props w !! MultiTarget.AIRTABLE_API_KEY_PROP))
    as [apiKey|] eqn:Hkey.
  - assert (exists first last es,
              history (MultiTarget.updateAirtable cfg processedData w).2
              = ([Log INFO last] ++ es
                 ++ [GetProperty MultiTarget.AIRTABLE_API_KEY_PROP;
                     Log INFO first]) ++ history w
              /\ requests es
                 = List.map (MultiTarget.updateRequest cfg apiKey)
                     processedData)
      as (first & last & es & E & R).
    { unfold MultiTarget.updateAirtable, bind, logMessage, getProperty, emit.
      simpl. rewrite Hkey.
      match goal with
      | |- context [updateEach ?f ?l ?i ?c ?w0] =>
          destruct (updateEach_attempts f l 0 0 0 w0) as (es & E & R & _ & _);
          destruct (updateEach f l i c w0) as [[s e] w1]
      end.
      simpl in E. subst w1. simpl. eexists _, _, es. split; [|exact R].
      rewrite <- !app_assoc. reflexivity. }
    rewrite (added_of_history _ _ _ E), !requests_app, R. simpl.
    apply app_nil_r.
  - assert (history (MultiTarget.updateAirtable cfg processedData w).2
            = [Log ERROR [T "Airtable API key not found in script properties"];
               GetProperty MultiTarget.AIRTABLE_API_KEY_PROP;
               Log INFO [T "Updating "; N (length processedData);
                         T " Airtable records in base ";
                         T (MultiTarget.baseId cfg); T "..."]] ++ history w)
      as E.
    { unfold MultiTarget.updateAirtable, bind, logMessage, logError,
        getProperty, emit. simpl. rewrite Hkey. reflexivity. }
    rewrite (added_of_history _ _ _ E). reflexivity.
Qed.

(** The callback of [AIRTABLE_TARGETS.forEach] writes no script property. *)
Lemma MultiTarget_syncTarget_props (cfg : MultiTarget.target) (w : world) :
  props (MultiTarget.syncTarget cfg w).2 = props w.
Proof.
  apply no_write_frame. apply effects_MultiTarget_syncTarget; intros; exact I.
Qed.

(** What the callback of [AIRTABLE_TARGETS.forEach] sends for a target. *)
Lemma MultiTarget_syncTarget_requests (cfg : MultiTarget.target) (w : world) :
  exists plan,
    requests (added (MultiTarget.syncTarget cfg) w)
    = match MultiTarget.usable
              (props w !! MultiTarget.AIRTABLE_API_KEY_PROP) with
      | Some apiKey =>
          if configured cfg
          then MultiTarget.recordsRequest cfg apiKey
               :: List.map (MultiTarget.updateRequest cfg apiKey) plan
          else []
      | None => []
      end.
Proof.
  unfold MultiTarget.syncTarget, configured.
  rewrite <- negb_andb.
  destruct (JS.string_truthy (MultiTarget.baseId cfg)
            && JS.string_truthy (MultiTarget.tableId cfg)); simpl.
  2:{ exists []. rewrite added_logMessage.
      destruct (MultiTarget.usable _); reflexivity. }
  rewrite added_bind; [|target_effects..].
  rewrite requests_app, MultiTarget_fetchAirtableRecords_requests.
  pose proof (MultiTarget_fetchAirtableRecords_value cfg w) as Hrecs.
  assert (props (MultiTarget.fetchAirtableRecords cfg w).2 = props w) as Hp1.
  { apply no_write_frame. target_effects. }
  set (w1 := (MultiTarget.fetchAirtableRecords cfg w).2) in *.
  set (airtableRecords := (MultiTarget.fetchAirtableRecords cfg w).1) in *.
  destruct (MultiTarget.usable (props w !! MultiTarget.AIRTABLE_API_KEY_PROP))
    as [apiKey|] eqn:Hkey.
  2:{ exists []. rewrite Hrecs. simpl. rewrite added_logMessage.
      reflexivity. }
  destruct (length airtableRecords =? 0)%nat eqn:Hn.
  { exists []. rewrite added_logMessage. reflexivity. }
  rewrite added_bind; [|target_effects..].
  assert (requests (added (getSheetData airtableRecords) w1) = []) as Hq1.
  { apply requests_added_no_fetch. quiet_effects. }
  assert (props (getSheetData airtableRecords w1).2 = props w) as Hp2.
  { rewrite no_write_frame; [exact Hp1 | target_effects]. }
  set (sheetData := (getSheetData airtableRecords w1).1).
  set (w2 := (getSheetData airtableRecords w1).2) in *.
  destruct (length sheetData =? 0)%nat eqn:Hs.
  { exists []. rewrite added_logMessage, !requests_app, Hq1. reflexivity. }
  rewrite added_bind; [|target_effects..].
  assert (requests (added (processData airtableRecords sheetData) w2) = [])
    as Hq2.
  { apply requests_added_no_fetch. quiet_effects. }
  assert (props (processData airtableRecords sheetData w2).2 = props w)
    as Hp3.
  { rewrite no_write_frame; [exact Hp2 | target_effects]. }
  set (processedData := (processData airtableRecords sheetData w2).1).
  set (w3 := (processData airtableRecords sheetData w2).2) in *.
  destruct (length processedData =? 0)%nat eqn:Hp.
  { exists []. rewrite added_logMessage, !requests_app, Hq1, Hq2.
    reflexivity. }
  exists processedData.
  rewrite !requests_app, Hq1, Hq2, MultiTarget_updateAirtable_requests,
    Hp3, Hkey.
  reflexivity.
Qed.

(** The requests of the loop over the targets. *)
Lemma MultiTarget_forEachTarget_requests (targets : list MultiTarget.target) :
  forall w : world,
  let apiKey :=
    MultiTarget.usable (props w !! MultiTarget.AIRTABLE_API_KEY_PROP) in
  props (MultiTarget.forEachTarget targets w).2 = props w
  /\ reads (added (MultiTarget.forEachTarget targets) w)
     = match apiKey with
       | Some apiKey =>
           List.map (fun cfg => MultiTarget.recordsRequest cfg apiKey)
             (List.filter configured targets)
       | None => []
       end
  /\ Forall (fun r =>
               exists cfg k,
                 cfg ∈ targets /\ configured cfg = true
                 /\ apiKey = Some k /\ addressed cfg k r)
            (requests (added (MultiTarget.forEachTarget targets) w)).
Proof.
  induction targets as [|cfg rest IH]; intros w apiKey.
  - split; [reflexivity|]. split.
    + assert (added (MultiTarget.forEachTarget []) w = []) as ->
        by (apply added_of_history; reflexivity).
      destruct apiKey; reflexivity.
    + assert (added (MultiTarget.forEachTarget []) w = []) as ->
        by (apply added_of_history; reflexivity).
      constructor.
  - cbn [MultiTarget.forEachTarget].
    assert (effects anything (MultiTarget.syncTarget cfg)) as Hone
      by (apply effects_MultiTarget_syncTarget; intros; exact I).
    assert (forall a : unit,
              effects anything (MultiTarget.forEachTarget rest)) as Hrest
      by (intros; apply effects_MultiTarget_forEachTarget; intros; exact I).
    rewrite (added_bind _ _ w Hone Hrest).
    pose proof (MultiTarget_syncTarget_props cfg w) as Hp.
    destruct (MultiTarget_syncTarget_requests cfg w) as (plan & R).
    fold apiKey in R.
    destruct (IH (MultiTarget.syncTarget cfg w).2) as (IHp & IHr & IHa).
    rewrite Hp in IHp, IHr, IHa. fold apiKey in IHr, IHa.
    split; [|split].
    + unfold bind. destruct (MultiTarget.syncTarget cfg w) as [[] w1].
      simpl in *. rewrite IHp. reflexivity.
    + rewrite reads_app, IHr. unfold reads at 1. rewrite R.
      destruct apiKey as [k|]; [|reflexivity].
      cbn [List.filter]. destruct (configured cfg); [|reflexivity].
      cbn [List.filter MultiTarget.recordsRequest req_method List.map app].
      f_equal.
      assert (List.filter
                (fun r => match req_method r with
                          | GET => true
                          | PATCH => false
                          end)
                (List.map (MultiTarget.updateRequest cfg k) plan) = [])
        as ->; [|reflexivity].
      clear. induction plan as [|u plan IH]; [reflexivity | exact IH].
    + rewrite requests_app. apply Forall_app. split.
      * rewrite R. destruct apiKey as [k|]; [|constructor].
        destruct (configured cfg) eqn:Hc; [|constructor].
        assert (cfg ∈ cfg :: rest) as Hin by (left).
        constructor.
        { exists cfg, k. repeat split; try assumption. left. reflexivity. }
        clear R. induction plan as [|u plan IHplan]; simpl; constructor;
          [|exact IHplan].
        exists cfg, k. repeat split; try assumption. right. eauto.
      * eapply Forall_impl; [exact IHa|].
        intros r (cfg' & k & Hin & Hc & Hk & Ha).
        exists cfg', k. repeat split; try assumption. right. exact Hin.
Qed.

End TargetTrace.

(** X9.  A sync of revision 1.1.0 reads every target that has a base and a
    table identifier exactly once, in the order of the list, whatever
    happened with the targets before it (a failed read, failed updates,
    nothing to update); blank targets are not read.  Every request of the
    run is the read request or an update request of one of these targets
    and carries the stored API key; without a stored key the run sends
    nothing. *)
Theorem every_configured_target_is_read_once `{Host}
    (targets : list MultiTarget.target) (w : world) :
  let apiKey :=
    MultiTarget.usable (props w !! MultiTarget.AIRTABLE_API_KEY_PROP) in
  reads (added (MultiTarget.syncTargets targets) w)
  = match apiKey with
    | Some apiKey =>
        List.map (fun cfg => MultiTarget.recordsRequest cfg apiKey)
          (List.filter configured targets)
    | None => []
    end
  /\ Forall (fun r =>
               exists cfg k,
                 cfg ∈ targets /\ configured cfg = true
                 /\ apiKey = Some k /\ addressed cfg k r)
            (requests (added (MultiTarget.syncTargets targets) w)).
Proof.
  intros apiKey. unfold MultiTarget.syncTargets.
  assert (forall a : unit,
            effects anything
              (MultiTarget.forEachTarget targets ;;;
               logMessage [T "Sync completed for all configured targets"]))
    as Hk.
  { intros. repeat (effects_step
                    || apply effects_MultiTarget_forEachTarget);
      intros; exact I. }
  rewrite added_bind; [|repeat effects_step; exact I | exact Hk].
  rewrite added_logMessage.
  set (w0 := (logMessage [T "Starting multi-destination sync process..."]
                w).2).
  rewrite added_bind;
    [|apply effects_MultiTarget_forEachTarget; intros; exact I
     |intros; repeat effects_step; exact I].
  rewrite added_logMessage.
  destruct (MultiTarget_forEachTarget_requests targets w0) as (_ & R & A).
  change (props w0) with (props w) in R, A. fold apiKey in R, A.
  split.
  - rewrite !reads_app, R. simpl. apply app_nil_r.
  - rewrite !requests_app. simpl. rewrite app_nil_r. exact A.
Qed.

(** ** The automatic entry points *)

Section EntryPoints.
Context `{Host}.

(** What [onEdit] does, case by case. *)
Lemma onEdit_cases (key activeSheet : string) (w : world) :
  let stamp :=
    Date_toISOString
      (Date_now (GetProperty RATE_LIMIT_PROP_KEY :: history w)) in
  Script.onEdit key activeSheet w
  = if negb (String.eqb activeSheet SHEET_NAME) then (tt, w)
    else if (shouldRespectRateLimit Script.RATE_LIMIT_HOURS w).1
    then (tt, {| props := props w;
                 history :=
                   Log INFO [T "Edit detected, but skipping auto-sync due to rate limiting"]
                   :: GetProperty RATE_LIMIT_PROP_KEY :: history w |})
    else Script.syncData key
           {| props := <[RATE_LIMIT_PROP_KEY := stamp]> (props w);
              history :=
                Log INFO [T "Edit detected, running auto-sync"]
                :: SetProperty RATE_LIMIT_PROP_KEY stamp
                :: GetProperty RATE_LIMIT_PROP_KEY :: history w |}.
Proof.
  intros stamp. unfold Script.onEdit.
  destruct (negb (String.eqb activeSheet SHEET_NAME)); [reflexivity|].
  unfold bind at 1.
  pose proof (shouldRespectRateLimit_world Script.RATE_LIMIT_HOURS w) as Hw.
  destruct (shouldRespectRateLimit Script.RATE_LIMIT_HOURS w) as [skip w1].
  simpl in Hw. subst w1. destruct skip; reflexivity.
Qed.

(** What [hourlyAutoSync] does, case by case. *)
Lemma hourlyAutoSync_cases (w : world) :
  let triggered := Log INFO [T "Hourly auto-sync triggered"] :: history w in
  let stamp :=
    Date_toISOString
      (Date_now (GetProperty RATE_LIMIT_PROP_KEY :: triggered)) in
  MultiTarget.hourlyAutoSync w
  = if (shouldRespectRateLimit MultiTarget.RATE_LIMIT_HOURS
          {| props := props w; history := triggered |}).1
    then (tt, {| props := props w;
                 history :=
                   Log INFO [T "Hourly auto-sync triggered, but skipping due to rate limiting"]
                   :: GetProperty RATE_LIMIT_PROP_KEY :: triggered |})
    else MultiTarget.syncData
           {| props := <[RATE_LIMIT_PROP_KEY := stamp]> (props w);
              history :=
                SetProperty RATE_LIMIT_PROP_KEY stamp
                :: GetProperty RATE_LIMIT_PROP_KEY :: triggered |}.
Proof.
  intros triggered stamp. unfold MultiTarget.hourlyAutoSync.
  unfold bind at 1.
  change (logMessage [T "Hourly auto-sync triggered"] w)
    with (tt, {| props := props w; history := triggered |}).
  unfold bind at 1.
  pose proof (shouldRespectRateLimit_world MultiTarget.RATE_LIMIT_HOURS
                {| props := props w; history := triggered |}) as Hw.
  destruct (shouldRespectRateLimit MultiTarget.RATE_LIMIT_HOURS _)
    as [skip w1].
  simpl in Hw. subst w1. destruct skip; reflexivity.
Qed.

End EntryPoints.

(** X10.  [onEdit] sends requests only when the edit is in the data sheet and
    the rate limit does not apply.  An edit in another sheet adds nothing at
    all; an edit within the rate limit adds the reading of the timestamp and
    one log row; otherwise the timestamp is stored and announced before the
    run of [syncData], whose first request is the read request. *)
Theorem onEdit_sends_only_when_due `{Host} (key activeSheet : string)
    (w : world) :
  let due :=
    String.eqb activeSheet SHEET_NAME
    && negb (shouldRespectRateLimit Script.RATE_LIMIT_HOURS w).1 in
  let stamp :=
    Date_toISOString
      (Date_now (GetProperty RATE_LIMIT_PROP_KEY :: history w)) in
  let announced :=
    [ Log INFO [T "Edit detected, running auto-sync"];
      SetProperty RATE_LIMIT_PROP_KEY stamp;
      GetProperty RATE_LIMIT_PROP_KEY ] in
  added (Script.onEdit key activeSheet) w
  = (if negb (String.eqb activeSheet SHEET_NAME) then []
     else if (shouldRespectRateLimit Script.RATE_LIMIT_HOURS w).1
     then [ Log INFO [T "Edit detected, but skipping auto-sync due to rate limiting"];
            GetProperty RATE_LIMIT_PROP_KEY ]
     else added (Script.syncData key)
            {| props := <[RATE_LIMIT_PROP_KEY := stamp]> (props w);
               history := announced ++ history w |}
          ++ announced)
  /\ exists plan,
       requests (added (Script.onEdit key activeSheet) w)
       = if due
         then Script.recordsRequest key
              :: List.map (Script.updateRequest key) plan
         else [].
Proof.
  intros due stamp announced.
  assert (effects anything (Script.syncData key)) as Hm
    by (apply effects_Script_syncData; intros; exact I).
  set (stamped := {| props := <[RATE_LIMIT_PROP_KEY := stamp]> (props w);
                     history := announced ++ history w |}).
  assert (added (Script.onEdit key activeSheet) w
          = (if negb (String.eqb activeSheet SHEET_NAME) then []
             else if (shouldRespectRateLimit Script.RATE_LIMIT_HOURS w).1
             then [ Log INFO [T "Edit detected, but skipping auto-sync due to rate limiting"];
                    GetProperty RATE_LIMIT_PROP_KEY ]
             else added (Script.syncData key) stamped ++ announced)) as E.
  { apply added_of_history. rewrite onEdit_cases.
    destruct (negb (String.eqb activeSheet SHEET_NAME)); [reflexivity|].
    destruct (shouldRespectRateLimit Script.RATE_LIMIT_HOURS w).1;
      [reflexivity|].
    fold stamp. change (Script.syncData key _) with (Script.syncData key stamped).
    destruct (effects_added anything _ stamped Hm) as [-> _]. simpl.
    rewrite <- app_assoc. reflexivity. }
  split; [exact E|].
  pose proof (Script_syncData_run key stamped) as Hrun. cbv zeta in Hrun.
  destruct Hrun as (closing & R & _).
  eexists. rewrite E. unfold due.
  destruct (String.eqb activeSheet SHEET_NAME); simpl; [|reflexivity].
  destruct (shouldRespectRateLimit Script.RATE_LIMIT_HOURS w).1; simpl;
    [reflexivity|].
  rewrite requests_app, R. simpl. reflexivity.
Qed.

(** X11.  An automatic sync that ran suppresses the edits of the following
    hour.  When [onEdit] has let a sync proceed at time [t0], and the
    platform reads back the timestamp it wrote, then in every later world
    that still holds this timestamp (after further edits within the hour, or
    after manual syncs) an edit less than [RATE_LIMIT_HOURS] after [t0]
    reads the timestamp, logs one row, and sends and stores nothing. *)
Theorem auto_sync_suppresses_edits_within_the_hour `{Host} (key : string)
    (w later : world) :
  let t0 := Date_now (GetProperty RATE_LIMIT_PROP_KEY :: history w) in
  let synced := (Script.onEdit key SHEET_NAME w).2 in
  let t1 := Date_now (GetProperty RATE_LIMIT_PROP_KEY :: history later) in
  (shouldRespectRateLimit Script.RATE_LIMIT_HOURS w).1 = false ->
  Date_toISOString t0 <> "" ->
  Date_parse (Date_toISOString t0) = t0 ->
  props later !! RATE_LIMIT_PROP_KEY = props synced !! RATE_LIMIT_PROP_KEY ->
  (elapsedHours t0 t1 <? Script.RATE_LIMIT_HOURS)%float = true ->
  Script.onEdit key SHEET_NAME later
  = (tt, {| props := props later;
            history :=
              Log INFO [T "Edit detected, but skipping auto-sync due to rate limiting"]
              :: GetProperty RATE_LIMIT_PROP_KEY :: history later |}).
Proof.
  intros t0 synced t1 Hdue Hstamp Hback Hsame Hsoon.
  assert (props synced !! RATE_LIMIT_PROP_KEY = Some (Date_toISOString t0))
    as Hsynced.
  { unfold synced. rewrite onEdit_props, Hdue. simpl.
    apply lookup_insert_eq. }
  rewrite onEdit_cases. simpl.
  rewrite shouldRespectRateLimit_value, Hsame, Hsynced, Hback.
  fold t1. rewrite Hsoon.
  assert (JS.string_truthy (Date_toISOString t0) = true) as ->.
  { apply negb_true_iff, String.eqb_neq, Hstamp. }
  reflexivity.
Qed.

(** A first edit at noon runs the sync; a manual sync follows; the next
    edit, still at noon, is suppressed. *)
Lemma auto_sync_suppresses_edits_witness :
  Script.onEdit (H := Scenario.host) "key" SHEET_NAME
    (Script.manualSyncData (H := Scenario.host) "key"
       (Script.onEdit (H := Scenario.host) "key" SHEET_NAME
          Scenario.fresh).2).2
  = (tt,
     {| props :=
          props (Script.manualSyncData (H := Scenario.host) "key"
                   (Script.onEdit (H := Scenario.host) "key" SHEET_NAME
                      Scenario.fresh).2).2;
        history :=
          Log INFO [T "Edit detected, but skipping auto-sync due to rate limiting"]
          :: GetProperty RATE_LIMIT_PROP_KEY
          :: history
               (Script.manualSyncData (H := Scenario.host) "key"
                  (Script.onEdit (H := Scenario.host) "key" SHEET_NAME
                     Scenario.fresh).2).2 |}).
Proof.
  apply (auto_sync_suppresses_edits_within_the_hour (H := Scenario.host)
           "key" Scenario.fresh).
  - reflexivity.
  - discriminate.
  - vm_compute. reflexivity.
  - vm_compute. reflexivity.
  - vm_compute. reflexivity.
Defined.

(** X12.  The same for the hourly trigger of revision 1.1.0 and its quarter
    of an hour: [hourlyAutoSync] always logs that it was triggered; when it
    has let a sync proceed at time [t0], a later run that still finds this
    timestamp less than [RATE_LIMIT_HOURS] after [t0] reads the timestamp,
    logs that it skips, and sends and stores nothing. *)
Theorem hourly_sync_suppresses_runs_within_the_quarter `{Host}
    (w later : world) :
  let triggered (w : world) :=
    {| props := props w;
       history := Log INFO [T "Hourly auto-sync triggered"] :: history w |} in
  let t0 :=
    Date_now (GetProperty RATE_LIMIT_PROP_KEY :: history (triggered w)) in
  let synced := (MultiTarget.hourlyAutoSync w).2 in
  let t1 :=
    Date_now (GetProperty RATE_LIMIT_PROP_KEY :: history (triggered later)) in
  (shouldRespectRateLimit MultiTarget.RATE_LIMIT_HOURS (triggered w)).1
  = false ->
  Date_toISOString t0 <> "" ->
  Date_parse (Date_toISOString t0) = t0 ->
  props later !! RATE_LIMIT_PROP_KEY = props synced !! RATE_LIMIT_PROP_KEY ->
  (elapsedHours t0 t1 <? MultiTarget.RATE_LIMIT_HOURS)%float = true ->
  MultiTarget.hourlyAutoSync later
  = (tt, {| props := props later;
            history :=
              Log INFO [T "Hourly auto-sync triggered, but skipping due to rate limiting"]
              :: GetProperty RATE_LIMIT_PROP_KEY
              :: history (triggered later) |}).
Proof.
  intros triggered t0 synced t1 Hdue Hstamp Hback Hsame Hsoon.
  assert (props synced !! RATE_LIMIT_PROP_KEY = Some (Date_toISOString t0))
    as Hsynced.
  { unfold synced. rewrite hourlyAutoSync_props.
    change {| props := props w;
              history := Log INFO [T "Hourly auto-sync triggered"]
                         :: history w |} with (triggered w).
    rewrite Hdue. apply lookup_insert_eq. }
  rewrite hourlyAutoSync_cases.
  change {| props := props later;
            history := Log INFO [T "Hourly auto-sync triggered"]
                       :: history later |} with (triggered later).
  rewrite shouldRespectRateLimit_value.
  change (props (triggered later)) with (props later).
  rewrite Hsame, Hsynced, Hback. fold t1. rewrite Hsoon.
  assert (JS.string_truthy (Date_toISOString t0) = true) as ->.
  { apply negb_true_iff, String.eqb_neq, Hstamp. }
  reflexivity.
Qed.

(** A first hourly run at noon syncs; the next one, still at noon, skips. *)
Lemma hourly_sync_suppresses_runs_witness :
  MultiTarget.hourlyAutoSync (H := Scenario.host)
    (MultiTarget.hourlyAutoSync (H := Scenario.host) Scenario.keyed).2
  = (tt,
     {| props :=
          props (MultiTarget.hourlyAutoSync (H := Scenario.host)
                   Scenario.keyed).2;
        history :=
          Log INFO [T "Hourly auto-sync triggered, but skipping due to rate limiting"]
          :: GetProperty RATE_LIMIT_PROP_KEY
          :: Log INFO [T "Hourly auto-sync triggered"]
          :: history (MultiTarget.hourlyAutoSync (H := Scenario.host)
                        Scenario.keyed).2 |}).
Proof.
  apply (hourly_sync_suppresses_runs_within_the_quarter (H := Scenario.host)
           Scenario.keyed).
  - reflexivity.
  - discriminate.
  - vm_compute. reflexivity.
  - reflexivity.
  - vm_compute. reflexivity.
Defined.

(** ** The [ERROR] rows of a run *)

Lemma errorRows_no_error (es : list event) :
  Forall no_error es -> errorRows es = 0.
Proof.
  intros Hes. induction Hes as [|e es He _ IH]; [reflexivity|].
  change (e :: es) with ([e] ++ es). rewrite errorRows_app, IH.
  destruct e as [[] m| | | |]; try reflexivity. destruct He.
Qed.

Lemma errorRows_added_no_error {A} (m : M A) (w : world) :
  effects no_error m -> errorRows (added m w) = 0.
Proof.
  intros Hm. apply errorRows_no_error. apply (effects_added no_error), Hm.
Qed.

Section ErrorRows.
Context `{Host}.

Lemma accepted_app (es1 es2 before : list event) :
  accepted (es1 ++ es2) before
  = accepted es1 (es2 ++ before) + accepted es2 before.
Proof.
  induction es1 as [|e es1 IH]; [reflexivity|].
  destruct e; simpl; rewrite IH; try reflexivity.
  rewrite <- app_assoc. lia.
Qed.

Lemma accepted_no_update (es before : list event) :
  Forall no_update es -> accepted es before = 0.
Proof.
  intros Hes. induction Hes as [|e es He _ IH]; [reflexivity|].
  destruct e; simpl; try exact IH. simpl in He. rewrite He. exact IH.
Qed.

Lemma accepted_added_no_update {A} (m : M A) (w : world)
    (before : list event) :
  effects no_update m -> accepted (added m w) before = 0.
Proof.
  intros Hm. apply accepted_no_update. apply (effects_added no_update), Hm.
Qed.

(** Of update requests, the accepted are those answered with HTTP 200. *)
Lemma accepted_updates (es before : list event) :
  Forall (fun r => req_method r = PATCH) (requests es) ->
  accepted es before = successes es before.
Proof.
  induction es as [|e es IH]; intros Hes; [reflexivity|].
  change (e :: es) with ([e] ++ es) in Hes. rewrite requests_app in Hes.
  apply Forall_app in Hes as [Hes He].
  destruct e; simpl; try (apply IH, Hes).
  apply Forall_cons in He as [He _]. rewrite He, (IH Hes). reflexivity.
Qed.

(** The rows the row loop of [getSheetData] logs are [INFO] rows. *)
Lemma no_error_scanRows values formSlugs fi di ni remaining :
  forall i st,
    effects no_error (scanRows values formSlugs fi di ni remaining i st).
Proof.
  induction remaining as [|n IH]; intros i st; simpl.
  - effects_step.
  - effects_step; [|apply IH]. unfold scanRow. repeat effects_step.
Qed.

(** [getSheetData] writes one [ERROR] row when the sheet is not readable,
    and none otherwise; it sends nothing. *)
Lemma getSheetData_errorRows (airtableRecords : list RemoteRecord)
    (w : world) :
  errorRows (added (getSheetData airtableRecords) w)
  = if readable
         (getSheetValues
            (Log INFO [T "Retrieving data from Google Sheets..."]
             :: history w) SHEET_NAME)
    then 0 else 1.
Proof.
  destruct (readable _) eqn:Hr.
  - apply errorRows_no_error.
    assert (exists es,
              history (getSheetData airtableRecords w).2 = es ++ history w
              /\ Forall no_error es) as (es & E & F).
    { unfold readable in Hr. unfold getSheetData, bind, readSheet,
        logMessage, logError, emit. simpl.
      destruct (getSheetValues _ SHEET_NAME) as [[|headers [|row rows]]|];
        try discriminate.
      change (length (headers :: row :: rows) <=? 1)%nat with false.
      cbv iota. cbn [nth].
      destruct (JS.array_indexOf headers "form_name") as [fi|];
        [|discriminate].
      destruct (JS.array_indexOf headers "dollars_raised") as [di|];
        [|discriminate].
      destruct (JS.array_indexOf headers "num_of_donations") as [ni|];
        [|discriminate].
      match goal with
      | |- context [scanRows ?v ?k ?a ?b ?c ?n ?i ?s ?w0] =>
          destruct (no_error_scanRows v k a b c n i s w0) as (es & E & F);
          destruct (scanRows v k a b c n i s w0) as [st w1]
      end.
      simpl in E. subst w1. simpl.
      eexists (Log INFO _ :: es ++ [Log INFO _; Log INFO _; Log INFO _]).
      split.
      - simpl. rewrite <- app_assoc. reflexivity.
      - constructor; [exact I|]. apply Forall_app. split; [exact F|].
        repeat constructor. }
    rewrite (added_of_history _ _ _ E). exact F.
  - assert (exists es,
              history (getSheetData airtableRecords w).2 = es ++ history w
              /\ errorRows es = 1) as (es & E & F).
    { unfold readable in Hr. unfold getSheetData, bind, readSheet,
        logMessage, logError, emit. simpl.
      destruct (getSheetValues _ SHEET_NAME) as [[|headers [|row rows]]|];
        try (eexists [_; _]; split; reflexivity);
        try (eexists [_; _; _]; split; reflexivity).
      change (length (headers :: row :: rows) <=? 1)%nat with false.
      cbv iota. cbn [nth].
      destruct (JS.array_indexOf headers "form_name") as [fi|];
        [|eexists [_; _; _]; split; reflexivity].
      destruct (JS.array_indexOf headers "dollars_raised") as [di|];
        [|eexists [_; _; _]; split; reflexivity].
      destruct (JS.array_indexOf headers "num_of_donations") as [ni|];
        [|eexists [_; _; _]; split; reflexivity].
      discriminate. }
    rewrite (added_of_history _ _ _ E). exact F.
Qed.

(** [fetchAirtableRecords] writes one [ERROR] row when the read request is
    not answered with records, and none otherwise. *)
Lemma Script_fetchAirtableRecords_errorRows (key : string) (w : world) :
  errorRows (added (Script.fetchAirtableRecords key) w)
  = if answered
         (UrlFetchApp_fetch
            (Log INFO [T "Fetching records from Airtable..."] :: history w)
            (Script.recordsRequest key))
    then 0 else 1.
Proof.
  assert (exists es,
            history (Script.fetchAirtableRecords key w).2 = es ++ history w
            /\ errorRows es
               = if answered
                      (UrlFetchApp_fetch
                         (Log INFO [T "Fetching records from Airtable..."]
                          :: history w) (Script.recordsRequest key))
                 then 0 else 1) as (es & E & F).
  { unfold Script.fetchAirtableRecords, bind, logMessage, logError, fetch,
      emit. simpl.
    destruct (UrlFetchApp_fetch _ _) as [msg|code [msg|[records|]]];
      eexists [_; _; _]; split; reflexivity. }
  rewrite (added_of_history _ _ _ E). exact F.
Qed.

(** [updateAirtable] writes one [ERROR] row for every update that is not
    accepted. *)
Lemma Script_updateAirtable_errorRows (key : string)
    (processedData : list UpdateInstruction) (w : world) :
  errorRows (added (Script.updateAirtable key processedData) w)
  + accepted (added (Script.updateAirtable key processedData) w) (history w)
  = length processedData.
Proof.
  assert (exists first last es,
            history (Script.updateAirtable key processedData w).2
            = ([Log INFO last] ++ es ++ [Log INFO first]) ++ history w
            /\ errorRows es + successes es (Log INFO first :: history w)
               = length processedData
            /\ requests es
               = List.map (Script.updateRequest key) processedData)
    as (first & last & es & E & B & R).
  { unfold Script.updateAirtable, bind, logMessage, emit. simpl.
    match goal with
    | |- context [updateEach ?f ?l ?i ?c ?w0] =>
        destruct (updateEach_trace f l 0 0 0 w0)
          as (es & E & _ & B & _ & _);
        destruct (updateEach_attempts f l 0 0 0 w0)
          as (es' & E' & R & _ & _);
        destruct (updateEach f l i c w0) as [[s e] w1]
    end.
    simpl in E, E', B. subst w1. injection E' as E'.
    apply app_inv_tail in E'. subst es'. simpl.
    eexists _, _, es. split; [|split; [exact B | exact R]].
    rewrite <- !app_assoc. reflexivity. }
  rewrite (added_of_history _ _ _ E).
  rewrite !errorRows_app, !accepted_app. simpl.
  change (errorRows [Log INFO first]) with 0.
  change (errorRows [Log INFO last]) with 0.
  rewrite (accepted_updates es).
  - simpl. lia.
  - rewrite R. clear. induction processedData; constructor; auto.
Qed.

End ErrorRows.

Section SyncErrors.
Context `{Host}.

Lemma accepted_le_patches (es before : list event) :
  accepted es before <= length (patches es).
Proof.
  induction es as [|e es IH]; [reflexivity|].
  change (e :: es) with ([e] ++ es) at 2. rewrite patches_app, length_app.
  destruct e; cbn [accepted];
    try (change (patches [_]) with (@nil request); simpl length; lia).
  assert (length (patches [Fetch r])
          = match req_method r with PATCH => 1 | GET => 0 end) as ->.
  { unfold patches, requests. simpl. destruct (req_method r); reflexivity. }
  destruct (req_method r); [lia|]. destruct (succeeded _); lia.
Qed.

Lemma errorRows_info (m : list frag) : errorRows [Log INFO m] = 0.
Proof. reflexivity. Qed.

Lemma history_added {A} (m : M A) (w : world) :
  effects anything m -> history (m w).2 = added m w ++ history w.
Proof.
  intros Hm. destruct (effects_added anything m w Hm) as [E _].
  rewrite E at 1. reflexivity.
Qed.

(** The [ERROR] rows and the accepted updates of a run of [syncData]. *)
Lemma Script_syncData_errorRows (key : string) (w : world) :
  let records := validRecords Script.actBlueUrlOf (carried (answer key w)) in
  let es := added (Script.syncData key) w in
  errorRows es + accepted es (history w)
  = (if answered (answer key w) then 0 else 1)
    + (if negb (length records =? 0)%nat
          && negb (readable (sheetRead key w))
       then 1 else 0)
    + length (patches es).
Proof.
  destruct (Script_syncData_reads key w) as [Hrecs Hsheet].
  unfold Script.syncData.
  rewrite added_bind; [|sync_effects..].
  rewrite added_logMessage.
  set (w0 := (logMessage [T "Starting sync process..."] w).2) in *.
  rewrite added_bind; [|sync_effects..].
  pose proof (Script_fetchAirtableRecords_errorRows key w0) as Herr0.
  change (UrlFetchApp_fetch
            (Log INFO [T "Fetching records from Airtable..."] :: history w0)
            (Script.recordsRequest key)) with (answer key w) in Herr0.
  assert (effects no_update (Script.fetchAirtableRecords key)) as Hnu0
    by apply no_update_Script_fetchAirtableRecords.
  pose proof (history_added (Script.fetchAirtableRecords key) w0
                ltac:(sync_effects)) as Hh1.
  set (w1 := (Script.fetchAirtableRecords key w0).2) in *.
  cbv zeta. rewrite <- Hrecs.
  set (airtableRecords := (Script.fetchAirtableRecords key w0).1) in *.
  set (a0 := added (Script.fetchAirtableRecords key) w0) in *.
  destruct (length airtableRecords =? 0)%nat eqn:Hn.
  { rewrite added_logMessage.
    rewrite !errorRows_app, !accepted_app, !patches_app, !length_app, Herr0.
    rewrite (accepted_no_update a0)
      by (apply (effects_added no_update), Hnu0).
    rewrite (patches_no_update a0)
      by (apply (effects_added no_update), Hnu0).
    rewrite ?errorRows_info. simpl. lia. }
  rewrite <- (Hsheet eq_refl).
  rewrite added_bind; [|sync_effects..].
  pose proof (getSheetData_errorRows airtableRecords w1) as Herr1.
  assert (effects no_update (getSheetData airtableRecords)) as Hnu1
    by sync_effects.
  assert (Forall (sound (List.map r_formSlug airtableRecords))
                 (getSheetData airtableRecords w1).1) as Hsound.
  { rewrite getSheetData_value. apply sheetRowsOf_sound. }
  assert ((getSheetData airtableRecords w1).1 <> [] ->
          readable
            (getSheetValues
               (Log INFO [T "Retrieving data from Google Sheets..."]
                :: history w1) SHEET_NAME) = true) as Hread.
  { rewrite getSheetData_value. unfold sheetRowsOf, readable.
    destruct (getSheetValues _ SHEET_NAME) as [[|headers rows]|];
      try contradiction.
    destruct (JS.array_indexOf headers "form_name"); [|contradiction].
    destruct (JS.array_indexOf headers "dollars_raised"); [|contradiction].
    destruct (JS.array_indexOf headers "num_of_donations"); [|contradiction].
    destruct rows; [contradiction|]. intros _.
    rewrite !bool_decide_eq_true_2 by eauto. reflexivity. }
  pose proof (history_added (getSheetData airtableRecords) w1
                ltac:(sync_effects)) as Hh2.
  set (sheetData := (getSheetData airtableRecords w1).1) in *.
  set (w2 := (getSheetData airtableRecords w1).2) in *.
  set (a1 := added (getSheetData airtableRecords) w1) in *.
  destruct (length sheetData =? 0)%nat eqn:Hs.
  { rewrite added_logMessage.
    rewrite !errorRows_app, !accepted_app, !patches_app, !length_app,
      Herr0, Herr1.
    rewrite (accepted_no_update a0), (accepted_no_update a1)
      by (apply (effects_added no_update); assumption).
    rewrite (patches_no_update a0), (patches_no_update a1)
      by (apply (effects_added no_update); assumption).
    rewrite ?errorRows_info. simpl.
    destruct (answered _), (readable _); simpl; lia. }
  rewrite Hread in *
    by (intros Hnil; rewrite Hnil in Hs; discriminate).
  rewrite added_bind; [|sync_effects..].
  assert (effects no_update (processData airtableRecords sheetData)) as Hnu2
    by sync_effects.
  assert (effects no_error (processData airtableRecords sheetData)) as Hne2
    by (unfold processData; repeat effects_step).
  pose proof (history_added (processData airtableRecords sheetData) w2
                ltac:(sync_effects)) as Hh3.
  set (processedData := (processData airtableRecords sheetData w2).1).
  set (w3 := (processData airtableRecords sheetData w2).2) in *.
  set (a2 := added (processData airtableRecords sheetData) w2) in *.
  assert (errorRows a2 = 0) as Herr2
    by (apply errorRows_no_error, (effects_added no_error), Hne2).
  destruct (length processedData =? 0)%nat eqn:Hp.
  { rewrite added_logMessage.
    rewrite !errorRows_app, !accepted_app, !patches_app, !length_app,
      Herr0, Herr1, Herr2.
    rewrite (accepted_no_update a0), (accepted_no_update a1),
      (accepted_no_update a2)
      by (apply (effects_added no_update); assumption).
    rewrite (patches_no_update a0), (patches_no_update a1),
      (patches_no_update a2)
      by (apply (effects_added no_update); assumption).
    rewrite ?errorRows_info. simpl. destruct (answered _); simpl; lia. }
  rewrite added_bind; [|sync_effects..].
  rewrite added_logMessage.
  pose proof (Script_updateAirtable_errorRows key processedData w3) as Herr3.
  pose proof (Script_updateAirtable_patches key processedData w3) as Hpat.
  set (a3 := added (Script.updateAirtable key processedData) w3) in *.
  rewrite !errorRows_app, !accepted_app, !patches_app, !length_app,
    Herr0, Herr1, Herr2.
  rewrite (accepted_no_update a0), (accepted_no_update a1),
    (accepted_no_update a2)
    by (apply (effects_added no_update); assumption).
  rewrite (patches_no_update a0), (patches_no_update a1),
    (patches_no_update a2)
    by (apply (effects_added no_update); assumption).
  rewrite Hpat, length_map.
  replace (a2 ++ a1 ++ a0 ++ [Log INFO [T "Starting sync process..."]]
           ++ history w) with (history w3).
  2:{ rewrite Hh3, Hh2, Hh1. reflexivity. }
  rewrite ?errorRows_info. simpl. rewrite ?Hn. simpl.
  destruct (answered _); simpl; lia.
Qed.

End SyncErrors.

(** X13.  The [ERROR] rows of a run of [syncData] account for its failures:
    there is one when the answer the run gets to its read request ([answer])
    carries no records, one when there are valid records and the data sheet
    as the run finds it ([sheetRead]) is not readable (it is missing, has no
    row under its first row, or lacks one of the three column names), and
    one for each update that is not accepted; there is no other.  So a run
    that writes no [ERROR] row was answered with records and had every
    update it sent accepted. *)
Theorem syncData_error_rows_account_for_failures `{Host} (key : string)
    (w : world) :
  let records := validRecords Script.actBlueUrlOf (carried (answer key w)) in
  let es := added (Script.syncData key) w in
  errorRows es + accepted es (history w)
  = (if answered (answer key w) then 0 else 1)
    + (if negb (length records =? 0)%nat
          && negb (readable (sheetRead key w))
       then 1 else 0)
    + length (patches es)
  /\ (errorRows es = 0 ->
      answered (answer key w) = true
      /\ accepted es (history w) = length (patches es)).
Proof.
  pose proof (Script_syncData_errorRows key w) as E.
  cbv zeta in *. split; [exact E|].
  intros Hzero.
  pose proof (accepted_le_patches (added (Script.syncData key) w)
                (history w)) as Hle.
  rewrite Hzero in E.
  destruct (answered _); [|simpl in E; lia].
  split; [reflexivity|].
  destruct (negb _ && negb _); simpl in E; lia.
Qed.

(** ** The triggers of the project *)

Section Triggers.
Import Workbook Journal.

Lemma deleteTrigger_fold (ts : list trigger) :
  forall p,
    let p' := fold_left (fun p t => deleteTrigger t p) ts p in
    triggers p'
    = List.filter
        (fun t' => negb (existsb (fun t => (uniqueId t' =? uniqueId t)%nat) ts))
        (triggers p)
    /\ logs p' = logs p /\ active p' = active p /\ shown p' = shown p.
Proof.
  induction ts as [|t ts IH]; intros p; cbn [fold_left].
  - split; [|repeat split]. simpl.
    induction (triggers p) as [|t' l IHl]; [reflexivity|].
    simpl. rewrite <- IHl. reflexivity.
  - destruct (IH (deleteTrigger t p)) as (-> & -> & -> & ->).
    split; [|repeat split]. cbn [deleteTrigger triggers existsb].
    induction (triggers p) as [|t' l IHl]; [reflexivity|].
    cbn [List.filter]. destruct (uniqueId t' =? uniqueId t)%nat;
      cbn [negb orb List.filter]; rewrite IHl; reflexivity.
Qed.

Lemma deleteIfHourly_fold (ts : list trigger) :
  forall p,
    let p' := fold_left MultiTargetMenu.deleteIfHourly ts p in
    triggers p'
    = List.filter
        (fun t' => negb (existsb (fun t => hourly t
                                           && (uniqueId t' =? uniqueId t)%nat)
                           ts))
        (triggers p)
    /\ logs p' = logs p /\ active p' = active p /\ shown p' = shown p.
Proof.
  induction ts as [|t ts IH]; intros p; cbn [fold_left].
  - split; [|repeat split]. simpl.
    induction (triggers p) as [|t' l IHl]; [reflexivity|].
    simpl. rewrite <- IHl. reflexivity.
  - destruct (IH (MultiTargetMenu.deleteIfHourly p t)) as (-> & -> & -> & ->).
    unfold MultiTargetMenu.deleteIfHourly, hourly. cbn [existsb].
    destruct (String.eqb (handlerFunction t) "hourlyAutoSync");
      cbn [andb orb]; [|repeat split].
    split; [|repeat split]. cbn [deleteTrigger triggers].
    induction (triggers p) as [|t' l IHl]; [reflexivity|].
    cbn [List.filter]. destruct (uniqueId t' =? uniqueId t)%nat;
      cbn [negb orb List.filter]; rewrite IHl; reflexivity.
Qed.

(** A trigger is found among triggers by its own identifier. *)
Lemma filter_own_id (ts : list trigger) :
  List.filter
    (fun t' => negb (existsb (fun t => (uniqueId t' =? uniqueId t)%nat) ts))
    ts = [].
Proof.
  assert (forall l,
            (forall t', t' ∈ l -> t' ∈ ts) ->
            List.filter
              (fun t' =>
                 negb (existsb (fun t => (uniqueId t' =? uniqueId t)%nat) ts))
              l = []) as Hall; [|apply Hall; auto].
  induction l as [|t' l IHl]; intros Hsub; [reflexivity|].
  cbn [List.filter].
  assert (existsb (fun t => (uniqueId t' =? uniqueId t)%nat) ts = true) as ->.
  { apply existsb_exists. exists t'. split.
    - apply list_elem_of_In, Hsub. left.
    - apply Nat.eqb_refl. }
  apply IHl. intros t Ht. apply Hsub. right. exact Ht.
Qed.

(** With identifiers that are unique, the triggers for [hourlyAutoSync] are
    the ones found by the identifier of such a trigger. *)
Lemma filter_hourly_id (ts : list trigger) :
  NoDup (List.map uniqueId ts) ->
  List.filter
    (fun t' => negb (existsb (fun t => hourly t
                                       && (uniqueId t' =? uniqueId t)%nat) ts))
    ts
  = List.filter (fun t => negb (hourly t)) ts.
Proof.
  intros Hnd.
  assert (forall l,
            (forall t', t' ∈ l -> t' ∈ ts) ->
            List.filter
              (fun t' =>
                 negb (existsb (fun t => hourly t
                                         && (uniqueId t' =? uniqueId t)%nat)
                         ts)) l
            = List.filter (fun t => negb (hourly t)) l) as Hall;
    [|apply Hall; auto].
  induction l as [|t' l IHl]; intros Hsub; [reflexivity|].
  cbn [List.filter]. rewrite IHl by (intros t Ht; apply Hsub; right; exact Ht).
  assert (existsb (fun t => hourly t && (uniqueId t' =? uniqueId t)%nat) ts
          = hourly t') as ->; [|reflexivity].
  assert (t' ∈ ts) as Hin by (apply Hsub; left).
  destruct (hourly t') eqn:Hh.
  - apply existsb_exists. exists t'. split; [apply list_elem_of_In, Hin|].
    rewrite Hh, Nat.eqb_refl. reflexivity.
  - apply not_true_is_false. intros Hex.
    apply existsb_exists in Hex as (t & Ht & Hm).
    apply andb_prop in Hm as [Hth Hid]. apply Nat.eqb_eq in Hid.
    apply list_elem_of_In in Ht.
    assert (t' = t) as ->; [|congruence].
    clear -Hnd Hin Ht Hid. induction ts as [|t0 ts IH];
      [apply elem_of_nil in Hin; destruct Hin|].
    simpl in Hnd. apply NoDup_cons in Hnd as [Hfresh Hnd].
    apply elem_of_cons in Hin as [->|Hin];
      apply elem_of_cons in Ht as [->|Ht]; try reflexivity.
    + destruct Hfresh. rewrite Hid. apply list_elem_of_fmap. eauto.
    + destruct Hfresh. rewrite <- Hid. apply list_elem_of_fmap. eauto.
    + apply IH; assumption.
Qed.

End Triggers.

(** X14.  [setupTrigger] leaves the project with exactly one trigger, the
    edit trigger for [onEdit] it creates: every trigger the project had,
    whatever its handler, is deleted.  Running it again leaves one trigger
    again.  It changes nothing else but the log, to which it adds one
    row. *)
Theorem setupTrigger_leaves_one_trigger (newId newId' : nat)
    (now now' : float) (p : Workbook.project) :
  let installed (id : nat) :=
    {| Workbook.uniqueId := id; Workbook.handlerFunction := "onEdit";
       Workbook.eventType := Workbook.ON_EDIT |} in
  Workbook.triggers (ScriptMenu.setupTrigger newId now p) = [installed newId]
  /\ Workbook.triggers
       (ScriptMenu.setupTrigger newId' now'
          (ScriptMenu.setupTrigger newId now p))
     = [installed newId']
  /\ Workbook.shown (ScriptMenu.setupTrigger newId now p) = Workbook.shown p
  /\ Workbook.logs (ScriptMenu.setupTrigger newId now p)
     = Workbook.logs
         (Workbook.logMessage now "Edit trigger has been set up" p).
Proof.
  intros installed.
  assert (forall id t q,
            Workbook.triggers (ScriptMenu.setupTrigger id t q)
            = [installed id]) as Hone.
  { intros id t q. unfold ScriptMenu.setupTrigger.
    destruct (deleteTrigger_fold (Workbook.triggers q) q)
      as (Ht & Hl & Ha & Hs).
    rewrite filter_own_id in Ht.
    unfold Workbook.logMessage, Workbook.logsSheet, Workbook.create.
    cbn [Workbook.logs Workbook.triggers]. rewrite Ht.
    destruct (Workbook.logs _); reflexivity. }
  split; [apply Hone|]. split; [apply Hone|].
  unfold ScriptMenu.setupTrigger.
  destruct (deleteTrigger_fold (Workbook.triggers p) p)
    as (Ht & Hl & Ha & Hs).
  unfold Workbook.logMessage, Workbook.logsSheet, Workbook.create.
  cbn [Workbook.logs Workbook.triggers Workbook.active Workbook.shown].
  rewrite Hl, Ha, Hs. destruct (Workbook.logs p); split; reflexivity.
Qed.

(** X15.  With trigger identifiers that are unique, [installAutoSync]
    deletes the triggers for [hourlyAutoSync] and no other, and adds one
    hourly trigger for [hourlyAutoSync] after those it kept: the project
    then has exactly one such trigger.  Run again, under a new identifier,
    it replaces that trigger and creates no duplicate, as its confirmation
    says. *)
Theorem installAutoSync_keeps_one_hourly_trigger (newId newId' : nat)
    (now now' : float) (p : Workbook.project) :
  NoDup (List.map Workbook.uniqueId (Workbook.triggers p)) ->
  newId ∉ List.map Workbook.uniqueId (Workbook.triggers p) ->
  let installed (id : nat) :=
    {| Workbook.uniqueId := id;
       Workbook.handlerFunction := "hourlyAutoSync";
       Workbook.eventType := Workbook.CLOCK 1 |} in
  let kept :=
    List.filter (fun t => negb (Journal.hourly t)) (Workbook.triggers p) in
  Workbook.triggers (MultiTargetMenu.installAutoSync newId now p)
  = kept ++ [installed newId]
  /\ List.filter Journal.hourly
       (Workbook.triggers (MultiTargetMenu.installAutoSync newId now p))
     = [installed newId]
  /\ Workbook.triggers
       (MultiTargetMenu.installAutoSync newId' now'
          (MultiTargetMenu.installAutoSync newId now p))
     = kept ++ [installed newId'].
Proof.
  intros Hnd Hfresh installed kept.
  assert (forall id t q,
            NoDup (List.map Workbook.uniqueId (Workbook.triggers q)) ->
            Workbook.triggers (MultiTargetMenu.installAutoSync id t q)
            = List.filter (fun t => negb (Journal.hourly t))
                (Workbook.triggers q) ++ [installed id]) as Hone.
  { intros id t q Hq. unfold MultiTargetMenu.installAutoSync.
    destruct (deleteIfHourly_fold (Workbook.triggers q) q)
      as (Ht & Hl & Ha & Hs).
    rewrite filter_hourly_id in Ht by exact Hq.
    unfold Workbook.logMessage, Workbook.logsSheet, Workbook.create,
      Workbook.show.
    cbn [Workbook.logs Workbook.triggers]. rewrite Ht.
    destruct (Workbook.logs _); reflexivity. }
  assert (List.filter Journal.hourly kept = []) as Hnone.
  { unfold kept. induction (Workbook.triggers p) as [|t l IHl];
      [reflexivity|].
    cbn [List.filter]. destruct (Journal.hourly t) eqn:Hh; cbn [negb].
    - apply IHl.
      + simpl in Hnd. apply NoDup_cons in Hnd as [_ Hnd]. exact Hnd.
      + intros Hin. apply Hfresh. simpl. right. exact Hin.
    - cbn [List.filter]. rewrite Hh. apply IHl.
      + simpl in Hnd. apply NoDup_cons in Hnd as [_ Hnd]. exact Hnd.
      + intros Hin. apply Hfresh. simpl. right. exact Hin. }
  assert (List.filter (fun t => negb (Journal.hourly t)) kept = kept)
    as Hkept.
  { unfold kept. clear. induction (Workbook.triggers p) as [|t l IHl];
      [reflexivity|].
    cbn [List.filter]. destruct (Journal.hourly t) eqn:Hh; cbn [negb].
    - exact IHl.
    - cbn [List.filter]. rewrite Hh. cbn [negb]. rewrite IHl. reflexivity. }
  split; [apply Hone, Hnd|]. split.
  - rewrite (Hone _ _ _ Hnd). fold kept.
    rewrite List.filter_app, Hnone. reflexivity.
  - rewrite Hone.
    + rewrite (Hone _ _ _ Hnd). fold kept.
      rewrite List.filter_app, Hkept. cbn [List.filter Journal.hourly].
      rewrite app_nil_r. reflexivity.
    + rewrite (Hone _ _ _ Hnd). fold kept.
      rewrite List.map_app. apply NoDup_app. split; [|split].
      * unfold kept. clear -Hnd.
        induction (Workbook.triggers p) as [|t l IHl]; [constructor|].
        simpl in Hnd. apply NoDup_cons in Hnd as [Hf Hnd].
        cbn [List.filter]. destruct (negb (Journal.hourly t)).
        -- simpl. apply NoDup_cons. split; [|apply IHl, Hnd].
           intros Hin. apply Hf.
           apply list_elem_of_fmap in Hin as (t0 & -> & Hin).
           apply list_elem_of_fmap. exists t0. split; [reflexivity|].
           apply list_elem_of_In. apply list_elem_of_In in Hin.
           apply filter_In in Hin as [Hin _]. exact Hin.
        -- apply IHl, Hnd.
      * intros id Hin Hnew. simpl in Hnew.
        apply list_elem_of_singleton in Hnew. subst id.
        apply Hfresh.
        apply list_elem_of_fmap in Hin as (t0 & -> & Hin).
        apply list_elem_of_fmap. exists t0. split; [reflexivity|].
        apply list_elem_of_In. apply list_elem_of_In in Hin.
        apply filter_In in Hin as [Hin _]. exact Hin.
      * simpl. apply NoDup_singleton.
Qed.

(** Installed in a project that has an edit trigger, an hourly trigger and a
    trigger of the user's own: the hourly trigger is replaced and the two
    others are kept. *)
Lemma installAutoSync_keeps_one_hourly_trigger_witness :
  Workbook.triggers
    (MultiTargetMenu.installAutoSync 14 1709640000000%float Office.project)
  = [ {| Workbook.uniqueId := 11; Workbook.handlerFunction := "onEdit";
         Workbook.eventType := Workbook.ON_EDIT |};
      {| Workbook.uniqueId := 13; Workbook.handlerFunction := "sendReport";
         Workbook.eventType := Workbook.CLOCK 24 |};
      {| Workbook.uniqueId := 14;
         Workbook.handlerFunction := "hourlyAutoSync";
         Workbook.eventType := Workbook.CLOCK 1 |} ].
Proof.
  refine (proj1 (installAutoSync_keeps_one_hourly_trigger 14 15
                   1709640000000%float 1709640000000%float Office.project _ _)).
  - apply (bool_decide_unpack _). vm_compute. exact I.
  - apply (bool_decide_unpack _). vm_compute. exact I.
Defined.

(** ** The "Logs" sheet *)

Section LogsSheet.
Import Workbook Journal.

Lemma errorRowsFrom_app (n : nat) (rows1 rows2 : list (list JS.value)) :
  errorRowsFrom n (rows1 ++ rows2)
  = errorRowsFrom n rows1 ++ errorRowsFrom (n + length rows1) rows2.
Proof.
  revert n. induction rows1 as [|row rows1 IH]; intros n.
  - simpl. rewrite Nat.add_0_r. reflexivity.
  - cbn [app errorRowsFrom length]. rewrite IH.
    replace (S n + length rows1) with (n + S (length rows1)) by lia.
    destruct (isError row); reflexivity.
Qed.

(** One call: the row is added after the rows of the sheet, and coloured
    when it is an [ERROR] row. *)
Lemma write_once (p : project) (e : entry) :
  exists s,
    logs (write p e) = Some s
    /\ rows s = rows (base p) ++ [entryRow e]
    /\ frozenRows s = frozenRows (base p)
    /\ redRows s
       = redRows (base p)
         ++ errorRowsFrom (S (length (rows (base p)))) [entryRow e]
    /\ triggers (write p e) = triggers p
    /\ shown (write p e) = shown p.
Proof.
  assert (forall s0 : sheet,
            getLastRow (appendRow (entryRow e) s0) = S (length (rows s0)))
    as Hlast.
  { intros s0. unfold getLastRow, appendRow. cbn [rows].
    rewrite length_app. simpl. lia. }
  unfold base, write, logMessage, logError, logsSheet.
  destruct e as [now message|now errorMessage], (logs p) as [s0|];
    eexists; (split; [reflexivity|]); cbn [fst];
    repeat split; unfold redRows; cbn [formats appendRow setFormat];
    rewrite ?omap_app, ?app_nil_r; try reflexivity;
    cbn [entryRow] in Hlast; rewrite Hlast; reflexivity.
Qed.

(** A sequence of calls on a sheet that exists. *)
Lemma write_all (entries : list entry) :
  forall (p : project) (s0 : sheet),
    logs p = Some s0 ->
    exists s,
      logs (fold_left write entries p) = Some s
      /\ rows s = rows s0 ++ List.map entryRow entries
      /\ frozenRows s = frozenRows s0
      /\ redRows s
         = redRows s0
           ++ errorRowsFrom (S (length (rows s0))) (List.map entryRow entries)
      /\ triggers (fold_left write entries p) = triggers p
      /\ shown (fold_left write entries p) = shown p.
Proof.
  induction entries as [|e entries IH]; intros p s0 Hs0.
  - exists s0. simpl. rewrite !app_nil_r. repeat split. exact Hs0.
  - cbn [fold_left].
    destruct (write_once p e) as (s1 & Hs1 & Hr1 & Hf1 & Hc1 & Ht1 & Hh1).
    unfold base, logsSheet in Hr1, Hf1, Hc1. rewrite Hs0 in Hr1, Hf1, Hc1.
    cbn [fst] in Hr1, Hf1, Hc1.
    destruct (IH (write p e) s1 Hs1) as (s & Hs & Hr & Hf & Hc & Ht & Hh).
    exists s. split; [exact Hs|]. split; [|split; [|split; [|split]]].
    + rewrite Hr, Hr1, <- app_assoc. reflexivity.
    + rewrite Hf, Hf1. reflexivity.
    + rewrite Hc, Hc1, Hr1, <- app_assoc. f_equal.
      change (List.map entryRow (e :: entries))
        with ([entryRow e] ++ List.map entryRow entries).
      rewrite errorRowsFrom_app, length_app. simpl length.
      replace (S (length (rows s0)) + 1) with (S (length (rows s0) + 1))
        by lia.
      reflexivity.
    + rewrite Ht, Ht1. reflexivity.
    + rewrite Hh, Hh1. reflexivity.
Qed.

(** What a call leaves in the sheet depends on the sheet only. *)
Lemma write_logs (entries : list entry) :
  forall p1 p2 : project,
    logs p1 = logs p2 ->
    logs (fold_left write entries p1) = logs (fold_left write entries p2).
Proof.
  induction entries as [|e entries IH]; intros p1 p2 Hp; [exact Hp|].
  cbn [fold_left]. apply IH.
  unfold write, logMessage, logError, logsSheet. rewrite Hp.
  destruct e, (logs p2); reflexivity.
Qed.

(** The [viewLogs] of revision 1.1.0 opens the sheet the next call would
    write to. *)
Lemma viewLogs_base (p : project) :
  logs (MultiTargetMenu.viewLogs p) = Some (base p)
  /\ active (MultiTargetMenu.viewLogs p) = "Logs".
Proof.
  unfold MultiTargetMenu.viewLogs, base, logsSheet.
  destruct (logs p) eqn:Hl; simpl; rewrite ?Hl; split; reflexivity.
Qed.

End LogsSheet.

(** X16.  The "Logs" sheet is a faithful journal.  The calls of
    [logMessage] and [logError] add their rows after the rows the sheet
    had, or after the header of the sheet the first call inserts when there
    was none, in the order of the calls and with their times; they remove
    and change no row.  The rows they colour red are exactly their [ERROR]
    rows, so a sheet in which the red rows were the [ERROR] rows stays such
    a sheet, and a sheet the script has created is one.  The [viewLogs] of
    revision 1.1.0 inserts the same headed sheet when there is none and
    changes no row: the calls leave the same sheet after it. *)
Theorem logs_sheet_records_every_call (p : Workbook.project)
    (e : Journal.entry) (entries : list Journal.entry) :
  let before := Journal.base p in
  let after := fold_left Journal.write (e :: entries) p in
  exists s,
    Workbook.logs after = Some s
    /\ Workbook.rows s
       = Workbook.rows before
         ++ List.map Journal.entryRow (e :: entries)
    /\ Workbook.frozenRows s = Workbook.frozenRows before
    /\ Journal.redRows s
       = Journal.redRows before
         ++ Journal.errorRowsFrom (S (length (Workbook.rows before)))
              (List.map Journal.entryRow (e :: entries))
    /\ (Journal.redRows before
        = Journal.errorRowsFrom 1 (Workbook.rows before) ->
        Journal.redRows s = Journal.errorRowsFrom 1 (Workbook.rows s))
    /\ Journal.redRows Workbook.insertLogsSheet
       = Journal.errorRowsFrom 1 (Workbook.rows Workbook.insertLogsSheet)
    /\ Workbook.triggers after = Workbook.triggers p
    /\ Workbook.shown after = Workbook.shown p
    /\ Workbook.logs (MultiTargetMenu.viewLogs p) = Some before
    /\ Workbook.logs
         (fold_left Journal.write (e :: entries) (MultiTargetMenu.viewLogs p))
       = Some s.
Proof.
  intros before after. unfold after.
  assert (Workbook.logs
            (fold_left Journal.write (e :: entries)
               (MultiTargetMenu.viewLogs p))
          = Workbook.logs (fold_left Journal.write (e :: entries) p))
    as Hview.
  { cbn [fold_left]. apply write_logs.
    unfold Journal.write, Workbook.logMessage, Workbook.logError,
      Workbook.logsSheet, MultiTargetMenu.viewLogs.
    destruct e, (Workbook.logs p) eqn:Hl; simpl; rewrite ?Hl;
      reflexivity. }
  rewrite Hview. cbn [fold_left].
  destruct (write_once p e) as (s1 & Hs1 & Hr1 & Hf1 & Hc1 & Ht1 & Hh1).
  fold before in Hr1, Hf1, Hc1.
  destruct (write_all entries (Journal.write p e) s1 Hs1)
    as (s & Hs & Hr & Hf & Hc & Ht & Hh).
  assert (Journal.redRows s
          = Journal.redRows before
            ++ Journal.errorRowsFrom (S (length (Workbook.rows before)))
                 (List.map Journal.entryRow (e :: entries))) as Hred.
  { rewrite Hc, Hc1, Hr1, <- app_assoc. f_equal.
    change (List.map Journal.entryRow (e :: entries))
      with ([Journal.entryRow e] ++ List.map Journal.entryRow entries).
    rewrite errorRowsFrom_app, length_app. simpl length.
    replace (S (length (Workbook.rows before)) + 1)
      with (S (length (Workbook.rows before) + 1)) by lia.
    reflexivity. }
  exists s. split; [exact Hs|].
  split; [rewrite Hr, Hr1, <- app_assoc; reflexivity|].
  split; [rewrite Hf, Hf1; reflexivity|].
  split; [exact Hred|].
  split; [|split; [reflexivity|split; [|split; [|split]]]].
  - intros Hbefore. rewrite Hred, Hr, Hr1, <- app_assoc, Hbefore.
    rewrite (errorRowsFrom_app 1). reflexivity.
  - rewrite Ht, Ht1. reflexivity.
  - rewrite Hh, Hh1. reflexivity.
  - apply viewLogs_base.
  - exact Hs.
Qed.

(** ** The dialog of [viewLogs] *)

Section Dialog.
Import Workbook Journal.

(** The loop of [viewLogs] adds the table rows of the rows it runs over. *)
Lemma tableRows_spec (values : list (list JS.value)) (remaining : nat) :
  forall (i : nat) (logText : list piece),
    i + remaining <= length values ->
    ScriptMenu.tableRows values remaining i logText
    = logText
      ++ flat_map ScriptMenu.tableRow (take remaining (drop i values)).
Proof.
  induction remaining as [|n IH]; intros i logText Hi.
  - cbn [ScriptMenu.tableRows]. rewrite take_0. simpl.
    rewrite app_nil_r. reflexivity.
  - cbn [ScriptMenu.tableRows]. rewrite IH by lia.
    destruct (lookup_lt_is_Some_2 values i) as [row Hrow]; [lia|].
    rewrite (drop_S _ _ _ Hrow), nth_lookup, Hrow. simpl.
    rewrite <- app_assoc. reflexivity.
Qed.

Lemma tableRows_latest (values : list (list JS.value)) (k : nat)
    (logText : list piece) :
  k <= length values ->
  ScriptMenu.tableRows values k (length values - k) logText
  = logText ++ flat_map ScriptMenu.tableRow (latest k values).
Proof.
  intros Hk. rewrite tableRows_spec by lia. unfold latest.
  rewrite take_ge; [reflexivity|]. rewrite length_drop. lia.
Qed.

Lemma latest_cons {A} (k : nat) (x : A) (l : list A) :
  k <= length l -> latest k (x :: l) = latest k l.
Proof.
  intros Hk. unfold latest. simpl length.
  replace (S (length l) - k) with (S (length l - k)) by lia. reflexivity.
Qed.

Lemma latest_snoc {A} (k : nat) (x : A) (l : list A) :
  1 <= k <= S (length l) -> latest k (l ++ [x]) = latest (k - 1) l ++ [x].
Proof.
  intros Hk. unfold latest. rewrite length_app. simpl length.
  replace (length l + 1 - k) with (length l - (k - 1)) by lia.
  rewrite drop_app_le by lia. reflexivity.
Qed.

(** [viewLogs] shows the dialog of the specification and changes nothing
    else. *)
Lemma viewLogs_dialog (p : project) :
  ScriptMenu.viewLogs p = show (logsDialog (logs p)) p.
Proof.
  unfold ScriptMenu.viewLogs, logsDialog.
  destruct (logs p) as [s|]; [|reflexivity].
  destruct (getValues s) as [|header [|row rest]]; [reflexivity..|].
  change (length (header :: row :: rest) <=? 1)%nat with false.
  cbn [tl]. cbv iota zeta.
  change (length (header :: row :: rest) - 1) with (length (row :: rest)).
  set (entries := row :: rest). clearbody entries.
  set (k := Nat.min 50 (length entries)).
  assert (k <= length entries) as Hk by apply Nat.le_min_r.
  clearbody k.
  assert (length (header :: entries) = S (length entries)) as Hlen
    by reflexivity.
  replace (Nat.max 1 (length (header :: entries) - k))
    with (length (header :: entries) - k) by lia.
  replace (length (header :: entries) - (length (header :: entries) - k))
    with k by lia.
  rewrite tableRows_latest by lia.
  rewrite latest_cons by exact Hk. rewrite <- app_assoc. reflexivity.
Qed.

(** A row of three cells makes the same table row however far it is filled
    up. *)
Lemma tableRow_entryRow (e : entry) (filling : list JS.value) :
  ScriptMenu.tableRow (entryRow e ++ filling)
  = ScriptMenu.tableRow (entryRow e).
Proof. destruct e; reflexivity. Qed.

End Dialog.

(** X17.  [viewLogs] changes nothing and shows one thing.  Without a "Logs"
    sheet, or with one that has no row under its first row, it is a notice.
    Otherwise it is a dialog with one table row for each of the last 50
    rows of the sheet, or for all rows under the first when they are fewer,
    in the order of the sheet; the first row of the sheet is never among
    them, and the title gives their number. *)
Theorem viewLogs_shows_the_latest_entries (p : Workbook.project) :
  ScriptMenu.viewLogs p
  = Workbook.show (Journal.logsDialog (Workbook.logs p)) p
  /\ forall s : Workbook.sheet,
       let entries := tl (Workbook.getValues s) in
       let k := Nat.min 50 (length entries) in
       length (Journal.latest k entries) = k
       /\ k <= 50
       /\ Journal.latest k entries `suffix_of` entries.
Proof.
  split; [apply viewLogs_dialog|].
  intros s entries k.
  assert (k <= length entries) as Hk by apply Nat.le_min_r.
  split; [|split].
  - unfold Journal.latest. rewrite length_drop. lia.
  - apply Nat.le_min_l.
  - apply suffix_drop.
Qed.

Section Composition.
Import Workbook Journal.

(** What [getValues] reads of a sheet with content: its rows, filled up. *)
Lemma getValues_snoc (s : sheet) (before : list (list JS.value))
    (row : list JS.value) :
  rows s = before ++ [row] ->
  exists filled filling,
    getValues s = filled ++ [row ++ filling]
    /\ length filled = length before.
Proof.
  intros Hrows. unfold getValues. rewrite Hrows.
  destruct (before ++ [row]) as [|r0 l] eqn:Hl.
  { destruct before; discriminate. }
  rewrite <- Hl. rewrite List.map_app. simpl.
  eexists _, _. split; [reflexivity|]. apply length_map.
Qed.

End Composition.

(** X18.  A row just logged is the last row [viewLogs] shows, provided the
    sheet it was written to had a first row: the sheet the script inserts
    has its header, and so has every sheet it has written to before.  On a
    "Logs" sheet that exists and has no content, the first row logged takes
    the place of the header: [viewLogs] answers "No log entries found." *)
Theorem a_logged_row_is_shown_last (p : Workbook.project)
    (e : Journal.entry) :
  let logged := Journal.write p e in
  (Workbook.rows (Journal.base p) <> [] ->
   exists earlier k,
     ScriptMenu.viewLogs logged
     = Workbook.show
         (Workbook.ModalDialog
            (ScriptMenu.tableHead
             ++ (earlier ++ ScriptMenu.tableRow (Journal.entryRow e))
             ++ [Workbook.Lit "</table></body></html>"])
            800 500
            [Workbook.Lit "Sync Logs (Recent "; Workbook.Count k;
             Workbook.Lit " entries)"]) logged
     /\ 1 <= k <= 50)
  /\ (Workbook.rows (Journal.base p) = [] ->
      ScriptMenu.viewLogs logged
      = Workbook.show (Workbook.Alert None "No log entries found.") logged).
Proof.
  intros logged. unfold logged. rewrite viewLogs_dialog.
  destruct (write_once p e) as (s & Hs & Hr & _).
  rewrite Hs. unfold Journal.logsDialog.
  destruct (getValues_snoc s _ _ Hr) as (filled & filling & -> & Hlen).
  split.
  - intros Hne.
    destruct filled as [|header filled].
    { destruct (Workbook.rows (Journal.base p)); [contradiction|].
      discriminate. }
    cbn [app tl].
    destruct (filled ++ [Journal.entryRow e ++ filling]) as [|r0 l] eqn:Hl.
    { destruct filled; discriminate. }
    rewrite <- Hl. clear Hl r0 l.
    set (k := Nat.min 50 (length (filled ++
                                    [Journal.entryRow e ++ filling]))).
    assert (1 <= k <= 50 /\ k <= S (length filled)) as (Hk & Hk').
    { unfold k. rewrite length_app. simpl length. lia. }
    exists (flat_map ScriptMenu.tableRow (Journal.latest (k - 1) filled)), k.
    split; [|exact Hk].
    rewrite latest_snoc by lia.
    rewrite flat_map_app. cbn [flat_map].
    rewrite tableRow_entryRow, app_nil_r. reflexivity.
  - intros Hnil. rewrite Hnil in Hlen.
    destruct filled; [reflexivity | discriminate].
Qed.

(** A first row logged in a project without a "Logs" sheet is shown; logged
    in a project whose "Logs" sheet is empty, it is not. *)
Lemma a_logged_row_is_shown_last_witness :
  (exists earlier k,
     ScriptMenu.viewLogs
       (Journal.write Office.project (Journal.Failure 0 "Error in sync process"))
     = Workbook.show
         (Workbook.ModalDialog
            (ScriptMenu.tableHead
             ++ (earlier
                 ++ ScriptMenu.tableRow
                      (Journal.entryRow
                         (Journal.Failure 0 "Error in sync process")))
             ++ [Workbook.Lit "</table></body></html>"])
            800 500
            [Workbook.Lit "Sync Logs (Recent "; Workbook.Count k;
             Workbook.Lit " entries)"])
         (Journal.write Office.project
            (Journal.Failure 0 "Error in sync process"))
     /\ 1 <= k <= 50)
  /\ ScriptMenu.viewLogs
       (Journal.write Office.cleared (Journal.Info 0 "Starting sync process..."))
     = Workbook.show (Workbook.Alert None "No log entries found.")
         (Journal.write Office.cleared
            (Journal.Info 0 "Starting sync process...")).
Proof.
  split.
  - apply (proj1 (a_logged_row_is_shown_last Office.project
                    (Journal.Failure 0 "Error in sync process"))).
    discriminate.
  - apply (proj2 (a_logged_row_is_shown_last Office.cleared
                    (Journal.Info 0 "Starting sync process..."))).
    reflexivity.
Defined.

(** ** From the sheet to Airtable *)

(** A URL made of the prefix and a key gives back the key. *)
Lemma toRemoteRecord_standard (urlOf : AirtableRecord -> string)
    (record : AirtableRecord) (slug : string) :
  urlOf record = ACTBLUE_URL_PREFIX +:+ slug ->
  toRemoteRecord urlOf record
  = {| r_id := ar_id record;
       r_actBlueUrl := ACTBLUE_URL_PREFIX +:+ slug;
       r_formSlug := slug |}.
Proof.
  intros Hurl. unfold toRemoteRecord. rewrite Hurl.
  assert (JS.indexOf ACTBLUE_URL_PREFIX (ACTBLUE_URL_PREFIX +:+ slug)
          = Some 0) as Hidx.
  { assert (String.prefix ACTBLUE_URL_PREFIX (ACTBLUE_URL_PREFIX +:+ slug)
            = true) as Hp by (apply prefix_append; eauto).
    destruct (ACTBLUE_URL_PREFIX +:+ slug); cbn [JS.indexOf]; rewrite Hp;
      reflexivity. }
  rewrite Hidx.
  pose proof (replace_at ACTBLUE_URL_PREFIX "" slug Hidx) as Hcut.
  change ("" +:+ ACTBLUE_URL_PREFIX +:+ slug)
    with (ACTBLUE_URL_PREFIX +:+ slug) in Hcut.
  change ("" +:+ slug) with slug in Hcut.
  rewrite Hcut. reflexivity.
Qed.

(** What [JSON.stringify] writes for a number that is neither zero nor
    [NaN]. *)
Lemma JSON_stringify_truthy (x : float) :
  JS.truthy x = true -> JSON_stringify (JS.Num x) = numeral_or_null x.
Proof.
  unfold JS.truthy, JSON_stringify, numeral_or_null, is_finite.
  intros Hx. apply negb_true_iff, orb_false_iff in Hx as [-> ->].
  simpl. destruct (is_infinity x); reflexivity.
Qed.

(** What [JSON.stringify] writes for [x || 0]. *)
Lemma JSON_stringify_or_else (x : float) :
  JSON_stringify (JS.Num (JS.or_else x 0))
  = numeral_or_null (JS.or_else x 0).
Proof.
  unfold JS.or_else. destruct (JS.truthy x) eqn:Hx;
    [apply JSON_stringify_truthy, Hx | reflexivity].
Qed.

(** The updates a run of [syncData] sends are those of its plan. *)
Lemma Script_syncData_updates `{Host} (key : string) (w : world) :
  patches (added (Script.syncData key) w)
  = List.map (Script.updateRequest key)
      (planned Script.actBlueUrlOf (carried (answer key w))
         (sheetRead key w)).
Proof.
  pose proof (Script_syncData_run key w) as Hrun. cbv zeta in Hrun.
  destruct Hrun as (closing & R & _).
  unfold patches. rewrite R. apply patches_of_plan.
Qed.

(** X19.  From the sheet to Airtable.  When the answer a run of [syncData]
    gets to its read request carries a record whose URL is the prefix
    followed by a key, the data sheet as the run finds it has a retained
    row of that key, and every retained row of that key carries a positive
    amount, the run sends the update of that record, and the body of this
    request, as [JSON.stringify] writes it, carries as [Raised] the
    left-to-right sum of these amounts and as [Donations] the sum of their
    counts ([0] when this sum is zero or [NaN]), each of them written as
    [null] when it has grown to an infinity (the key being no name of a
    member of [Object.prototype]). *)
Theorem syncData_writes_the_sums `{Host} (key : string) (w : world)
    (item : AirtableRecord) (slug : string) :
  let records := validRecords Script.actBlueUrlOf (carried (answer key w)) in
  let rows :=
    rowsOf slug
      (sheetRowsOf (List.map r_formSlug records) (sheetRead key w)) in
  let amount := sumOf dollarsRaised rows in
  let count := JS.or_else (sumOf numDonations rows) 0 in
  item ∈ carried (answer key w) ->
  Script.actBlueUrlOf item = ACTBLUE_URL_PREFIX +:+ slug ->
  slug ∉ JS.Object_prototype ->
  rows <> [] ->
  Forall (fun row => (0 <? dollarsRaised row)%float = true) rows ->
  exists r,
    r ∈ patches (added (Script.syncData key) w)
    /\ r = Script.updateRequest key
             {| u_id := ar_id item;
                raised := JS.Num amount;
                donations := JS.Num count |}
    /\ written r
       = [ ("Raised", numeral_or_null amount);
           ("fldoNVriyq6Z0YEE7", numeral_or_null amount);
           ("Donations", numeral_or_null count);
           ("fldgEEtQMx96RUqds", numeral_or_null count) ].
Proof.
  intros records rows amount count Hin Hurl Hkey Hne Hpos.
  eexists. split; [|split; [reflexivity|]].
  2:{ unfold written. cbn [Script.updateRequest req_fields List.map fst snd
                             raised donations].
      unfold count. rewrite JSON_stringify_or_else.
      rewrite (JSON_stringify_truthy amount)
        by (apply pos_truthy, sumOf_pos; assumption).
      reflexivity. }
  rewrite Script_syncData_updates. unfold planned. fold records.
  set (sheetData :=
         sheetRowsOf (List.map r_formSlug records) (sheetRead key w)) in *.
  assert (exists row, row ∈ sheetData /\ formName row = slug)
    as (row & Hrow & Hname).
  { destruct rows as [|row rows'] eqn:Hrows; [contradiction|].
    assert (row ∈ rowsOf slug sheetData) as Hr
      by (fold rows; rewrite Hrows; left).
    unfold rowsOf in Hr. apply list_elem_of_In, filter_In in Hr as [Hr Hn].
    exists row. split; [apply list_elem_of_In, Hr|].
    apply String.eqb_eq, Hn. }
  assert (slug <> "") as Hslug.
  { destruct (sheetRowsOf_sound (List.map r_formSlug records)
                (sheetRead key w)) as [Hsound _].
    fold sheetData in Hsound.
    rewrite Forall_forall in Hsound. destruct (Hsound row Hrow) as [Hn _].
    rewrite <- Hname. exact Hn. }
  pose (record := {| r_id := ar_id item;
                     r_actBlueUrl := ACTBLUE_URL_PREFIX +:+ slug;
                     r_formSlug := slug |}).
  assert (record ∈ records) as Hrec.
  { unfold records. rewrite validRecords_omap. apply list_elem_of_omap.
    exists item. split; [exact Hin|].
    rewrite produced_eq, (toRemoteRecord_standard _ _ _ Hurl). simpl.
    apply string_truthy_iff in Hslug. rewrite Hslug. reflexivity. }
  destruct (emitted_sums sheetData record Hkey Hne Hpos) as (_ & _ & He).
  assert (forall X : list UpdateInstruction,
            match sheetData with [] => [] | _ :: _ => X end = X) as ->.
  { intros X. destruct sheetData; [|reflexivity].
    apply elem_of_nil in Hrow. destruct Hrow. }
  apply list_elem_of_fmap. eexists. split; [reflexivity|].
  rewrite joinRecords_emitted. apply list_elem_of_omap.
  exists record. split; [exact Hrec | exact He].
Qed.

(** The scenario of the specification, on a network that shows the updates
    it has accepted: the two rows of [alpha] make the update of [r1], whose
    body carries 15 raised in 3 donations. *)
Lemma syncData_writes_the_sums_witness :
  exists r,
    r ∈ patches (added (Script.syncData (H := Scenario.live_host) "key")
                   Scenario.fresh)
    /\ r = {| req_method := PATCH;
              req_url := "https://api.airtable.com/v0/appGDzLGgrYmcW9R1/tblTo3zgLYNby9UnL/r1";
              req_bearer := "key";
              req_fields := [("Raised", JS.Num 15);
                             ("fldoNVriyq6Z0YEE7", JS.Num 15);
                             ("Donations", JS.Num 3);
                             ("fldgEEtQMx96RUqds", JS.Num 3)] |}
    /\ written r
       = [ ("Raised", JNumber 15);
           ("fldoNVriyq6Z0YEE7", JNumber 15);
           ("Donations", JNumber 3);
           ("fldgEEtQMx96RUqds", JNumber 3) ].
Proof.
  refine (syncData_writes_the_sums (H := Scenario.live_host) "key"
            Scenario.fresh
            {| ar_id := "r1";
               ar_fields := {[ "ActBlue Page" :=
                                 "https://secure.actblue.com/donate/alpha" ]} |}
            "alpha" _ _ _ _ _).
  - left.
  - reflexivity.
  - apply (bool_decide_unpack _). vm_compute. exact I.
  - vm_compute. discriminate.
  - vm_compute. repeat constructor.
Defined.

(** An amount that is the text [Infinity] is retained and summed, and goes
    out as [null]. *)
Lemma unbounded_amount_is_written_null :
  List.map written
    (patches (added (Script.syncData (H := Overflow.host) "key")
                Scenario.fresh))
  = [ [ ("Raised", JNull);
        ("fldoNVriyq6Z0YEE7", JNull);
        ("Donations", JNumber 1);
        ("fldgEEtQMx96RUqds", JNumber 1) ] ].
Proof. vm_compute. reflexivity. Qed.
